(** * To-do list: task model, cached repositories, service and controller

    A shallow embedding of the JavaScript sources:
    - the [Task] class (constructor, mutators, [toJSON] / [fromJSON]);
    - [TaskRepository] and [UserRepository] (CRUD over a persistence
      collaborator, with a per-id cache that expires);
    - [TaskService] and [TaskController] (permission-gated mutation).

    Conventions of the embedding.
    - A JavaScript string is a [string]; [toLowerCase] and [trim] act on the
      ASCII letters and the ASCII white space.
    - A [Date] is its time value in milliseconds, or [InvalidDate].  A date-time
      string is [ISO ms], the text that [toISOString] prints for the instant
      [ms], or text that [Date] cannot parse.
    - A number (hours) is an IEEE 754 double, Rocq's primitive [float]: NaN,
      the infinities and the two zeros are values of it, and arithmetic
      rounds as the engine's does.
    - A method that may throw returns a [Result]; a method of the repository,
      service or controller also threads the state it mutates.
    - [Date.now()] and [new Date()] read the instant [now] handed to the
      operation; [_generateId()] returns the identifier [fresh] handed to it.
    - An entity is a value: no caller in the sources mutates a task that it
      received from a repository, so the object a cache entry shares with
      its callers is modelled by its contents. *)

From Stdlib Require Import Floats ZArith String Ascii List Bool Lia Sorted.
From stdpp Require Import base option list gmap strings.

Open Scope string_scope.
Open Scope list_scope.
Open Scope Z_scope.

(** ** Exceptions *)

Inductive JsError :=
| Error (message : string)
| TypeError (message : string)
| RangeError (message : string).

Inductive Result (A : Type) :=
| Ok (value : A)
| Throw (e : JsError).

Arguments Ok {A} value.
Arguments Throw {A} e.

Definition bindR {A B} (r : Result A) (k : A -> Result B) : Result B :=
  match r with
  | Ok a => k a
  | Throw e => Throw e
  end.

Notation "'let*' x ':=' c 'in' k" := (bindR c (fun x => k))
  (at level 10, x name, c at level 100, k at level 200).

Fixpoint mapR {A B} (f : A -> Result B) (l : list A) : Result (list B) :=
  match l with
  | [] => Ok []
  | a :: l' =>
      let* b := f a in
      let* bs := mapR f l' in
      Ok (b :: bs)
  end.

Definition isOk {A} (r : Result A) : bool :=
  match r with Ok _ => true | Throw _ => false end.

(** ** Numbers *)

Module Number.

Definition zero : float := 0%float.
Definition hundred : float := 100%float.

(** A number is truthy unless it is [0], [-0] or [NaN]. *)
Definition truthy (x : float) : bool :=
  negb (PrimFloat.eqb x zero || PrimFloat.is_nan x).

(** [Math.min(a, b)]: [NaN] when an argument is, and [-0] counts as less
    than [+0]. *)
Definition Math_min (a b : float) : float :=
  if PrimFloat.is_nan a || PrimFloat.is_nan b then PrimFloat.nan
  else if PrimFloat.ltb b a then b
  else if PrimFloat.ltb a b then a
  else match PrimFloat.classify b with
       | NZero => b
       | _ => a
       end.

End Number.

(** ** Strings *)

Module Js.

Definition is_upper (c : ascii) : bool :=
  (65 <=? nat_of_ascii c)%nat && (nat_of_ascii c <=? 90)%nat.

Definition lower_char (c : ascii) : ascii :=
  if is_upper c then ascii_of_nat (nat_of_ascii c + 32) else c.

(** [String.prototype.toLowerCase] *)
Fixpoint toLowerCase (s : string) : string :=
  match s with
  | EmptyString => EmptyString
  | String c r => String (lower_char c) (toLowerCase r)
  end.

(** tab, line feed, vertical tab, form feed, carriage return, space *)
Definition is_space (c : ascii) : bool :=
  let n := nat_of_ascii c in
  ((9 <=? n)%nat && (n <=? 13)%nat) || (n =? 32)%nat.

Fixpoint trimStart (s : string) : string :=
  match s with
  | EmptyString => EmptyString
  | String c r => if is_space c then trimStart r else s
  end.

Fixpoint trimEnd (s : string) : string :=
  match s with
  | EmptyString => EmptyString
  | String c r =>
      match trimEnd r with
      | EmptyString => if is_space c then EmptyString else String c EmptyString
      | r' => String c r'
      end
  end.

(** [String.prototype.trim] *)
Definition trim (s : string) : string := trimEnd (trimStart s).

(** A string that starts with no white space. *)
Definition starts_clean (s : string) : bool :=
  match s with
  | EmptyString => true
  | String c _ => negb (is_space c)
  end.

(** A string is truthy when it is not empty. *)
Definition truthy (s : string) : bool := negb (String.eqb s "").

(** [o || d] for a string that may be undefined *)
Definition or_else (o : option string) (d : string) : string :=
  match o with
  | Some s => if truthy s then s else d
  | None => d
  end.

(** [Array.prototype.includes] on strings *)
Definition includes (l : list string) (s : string) : bool :=
  existsb (String.eqb s) l.

(** [Array.prototype.join] *)
Fixpoint join (sep : string) (l : list string) : string :=
  match l with
  | [] => ""
  | [s] => s
  | s :: l' => (s ++ sep ++ join sep l')%string
  end.

Fixpoint starts_with (p s : string) : bool :=
  match p, s with
  | EmptyString, _ => true
  | String a p', String b s' => Ascii.eqb a b && starts_with p' s'
  | String _ _, EmptyString => false
  end.

(** [String.prototype.includes] *)
Fixpoint str_includes (s p : string) : bool :=
  starts_with p s ||
  match s with
  | EmptyString => false
  | String _ s' => str_includes s' p
  end.

(** [indexOf] then [splice(index, 1)]: the first occurrence is removed. *)
Fixpoint remove_first (x : string) (l : list string) : option (list string) :=
  match l with
  | [] => None
  | y :: l' =>
      if String.eqb y x then Some l'
      else match remove_first x l' with
           | Some r => Some (y :: r)
           | None => None
           end
  end.

(** The relational operators on strings compare code units. *)
Definition str_gt (a b : string) : bool := String.ltb b a.
Definition str_lt (a b : string) : bool := String.ltb a b.

(** *** Dates *)

Inductive Date :=
| DateAt (ms : Z)
| InvalidDate.

Inductive DateString :=
| ISO (ms : Z)
| Unparsable (text : string).

(** [new Date(s)] for a string [s] *)
Definition parse (s : DateString) : Date :=
  match s with
  | ISO ms => DateAt ms
  | Unparsable _ => InvalidDate
  end.

Definition truthy_date_string (s : DateString) : bool :=
  match s with
  | ISO _ => true
  | Unparsable text => truthy text
  end.

(** What callers hand to [setDueDate]: a [Date] object or a string. *)
Inductive DateInput :=
| OfDate (d : Date)
| OfString (s : DateString).

(** [Date.prototype.toISOString] throws on an invalid date. *)
Definition toISOString (d : Date) : Result DateString :=
  match d with
  | DateAt ms => Ok (ISO ms)
  | InvalidDate => Throw (RangeError "Invalid time value")
  end.

(** [isNaN(d.getTime())] *)
Definition isNaN_getTime (d : Date) : bool :=
  match d with
  | DateAt _ => false
  | InvalidDate => true
  end.

(** [a > b] and [a < b] on dates: a comparison with NaN is false. *)
Definition date_gt (a b : Date) : bool :=
  match a, b with
  | DateAt x, DateAt y => y <? x
  | _, _ => false
  end.

Definition date_lt (a b : Date) : bool := date_gt b a.

End Js.

(** ** Plain objects *)

Module Note.

Record t := {
  id : string;
  content : string;
  author : option string;
  createdAt : Js.Date
}.

End Note.

(** A plain task object: the argument of [Task.fromJSON], the [options] of
    the constructor, a row of the persisted collection.  A property that is
    absent or [null] is [None]. *)
Module TaskData.

Record t := {
  id : option string;
  title : option string;
  description : option string;
  userId : option string;
  assignedTo : option string;
  priority : option string;
  category : option string;
  tags : option (list string);
  completed : option bool;
  status : option string;
  dueDate : option Js.DateString;
  estimatedHours : option float;
  actualHours : option float;
  notes : option (list Note.t);
  attachments : option (list string);
  dependencies : option (list string);
  createdAt : option Js.DateString;
  updatedAt : option Js.DateString;
  completedAt : option Js.DateString
}.

End TaskData.

(** ** The Task class *)

Module Task.

(** The own properties of an instance, in the order the constructor
    creates them. *)
Record t := {
  _id : string;
  _createdAt : Js.Date;
  _title : string;
  _description : string;
  _priority : string;
  _completed : bool;
  _updatedAt : Js.Date;
  _userId : string;
  _assignedTo : string;
  _category : string;
  _tags : list string;
  _dueDate : option Js.Date;
  _estimatedHours : option float;
  _actualHours : option float;
  _status : string;
  _completedAt : option Js.Date;
  _notes : list Note.t;
  _attachments : list string;
  _dependencies : list string
}.

(** Assignment to one own property. *)
Definition set_id (v : string) (task : t) : t :=
  let '(Build_t x0 x1 x2 x3 x4 x5 x6 x7 x8 x9 x10 x11 x12 x13 x14 x15 x16 x17 x18) := task in
  Build_t v x1 x2 x3 x4 x5 x6 x7 x8 x9 x10 x11 x12 x13 x14 x15 x16 x17 x18.

Definition set_createdAt (v : Js.Date) (task : t) : t :=
  let '(Build_t x0 x1 x2 x3 x4 x5 x6 x7 x8 x9 x10 x11 x12 x13 x14 x15 x16 x17 x18) := task in
  Build_t x0 v x2 x3 x4 x5 x6 x7 x8 x9 x10 x11 x12 x13 x14 x15 x16 x17 x18.

Definition set_title (v : string) (task : t) : t :=
  let '(Build_t x0 x1 x2 x3 x4 x5 x6 x7 x8 x9 x10 x11 x12 x13 x14 x15 x16 x17 x18) := task in
  Build_t x0 x1 v x3 x4 x5 x6 x7 x8 x9 x10 x11 x12 x13 x14 x15 x16 x17 x18.

Definition set_description (v : string) (task : t) : t :=
  let '(Build_t x0 x1 x2 x3 x4 x5 x6 x7 x8 x9 x10 x11 x12 x13 x14 x15 x16 x17 x18) := task in
  Build_t x0 x1 x2 v x4 x5 x6 x7 x8 x9 x10 x11 x12 x13 x14 x15 x16 x17 x18.

Definition set_priority (v : string) (task : t) : t :=
  let '(Build_t x0 x1 x2 x3 x4 x5 x6 x7 x8 x9 x10 x11 x12 x13 x14 x15 x16 x17 x18) := task in
  Build_t x0 x1 x2 x3 v x5 x6 x7 x8 x9 x10 x11 x12 x13 x14 x15 x16 x17 x18.

Definition set_completed (v : bool) (task : t) : t :=
  let '(Build_t x0 x1 x2 x3 x4 x5 x6 x7 x8 x9 x10 x11 x12 x13 x14 x15 x16 x17 x18) := task in
  Build_t x0 x1 x2 x3 x4 v x6 x7 x8 x9 x10 x11 x12 x13 x14 x15 x16 x17 x18.

Definition set_updatedAt (v : Js.Date) (task : t) : t :=
  let '(Build_t x0 x1 x2 x3 x4 x5 x6 x7 x8 x9 x10 x11 x12 x13 x14 x15 x16 x17 x18) := task in
  Build_t x0 x1 x2 x3 x4 x5 v x7 x8 x9 x10 x11 x12 x13 x14 x15 x16 x17 x18.

Definition set_userId (v : string) (task : t) : t :=
  let '(Build_t x0 x1 x2 x3 x4 x5 x6 x7 x8 x9 x10 x11 x12 x13 x14 x15 x16 x17 x18) := task in
  Build_t x0 x1 x2 x3 x4 x5 x6 v x8 x9 x10 x11 x12 x13 x14 x15 x16 x17 x18.

Definition set_assignedTo (v : string) (task : t) : t :=
  let '(Build_t x0 x1 x2 x3 x4 x5 x6 x7 x8 x9 x10 x11 x12 x13 x14 x15 x16 x17 x18) := task in
  Build_t x0 x1 x2 x3 x4 x5 x6 x7 v x9 x10 x11 x12 x13 x14 x15 x16 x17 x18.

Definition set_category (v : string) (task : t) : t :=
  let '(Build_t x0 x1 x2 x3 x4 x5 x6 x7 x8 x9 x10 x11 x12 x13 x14 x15 x16 x17 x18) := task in
  Build_t x0 x1 x2 x3 x4 x5 x6 x7 x8 v x10 x11 x12 x13 x14 x15 x16 x17 x18.

Definition set_tags (v : list string) (task : t) : t :=
  let '(Build_t x0 x1 x2 x3 x4 x5 x6 x7 x8 x9 x10 x11 x12 x13 x14 x15 x16 x17 x18) := task in
  Build_t x0 x1 x2 x3 x4 x5 x6 x7 x8 x9 v x11 x12 x13 x14 x15 x16 x17 x18.

Definition set_dueDate (v : option Js.Date) (task : t) : t :=
  let '(Build_t x0 x1 x2 x3 x4 x5 x6 x7 x8 x9 x10 x11 x12 x13 x14 x15 x16 x17 x18) := task in
  Build_t x0 x1 x2 x3 x4 x5 x6 x7 x8 x9 x10 v x12 x13 x14 x15 x16 x17 x18.

Definition set_estimatedHours (v : option float) (task : t) : t :=
  let '(Build_t x0 x1 x2 x3 x4 x5 x6 x7 x8 x9 x10 x11 x12 x13 x14 x15 x16 x17 x18) := task in
  Build_t x0 x1 x2 x3 x4 x5 x6 x7 x8 x9 x10 x11 v x13 x14 x15 x16 x17 x18.

Definition set_actualHours (v : option float) (task : t) : t :=
  let '(Build_t x0 x1 x2 x3 x4 x5 x6 x7 x8 x9 x10 x11 x12 x13 x14 x15 x16 x17 x18) := task in
  Build_t x0 x1 x2 x3 x4 x5 x6 x7 x8 x9 x10 x11 x12 v x14 x15 x16 x17 x18.

Definition set_status (v : string) (task : t) : t :=
  let '(Build_t x0 x1 x2 x3 x4 x5 x6 x7 x8 x9 x10 x11 x12 x13 x14 x15 x16 x17 x18) := task in
  Build_t x0 x1 x2 x3 x4 x5 x6 x7 x8 x9 x10 x11 x12 x13 v x15 x16 x17 x18.

Definition set_completedAt (v : option Js.Date) (task : t) : t :=
  let '(Build_t x0 x1 x2 x3 x4 x5 x6 x7 x8 x9 x10 x11 x12 x13 x14 x15 x16 x17 x18) := task in
  Build_t x0 x1 x2 x3 x4 x5 x6 x7 x8 x9 x10 x11 x12 x13 x14 v x16 x17 x18.

Definition set_notes (v : list Note.t) (task : t) : t :=
  let '(Build_t x0 x1 x2 x3 x4 x5 x6 x7 x8 x9 x10 x11 x12 x13 x14 x15 x16 x17 x18) := task in
  Build_t x0 x1 x2 x3 x4 x5 x6 x7 x8 x9 x10 x11 x12 x13 x14 x15 v x17 x18.

Definition set_attachments (v : list string) (task : t) : t :=
  let '(Build_t x0 x1 x2 x3 x4 x5 x6 x7 x8 x9 x10 x11 x12 x13 x14 x15 x16 x17 x18) := task in
  Build_t x0 x1 x2 x3 x4 x5 x6 x7 x8 x9 x10 x11 x12 x13 x14 x15 x16 v x18.

Definition set_dependencies (v : list string) (task : t) : t :=
  let '(Build_t x0 x1 x2 x3 x4 x5 x6 x7 x8 x9 x10 x11 x12 x13 x14 x15 x16 x17 x18) := task in
  Build_t x0 x1 x2 x3 x4 x5 x6 x7 x8 x9 x10 x11 x12 x13 x14 x15 x16 x17 v.

Definition validPriorities : list string := ["low"; "medium"; "high"; "urgent"].

Definition validStatuses : list string :=
  ["pending"; "in-progress"; "blocked"; "completed"; "cancelled"].

Definition _validateConstructorParams
    (title description userId : option string) : Result unit :=
  if negb (Js.truthy (default "" title))
     || String.eqb (Js.trim (default "" title)) "" then
    Throw (Error "Task title is required and must be a non-empty string")
  else if negb (Js.truthy (default "" userId)) then
    Throw (Error "User ID is required and must be a non-empty string")
  else Ok tt.

Definition _validatePriority (priority : string) : Result string :=
  if negb (Js.includes validPriorities priority) then
    Throw (Error ("Invalid priority: " ++ priority ++ ". Must be one of: "
                  ++ Js.join ", " validPriorities))
  else Ok priority.

Definition _validateCategory (category : string) : Result string :=
  if negb (Js.truthy category) then
    Throw (Error "Category must be a non-empty string")
  else Ok (Js.toLowerCase (Js.trim category)).

Definition _validateTags (tags : list string) : Result (list string) :=
  Ok (map (fun tag => Js.toLowerCase (Js.trim tag)) tags).

Definition _validateStatus (status : string) : Result string :=
  if negb (Js.includes validStatuses status) then
    Throw (Error ("Invalid status: " ++ status ++ ". Must be one of: "
                  ++ Js.join ", " validStatuses))
  else Ok status.

Definition _validateHours (hours : option float) : Result (option float) :=
  match hours with
  | None => Ok None
  | Some h =>
      if PrimFloat.ltb h Number.zero then
        Throw (Error "Hours must be a positive number or null")
      else Ok (Some h)
  end.

(** [s ? new Date(s) : d] *)
Definition date_or (s : option Js.DateString) (d : Js.Date) : Js.Date :=
  match s with
  | Some x => if Js.truthy_date_string x then Js.parse x else d
  | None => d
  end.

(** [s ? new Date(s) : null] *)
Definition date_or_null (s : option Js.DateString) : option Js.Date :=
  match s with
  | Some x => if Js.truthy_date_string x then Some (Js.parse x) else None
  | None => None
  end.

(** [new Task(title, description, userId, options)] *)
Definition constructor (title description userId : option string)
    (options : TaskData.t) (now : Z) (fresh : string) : Result t :=
  let* _ := _validateConstructorParams title description userId in
  let id := Js.or_else (TaskData.id options) fresh in
  let createdAt := date_or (TaskData.createdAt options) (Js.DateAt now) in
  let title' := Js.trim (default "" title) in
  let description' :=
    match description with
    | Some d => if Js.truthy d then Js.trim d else ""
    | None => ""
    end in
  let* priority := _validatePriority (Js.or_else (TaskData.priority options) "medium") in
  let completed := default false (TaskData.completed options) in
  let updatedAt := date_or (TaskData.updatedAt options) (Js.DateAt now) in
  let userId' := default "" userId in
  let assignedTo := Js.or_else (TaskData.assignedTo options) userId' in
  let* category := _validateCategory (Js.or_else (TaskData.category options) "general") in
  let* tags := _validateTags (default [] (TaskData.tags options)) in
  let dueDate := date_or_null (TaskData.dueDate options) in
  let* estimatedHours := _validateHours (TaskData.estimatedHours options) in
  let* actualHours := _validateHours (TaskData.actualHours options) in
  let* status := _validateStatus (Js.or_else (TaskData.status options) "pending") in
  let completedAt := date_or_null (TaskData.completedAt options) in
  Ok {| _id := id;
        _createdAt := createdAt;
        _title := title';
        _description := description';
        _priority := priority;
        _completed := completed;
        _updatedAt := updatedAt;
        _userId := userId';
        _assignedTo := assignedTo;
        _category := category;
        _tags := tags;
        _dueDate := dueDate;
        _estimatedHours := estimatedHours;
        _actualHours := actualHours;
        _status := status;
        _completedAt := completedAt;
        _notes := default [] (TaskData.notes options);
        _attachments := default [] (TaskData.attachments options);
        _dependencies := default [] (TaskData.dependencies options) |}.

(** *** Computed properties *)

Definition isOverdue (now : Z) (task : t) : bool :=
  match _dueDate task with
  | None => false
  | Some due =>
      if _completed task then false else Js.date_gt (Js.DateAt now) due
  end.

Definition truthy_hours (h : option float) : bool :=
  match h with
  | Some x => Number.truthy x
  | None => false
  end.

(** [Math.min] *)
Definition Math_min (a b : float) : float := Number.Math_min a b.

Definition progress (task : t) : float :=
  if _completed task then Number.hundred
  else if negb (truthy_hours (_estimatedHours task))
          || negb (truthy_hours (_actualHours task)) then Number.zero
  else Math_min Number.hundred
         (default Number.zero (_actualHours task)
          / default Number.zero (_estimatedHours task) * Number.hundred)%float.

(** *** Mutators *)

Definition _touch (now : Z) (task : t) : t :=
  set_updatedAt (Js.DateAt now) task.

Definition updateTitle (newTitle : string) (now : Z) (task : t) : Result t :=
  if negb (Js.truthy newTitle) || String.eqb (Js.trim newTitle) "" then
    Throw (Error "Task title cannot be empty")
  else Ok (_touch now (set_title (Js.trim newTitle) task)).

Definition updateDescription (newDescription : option string) (now : Z)
    (task : t) : Result t :=
  let d := match newDescription with
           | Some d => if Js.truthy d then Js.trim d else ""
           | None => ""
           end in
  Ok (_touch now (set_description d task)).

Definition updatePriority (newPriority : string) (now : Z) (task : t) : Result t :=
  let* p := _validatePriority newPriority in
  Ok (_touch now (set_priority p task)).

Definition markComplete (now : Z) (task : t) : t :=
  if _completed task then task
  else
    _touch now
      (set_completedAt (Some (Js.DateAt now))
         (set_status "completed" (set_completed true task))).

Definition markIncomplete (now : Z) (task : t) : t :=
  if negb (_completed task) then task
  else
    _touch now
      (set_completedAt None
         (set_status "pending" (set_completed false task))).

Definition assignTo (userId : string) (now : Z) (task : t) : Result t :=
  if negb (Js.truthy userId) then
    Throw (Error "Valid user ID is required for assignment")
  else Ok (_touch now (set_assignedTo userId task)).

Definition reassignToOwner (now : Z) (task : t) : t :=
  _touch now (set_assignedTo (_userId task) task).

Definition setCategory (category : string) (now : Z) (task : t) : Result t :=
  let* c := _validateCategory category in
  Ok (_touch now (set_category c task)).

Definition addTag (tag : string) (now : Z) (task : t) : Result t :=
  if negb (Js.truthy tag) then
    Throw (Error "Tag must be a non-empty string")
  else
    let normalizedTag := Js.toLowerCase (Js.trim tag) in
    if negb (Js.includes (_tags task) normalizedTag) then
      Ok (_touch now (set_tags (_tags task ++ [normalizedTag]) task))
    else Ok task.

Definition removeTag (tag : string) (now : Z) (task : t) : t :=
  let normalizedTag := Js.toLowerCase (Js.trim tag) in
  match Js.remove_first normalizedTag (_tags task) with
  | Some tags => _touch now (set_tags tags task)
  | None => task
  end.

Definition clearTags (now : Z) (task : t) : t :=
  _touch now (set_tags [] task).

Definition hasTag (tag : string) (task : t) : bool :=
  Js.includes (_tags task) (Js.toLowerCase (Js.trim tag)).

Definition setDueDate (date : option Js.DateInput) (now : Z) (task : t) : Result t :=
  let date' :=
    match date with
    | Some (Js.OfDate d) => Some d
    | Some (Js.OfString s) =>
        if Js.truthy_date_string s then Some (Js.parse s) else None
    | None => None
    end in
  match date' with
  | Some d =>
      if Js.isNaN_getTime d then Throw (Error "Invalid due date")
      else Ok (_touch now (set_dueDate (Some d) task))
  | None => Ok (_touch now (set_dueDate None task))
  end.

Definition clearDueDate (now : Z) (task : t) : t :=
  _touch now (set_dueDate None task).

Definition setEstimatedHours (hours : option float) (now : Z) (task : t) : Result t :=
  let* h := _validateHours hours in
  Ok (_touch now (set_estimatedHours h task)).

Definition setActualHours (hours : option float) (now : Z) (task : t) : Result t :=
  let* h := _validateHours hours in
  Ok (_touch now (set_actualHours h task)).

Definition addTimeSpent (hours : float) (now : Z) (task : t) : Result t :=
  if PrimFloat.ltb hours Number.zero then
    Throw (Error "Hours must be a positive number")
  else
    let current := if truthy_hours (_actualHours task)
                   then default Number.zero (_actualHours task)
                   else Number.zero in
    Ok (_touch now (set_actualHours (Some (current + hours)%float) task)).

Definition setStatus (status : string) (now : Z) (task : t) : Result t :=
  let* s := _validateStatus status in
  let task := set_status s task in
  (* Auto-update completion status based on status *)
  if String.eqb status "completed" && negb (_completed task) then
    Ok (markComplete now task)
  else if negb (String.eqb status "completed") && _completed task then
    Ok (markIncomplete now task)
  else Ok task.

Definition addNote (note : string) (author : option string) (now : Z)
    (fresh : string) (task : t) : Result t :=
  if negb (Js.truthy note) then
    Throw (Error "Note must be a non-empty string")
  else
    let noteObj := {| Note.id := fresh;
                      Note.content := Js.trim note;
                      Note.author := author;
                      Note.createdAt := Js.DateAt now |} in
    Ok (_touch now (set_notes (_notes task ++ [noteObj]) task)).

Fixpoint remove_first_note (noteId : string) (l : list Note.t) : option (list Note.t) :=
  match l with
  | [] => None
  | n :: l' =>
      if String.eqb (Note.id n) noteId then Some l'
      else match remove_first_note noteId l' with
           | Some r => Some (n :: r)
           | None => None
           end
  end.

Definition removeNote (noteId : string) (now : Z) (task : t) : t :=
  match remove_first_note noteId (_notes task) with
  | Some notes => _touch now (set_notes notes task)
  | None => task
  end.

Definition addDependency (taskId : string) (now : Z) (task : t) : Result t :=
  if negb (Js.truthy taskId) then
    Throw (Error "Task ID must be a non-empty string")
  else if String.eqb taskId (_id task) then
    Throw (Error "Task cannot depend on itself")
  else if negb (Js.includes (_dependencies task) taskId) then
    Ok (_touch now (set_dependencies (_dependencies task ++ [taskId]) task))
  else Ok task.

Definition removeDependency (taskId : string) (now : Z) (task : t) : t :=
  match Js.remove_first taskId (_dependencies task) with
  | Some deps => _touch now (set_dependencies deps task)
  | None => task
  end.

Definition hasDependency (taskId : string) (task : t) : bool :=
  Js.includes (_dependencies task) taskId.

(** *** Serialization *)

(** [d ? d.toISOString() : null] *)
Definition iso_or_null (d : option Js.Date) : Result (option Js.DateString) :=
  match d with
  | Some x => let* s := Js.toISOString x in Ok (Some s)
  | None => Ok None
  end.

Definition toJSON (task : t) : Result TaskData.t :=
  let* dueDate := iso_or_null (_dueDate task) in
  let* createdAt := Js.toISOString (_createdAt task) in
  let* updatedAt := Js.toISOString (_updatedAt task) in
  let* completedAt := iso_or_null (_completedAt task) in
  Ok {| TaskData.id := Some (_id task);
        TaskData.title := Some (_title task);
        TaskData.description := Some (_description task);
        TaskData.userId := Some (_userId task);
        TaskData.assignedTo := Some (_assignedTo task);
        TaskData.priority := Some (_priority task);
        TaskData.category := Some (_category task);
        TaskData.tags := Some (_tags task);
        TaskData.completed := Some (_completed task);
        TaskData.status := Some (_status task);
        TaskData.dueDate := dueDate;
        TaskData.estimatedHours := _estimatedHours task;
        TaskData.actualHours := _actualHours task;
        TaskData.notes := Some (_notes task);
        TaskData.attachments := Some (_attachments task);
        TaskData.dependencies := Some (_dependencies task);
        TaskData.createdAt := Some createdAt;
        TaskData.updatedAt := Some updatedAt;
        TaskData.completedAt := completedAt |}.

(** The [options] literal that [fromJSON] builds from [data]. *)
Definition options_of (data : TaskData.t) : TaskData.t :=
  {| TaskData.id := TaskData.id data;
     TaskData.title := None;
     TaskData.description := None;
     TaskData.userId := None;
     TaskData.assignedTo := TaskData.assignedTo data;
     TaskData.priority := TaskData.priority data;
     TaskData.category := TaskData.category data;
     TaskData.tags := TaskData.tags data;
     TaskData.completed := TaskData.completed data;
     TaskData.status := TaskData.status data;
     TaskData.dueDate := TaskData.dueDate data;
     TaskData.estimatedHours := TaskData.estimatedHours data;
     TaskData.actualHours := TaskData.actualHours data;
     TaskData.notes := TaskData.notes data;
     TaskData.attachments := TaskData.attachments data;
     TaskData.dependencies := TaskData.dependencies data;
     TaskData.createdAt := TaskData.createdAt data;
     TaskData.updatedAt := TaskData.updatedAt data;
     TaskData.completedAt := TaskData.completedAt data |}.

Definition fromJSON (data : TaskData.t) (now : Z) (fresh : string) : Result t :=
  constructor (TaskData.title data) (TaskData.description data)
    (TaskData.userId data) (options_of data) now fresh.

(** *** Further computed properties and utilities *)

(** [Math.ceil(n / d)] for integers, [d] positive *)
Definition ceil_div (n d : Z) : Z := - ((- n) / d).

(** [daysUntilDue]: [None] is [null], [Some None] is NaN (the due date is
    no valid date). *)
Definition daysUntilDue (now : Z) (task : t) : option (option Z) :=
  match _dueDate task with
  | None => None
  | Some (Js.DateAt due) =>
      let diffTime := due - now in
      Some (Some (ceil_div diffTime (1000 * 60 * 60 * 24)))
  | Some Js.InvalidDate => Some None
  end.

(** [clone()]: the plain object of the task with a new id and with the two
    [new Date()] in place of [createdAt] and [updatedAt] (a [Date] handed to
    the constructor denotes the instant its ISO text denotes). *)
Definition clone (now : Z) (fresh : string) (task : t) : Result t :=
  let* clonedData := toJSON task in
  let clonedData :=
    {| TaskData.id := Some fresh;
       TaskData.title := TaskData.title clonedData;
       TaskData.description := TaskData.description clonedData;
       TaskData.userId := TaskData.userId clonedData;
       TaskData.assignedTo := TaskData.assignedTo clonedData;
       TaskData.priority := TaskData.priority clonedData;
       TaskData.category := TaskData.category clonedData;
       TaskData.tags := TaskData.tags clonedData;
       TaskData.completed := TaskData.completed clonedData;
       TaskData.status := TaskData.status clonedData;
       TaskData.dueDate := TaskData.dueDate clonedData;
       TaskData.estimatedHours := TaskData.estimatedHours clonedData;
       TaskData.actualHours := TaskData.actualHours clonedData;
       TaskData.notes := TaskData.notes clonedData;
       TaskData.attachments := TaskData.attachments clonedData;
       TaskData.dependencies := TaskData.dependencies clonedData;
       TaskData.createdAt := Some (Js.ISO now);
       TaskData.updatedAt := Some (Js.ISO now);
       TaskData.completedAt := TaskData.completedAt clonedData |} in
  fromJSON clonedData now fresh.

End Task.

(** ** The persistence collaborator *)

(** Modelled from the spec: the storage manager behind [this.storage] is not
    among the sources.  [load(key, fallback)] returns the sequence of plain
    records last saved under the key and [save(key, records)] replaces it;
    the two counters record how often each was called. *)
Module Storage.

Section Rows.
Context {R : Type}.

Record t := {
  records : list R;
  loadCalls : nat;
  saveCalls : nat
}.

Definition load (st : t) : list R * t :=
  (records st,
   {| records := records st;
      loadCalls := S (loadCalls st);
      saveCalls := saveCalls st |}).

Definition save (rows : list R) (st : t) : t :=
  {| records := rows;
     loadCalls := loadCalls st;
     saveCalls := S (saveCalls st) |}.

End Rows.

Arguments t R : clear implicits.

End Storage.

(** ** The per-id cache shared by both repositories *)

Module Cache.

Section Entries.
Context {E : Type}.

(** [{ data, timestamp }] *)
Record entry := {
  data : E;
  timestamp : Z
}.

(** [_getFromCache(id)]: the value and the cache it leaves behind. *)
Definition _getFromCache (_cacheExpiry : Z) (now : Z) (id : string)
    (_cache : gmap string entry) : option E * gmap string entry :=
  match _cache !! id with
  | None => (None, _cache)
  | Some cached =>
      (* Check if cache entry is expired *)
      if _cacheExpiry <? now - timestamp cached then
        (None, delete id _cache)
      else (Some (data cached), _cache)
  end.

Definition set (id : string) (value : E) (now : Z)
    (_cache : gmap string entry) : gmap string entry :=
  <[id := {| data := value; timestamp := now |}]> _cache.

End Entries.

Arguments entry E : clear implicits.

End Cache.

(** ** The updates object of [update(id, updates)] *)

(** One entry of the [updates] object, in the order of [Object.keys].  The
    source accepts a key in two spellings: the name of a property without
    its underscore ([title], found through [hasOwnProperty(`_${key}`)]), and
    the name of the own property itself ([_title], found through
    [hasOwnProperty(key)]).  Under the first spelling the value has the type
    of the property or of the argument of its mutator; under the second the
    value is assigned to the property as it is, so it has the type of the
    property.  Any other key fails both tests, the source does nothing for it,
    and it is left out. *)
Module Updates.

(** An entry under the name of the own property itself. *)
Inductive own_write :=
| own_id (v : string)
| own_createdAt (v : Js.Date)
| own_title (v : string)
| own_description (v : string)
| own_priority (v : string)
| own_completed (v : bool)
| own_updatedAt (v : Js.Date)
| own_userId (v : string)
| own_assignedTo (v : string)
| own_category (v : string)
| own_tags (v : list string)
| own_dueDate (v : option Js.Date)
| own_estimatedHours (v : option float)
| own_actualHours (v : option float)
| own_status (v : string)
| own_completedAt (v : option Js.Date)
| own_notes (v : list Note.t)
| own_attachments (v : list string)
| own_dependencies (v : list string).

Definition own_key (w : own_write) : string :=
  match w with
  | own_id _ => "_id"
  | own_createdAt _ => "_createdAt"
  | own_title _ => "_title"
  | own_description _ => "_description"
  | own_priority _ => "_priority"
  | own_completed _ => "_completed"
  | own_updatedAt _ => "_updatedAt"
  | own_userId _ => "_userId"
  | own_assignedTo _ => "_assignedTo"
  | own_category _ => "_category"
  | own_tags _ => "_tags"
  | own_dueDate _ => "_dueDate"
  | own_estimatedHours _ => "_estimatedHours"
  | own_actualHours _ => "_actualHours"
  | own_status _ => "_status"
  | own_completedAt _ => "_completedAt"
  | own_notes _ => "_notes"
  | own_attachments _ => "_attachments"
  | own_dependencies _ => "_dependencies"
  end.

(** [currentTask[key] = updates[key]] for the name of an own property *)
Definition write (w : own_write) (task : Task.t) : Task.t :=
  match w with
  | own_id v => Task.set_id v task
  | own_createdAt v => Task.set_createdAt v task
  | own_title v => Task.set_title v task
  | own_description v => Task.set_description v task
  | own_priority v => Task.set_priority v task
  | own_completed v => Task.set_completed v task
  | own_updatedAt v => Task.set_updatedAt v task
  | own_userId v => Task.set_userId v task
  | own_assignedTo v => Task.set_assignedTo v task
  | own_category v => Task.set_category v task
  | own_tags v => Task.set_tags v task
  | own_dueDate v => Task.set_dueDate v task
  | own_estimatedHours v => Task.set_estimatedHours v task
  | own_actualHours v => Task.set_actualHours v task
  | own_status v => Task.set_status v task
  | own_completedAt v => Task.set_completedAt v task
  | own_notes v => Task.set_notes v task
  | own_attachments v => Task.set_attachments v task
  | own_dependencies v => Task.set_dependencies v task
  end.

Inductive entry :=
| own (w : own_write)
| id (v : string)
| createdAt (v : Js.Date)
| title (v : string)
| description (v : option string)
| priority (v : string)
| completed (v : bool)
| updatedAt (v : Js.Date)
| userId (v : string)
| assignedTo (v : string)
| category (v : string)
| tags (v : list string)
| dueDate (v : option Js.DateInput)
| estimatedHours (v : option float)
| actualHours (v : option float)
| status (v : string)
| completedAt (v : option Js.Date)
| notes (v : list Note.t)
| attachments (v : list string)
| dependencies (v : list string).

Definition key (u : entry) : string :=
  match u with
  | own w => own_key w
  | id _ => "id"
  | createdAt _ => "createdAt"
  | title _ => "title"
  | description _ => "description"
  | priority _ => "priority"
  | completed _ => "completed"
  | updatedAt _ => "updatedAt"
  | userId _ => "userId"
  | assignedTo _ => "assignedTo"
  | category _ => "category"
  | tags _ => "tags"
  | dueDate _ => "dueDate"
  | estimatedHours _ => "estimatedHours"
  | actualHours _ => "actualHours"
  | status _ => "status"
  | completedAt _ => "completedAt"
  | notes _ => "notes"
  | attachments _ => "attachments"
  | dependencies _ => "dependencies"
  end.

(** The own properties of a [Task] instance. *)
Definition ownProperties : list string :=
  ["_id"; "_createdAt"; "_title"; "_description"; "_priority"; "_completed";
   "_updatedAt"; "_userId"; "_assignedTo"; "_category"; "_tags"; "_dueDate";
   "_estimatedHours"; "_actualHours"; "_status"; "_completedAt"; "_notes";
   "_attachments"; "_dependencies"].

(** The functions found on [Task.prototype]. *)
Definition methods : list string :=
  ["updateTitle"; "updateDescription"; "updatePriority"; "markComplete";
   "markIncomplete"; "assignTo"; "reassignToOwner"; "setCategory"; "addTag";
   "removeTag"; "clearTags"; "hasTag"; "setDueDate"; "clearDueDate";
   "setEstimatedHours"; "setActualHours"; "addTimeSpent"; "setStatus";
   "addNote"; "removeNote"; "addDependency"; "removeDependency";
   "hasDependency"; "clone"; "toJSON"; "_validateConstructorParams";
   "_validatePriority"; "_validateCategory"; "_validateTags";
   "_validateStatus"; "_validateHours"; "_generateId"; "_touch"].

Definition upper_char (c : ascii) : ascii :=
  let n := nat_of_ascii c in
  if (97 <=? n)%nat && (n <=? 122)%nat then ascii_of_nat (n - 32) else c.

(** [key.charAt(0).toUpperCase() + key.slice(1)] *)
Definition capitalize (k : string) : string :=
  match k with
  | EmptyString => EmptyString
  | String c r => String (upper_char c) r
  end.

Definition setterName (k : string) : string := "set" ++ capitalize k.
Definition updateMethodName (k : string) : string := "update" ++ capitalize k.

Definition hasOwnProperty (k : string) : bool := Js.includes ownProperties k.

Inductive route :=
| Skipped
| BySetter
| ByUpdateMethod
| DirectWrite.

(** The branch that the body of the [forEach] takes for a key. *)
Definition dispatch (k : string) : route :=
  if hasOwnProperty ("_" ++ k) || hasOwnProperty k then
    if Js.includes methods (setterName k) then BySetter
    else if Js.includes methods (updateMethodName k) then ByUpdateMethod
    else DirectWrite
  else Skipped.

Definition not_a_function : JsError := TypeError "not a function".

(** [currentTask[setterName](updates[key])] *)
Definition call_setter (u : entry) (now : Z) (task : Task.t) : Result Task.t :=
  match u with
  | category v => Task.setCategory v now task
  | dueDate v => Task.setDueDate v now task
  | estimatedHours v => Task.setEstimatedHours v now task
  | actualHours v => Task.setActualHours v now task
  | status v => Task.setStatus v now task
  | _ => Throw not_a_function
  end.

(** [currentTask[updateMethodName](updates[key])] *)
Definition call_update_method (u : entry) (now : Z) (task : Task.t) : Result Task.t :=
  match u with
  | title v => Task.updateTitle v now task
  | description v => Task.updateDescription v now task
  | priority v => Task.updatePriority v now task
  | _ => Throw not_a_function
  end.

(** [currentTask[`_${key}`] = updates[key]] when the task has the own
    property [`_${key}`], and [currentTask[key] = updates[key]] otherwise *)
Definition direct_write (u : entry) (task : Task.t) : Task.t :=
  match u with
  | own w => write w task
  | id v => Task.set_id v task
  | createdAt v => Task.set_createdAt v task
  | title v => Task.set_title v task
  | description v => Task.set_description (default "" v) task
  | priority v => Task.set_priority v task
  | completed v => Task.set_completed v task
  | updatedAt v => Task.set_updatedAt v task
  | userId v => Task.set_userId v task
  | assignedTo v => Task.set_assignedTo v task
  | category v => Task.set_category v task
  | tags v => Task.set_tags v task
  | dueDate v =>
      Task.set_dueDate
        match v with
        | Some (Js.OfDate d) => Some d
        | Some (Js.OfString s) => Some (Js.parse s)
        | None => None
        end task
  | estimatedHours v => Task.set_estimatedHours v task
  | actualHours v => Task.set_actualHours v task
  | status v => Task.set_status v task
  | completedAt v => Task.set_completedAt v task
  | notes v => Task.set_notes v task
  | attachments v => Task.set_attachments v task
  | dependencies v => Task.set_dependencies v task
  end.

(** The body of [Object.keys(updates).forEach(key => ...)] for one key. *)
Definition apply_entry (now : Z) (u : entry) (task : Task.t) : Result Task.t :=
  match dispatch (key u) with
  | Skipped => Ok task
  | BySetter => call_setter u now task
  | ByUpdateMethod => call_update_method u now task
  | DirectWrite => Ok (direct_write u task)
  end.

Fixpoint apply (now : Z) (updates : list entry) (task : Task.t) : Result Task.t :=
  match updates with
  | [] => Ok task
  | u :: rest =>
      let* task' := apply_entry now u task in
      apply now rest task'
  end.

(** Whether the entry is for the key [completed] or [_completed]. *)
Definition writes_completed (u : entry) : bool :=
  match u with
  | completed _ | own (own_completed _) => true
  | _ => false
  end.

(** Whether the entry is for the key [_status], which no mutator guards. *)
Definition writes_status (u : entry) : bool :=
  match u with
  | own (own_status _) => true
  | _ => false
  end.

End Updates.

(** ** TaskRepository *)

Module TaskRepository.

(** [findIndex]: the index of the first element that satisfies [p]. *)
Fixpoint findIndex {A} (p : A -> bool) (l : list A) : option nat :=
  match l with
  | [] => None
  | a :: l' => if p a then Some 0%nat else option_map S (findIndex p l')
  end.

(** [Array.prototype.slice(start, end)] on integers *)
Definition slice {A} (l : list A) (start stop : Z) : list A :=
  let len := Z.of_nat (length l) in
  let from := if start <? 0 then Z.max (len + start) 0 else Z.min start len in
  let to := if stop <? 0 then Z.max (len + stop) 0 else Z.min stop len in
  take (Z.to_nat (to - from)) (drop (Z.to_nat from) l).

(** [Array.prototype.sort(compare)]: a stable sort.  [compare a b] is
    negative when [a] goes first, positive when [b] goes first. *)
Fixpoint insert_sorted {A} (compare : A -> A -> Z) (a : A) (l : list A) : list A :=
  match l with
  | [] => [a]
  | b :: l' =>
      if compare a b <=? 0 then a :: b :: l'
      else b :: insert_sorted compare a l'
  end.

Definition sort {A} (compare : A -> A -> Z) (l : list A) : list A :=
  foldr (insert_sorted compare) [] l.

(** The properties of a task that [sortBy] may name. *)
Inductive SortKey :=
| by_id | by_title | by_description | by_priority | by_category
| by_userId | by_assignedTo | by_status
| by_completed
| by_estimatedHours | by_actualHours
| by_createdAt | by_updatedAt | by_dueDate | by_completedAt
| by_tags | by_dependencies.

Definition sort_key_name (k : SortKey) : string :=
  match k with
  | by_id => "id"
  | by_title => "title"
  | by_description => "description"
  | by_priority => "priority"
  | by_category => "category"
  | by_userId => "userId"
  | by_assignedTo => "assignedTo"
  | by_status => "status"
  | by_completed => "completed"
  | by_estimatedHours => "estimatedHours"
  | by_actualHours => "actualHours"
  | by_createdAt => "createdAt"
  | by_updatedAt => "updatedAt"
  | by_dueDate => "dueDate"
  | by_completedAt => "completedAt"
  | by_tags => "tags"
  | by_dependencies => "dependencies"
  end.

(** A JavaScript value as the sort comparator sees it. *)
Inductive value :=
| VString (s : string)
| VNumber (x : float)
| VBoolean (b : bool)
| VDate (d : Js.Date)
| VNull
| VArray (l : list string).

(** [a[sortBy]]: the getter of the property. *)
Definition get (k : SortKey) (task : Task.t) : value :=
  let date_or_null d :=
    match d with Some x => VDate x | None => VNull end in
  let number_or_null q :=
    match q with Some x => VNumber x | None => VNull end in
  match k with
  | by_id => VString (Task._id task)
  | by_title => VString (Task._title task)
  | by_description => VString (Task._description task)
  | by_priority => VString (Task._priority task)
  | by_category => VString (Task._category task)
  | by_userId => VString (Task._userId task)
  | by_assignedTo => VString (Task._assignedTo task)
  | by_status => VString (Task._status task)
  | by_completed => VBoolean (Task._completed task)
  | by_estimatedHours => number_or_null (Task._estimatedHours task)
  | by_actualHours => number_or_null (Task._actualHours task)
  | by_createdAt => VDate (Task._createdAt task)
  | by_updatedAt => VDate (Task._updatedAt task)
  | by_dueDate => date_or_null (Task._dueDate task)
  | by_completedAt => date_or_null (Task._completedAt task)
  | by_tags => VArray (Task._tags task)
  | by_dependencies => VArray (Task._dependencies task)
  end.

(** [new Date(v)] for the values a date property holds *)
Definition to_date (v : value) : value :=
  match v with
  | VDate d => VDate d
  | VNull => VDate (Js.DateAt 0)
  | _ => VDate Js.InvalidDate
  end.

(** [v.toLowerCase()] for the value that is compared with a string *)
Definition lower_if_string (v : value) : value :=
  match v with
  | VString s => VString (Js.toLowerCase s)
  | _ => v
  end.

(** What [>] and [<] compare: two strings by code units, anything else as
    numbers.  The time value of a date and the number of a boolean are
    integers; the hours are doubles, and so is the 0 that [null] hours count
    as. *)
Inductive primitive :=
| PString (s : string)
| PInteger (z : Z)
| PNumber (x : float)
| PNaN.

Definition to_primitive (v : value) : primitive :=
  match v with
  | VString s => PString s
  | VNumber x => PNumber x
  | VBoolean b => PInteger (if b then 1 else 0)
  | VDate (Js.DateAt ms) => PInteger ms
  | VDate Js.InvalidDate => PNaN
  | VNull => PNumber Number.zero
  | VArray l => PString (Js.join "," l)
  end.

(** [a > b]; the operands of one sort are values of one property, so a
    string never meets a number here, nor a date or a boolean the hours. *)
Definition gt (a b : value) : bool :=
  match to_primitive a, to_primitive b with
  | PString x, PString y => Js.str_gt x y
  | PInteger x, PInteger y => y <? x
  | PNumber x, PNumber y => PrimFloat.ltb y x
  | _, _ => false
  end.

Definition lt (a b : value) : bool := gt b a.

(** The comparator of [_sortTasks]. *)
Definition compare_by (sortBy : SortKey) (sortOrder : string) (a b : Task.t) : Z :=
  let aValue := get sortBy a in
  let bValue := get sortBy b in
  (* Handle date sorting *)
  let isDate := Js.str_includes (sort_key_name sortBy) "Date"
                || Js.str_includes (sort_key_name sortBy) "At" in
  let aValue := if isDate then to_date aValue else aValue in
  let bValue := if isDate then to_date bValue else bValue in
  (* Handle string sorting *)
  let '(aValue, bValue) :=
    match aValue with
    | VString s => (VString (Js.toLowerCase s), lower_if_string bValue)
    | _ => (aValue, bValue)
    end in
  let comparison :=
    if gt aValue bValue then 1
    else if lt aValue bValue then -1
    else 0 in
  if String.eqb sortOrder "desc" then - comparison else comparison.

Definition _sortTasks (tasks : list Task.t) (sortBy : SortKey)
    (sortOrder : option string) : list Task.t :=
  sort (compare_by sortBy (default "asc" sortOrder)) tasks.

(** The [options] of [findAll]. *)
Record FindOptions := {
  userId : option string;
  completed : option bool;
  priority : option string;
  category : option string;
  assignedTo : option string;
  sortBy : option SortKey;
  sortOrder : option string;
  limit : option Z;
  offset : option Z
}.

Definition no_options : FindOptions :=
  {| userId := None; completed := None; priority := None; category := None;
     assignedTo := None; sortBy := None; sortOrder := None; limit := None;
     offset := None |}.

(** [if (options.f) result = result.filter(task => task.f === options.f)] *)
Definition filter_string (f : Task.t -> string) (o : option string)
    (result : list Task.t) : list Task.t :=
  match o with
  | Some v =>
      if Js.truthy v then List.filter (fun task => String.eqb (f task) v) result
      else result
  | None => result
  end.

Definition truthy_number (o : option Z) : bool :=
  match o with
  | Some n => negb (n =? 0)
  | None => false
  end.

(** The filter, sort and pagination passes of [findAll]. *)
Definition query (options : FindOptions) (result : list Task.t) : list Task.t :=
  let result := filter_string Task._userId (userId options) result in
  let result :=
    match completed options with
    | Some c => List.filter (fun task => Bool.eqb (Task._completed task) c) result
    | None => result
    end in
  let result := filter_string Task._priority (priority options) result in
  let result := filter_string Task._category (category options) result in
  let result := filter_string Task._assignedTo (assignedTo options) result in
  let result :=
    match sortBy options with
    | Some k => _sortTasks result k (sortOrder options)
    | None => result
    end in
  if truthy_number (limit options) || truthy_number (offset options) then
    let offset' := if truthy_number (offset options)
                   then default 0 (offset options) else 0 in
    let limit' := if truthy_number (limit options)
                  then default 0 (limit options)
                  else Z.of_nat (length result) in
    slice result offset' (offset' + limit')
  else result.

(** *** The repository object *)

Record t := {
  storage : Storage.t TaskData.t;
  _cache : gmap string (Cache.entry Task.t)
}.

(** The rows and the counters of the collaborator behind a repository. *)
Abbreviation persisted repo := (Storage.records (storage repo)).
Abbreviation loads repo := (Storage.loadCalls (storage repo)).
Abbreviation saves repo := (Storage.saveCalls (storage repo)).

(** [this._cacheExpiry]: 5 minutes *)
Definition _cacheExpiry : Z := 5 * 60 * 1000.

Definition constructor (storageManager : Storage.t TaskData.t) : t :=
  {| storage := storageManager; _cache := ∅ |}.

Definition _getAllTasks (repo : t) : list TaskData.t * t :=
  let '(tasks, st) := Storage.load (storage repo) in
  (tasks, {| storage := st; _cache := _cache repo |}).

Definition _saveTasks (tasks : list TaskData.t) (repo : t) : t :=
  {| storage := Storage.save tasks (storage repo); _cache := _cache repo |}.

Definition _validateTask (task : Task.t) : Result unit :=
  if negb (Js.truthy (Task._title task))
     || String.eqb (Js.trim (Task._title task)) "" then
    Throw (Error "Task title is required")
  else if negb (Js.truthy (Task._userId task)) then
    Throw (Error "Task must be assigned to a user")
  else Ok tt.

Definition _hydrateTask (taskData : TaskData.t) (now : Z) (fresh : string)
    : Result Task.t :=
  Task.fromJSON taskData now fresh.

Definition _getFromCache (id : string) (now : Z) (repo : t) : option Task.t * t :=
  let '(cached, cache) := Cache._getFromCache _cacheExpiry now id (_cache repo) in
  (cached, {| storage := storage repo; _cache := cache |}).

Definition cache_set (id : string) (task : Task.t) (now : Z) (repo : t) : t :=
  {| storage := storage repo; _cache := Cache.set id task now (_cache repo) |}.

Definition cache_delete (id : string) (repo : t) : t :=
  {| storage := storage repo; _cache := delete id (_cache repo) |}.

(** [t => t.id === id] on a persisted row *)
Definition has_id (id : string) (row : TaskData.t) : bool :=
  match TaskData.id row with
  | Some x => String.eqb x id
  | None => false
  end.

Definition already_exists (id : string) : JsError :=
  Error ("Task with ID " ++ id ++ " already exists").

(** [task.id = ...] inside the class body, on an accessor without a setter *)
Definition id_has_only_a_getter : JsError :=
  TypeError "Cannot set property id of #<Task> which has only a getter".

(** [create(task)] *)
Definition create (task : Task.t) (now : Z) (repo : t) : Result Task.t * t :=
  match _validateTask task with
  | Throw e => (Throw e, repo)
  | Ok _ =>
      (* Ensure task has an ID *)
      if negb (Js.truthy (Task._id task)) then (Throw id_has_only_a_getter, repo)
      else
        let '(tasks, repo) := _getAllTasks repo in
        (* Check for duplicate ID *)
        if existsb (has_id (Task._id task)) tasks then
          (Throw (already_exists (Task._id task)), repo)
        else
          match Task.toJSON task with
          | Throw e => (Throw e, repo)
          | Ok row =>
              let repo := _saveTasks (tasks ++ [row]) repo in
              let repo := cache_set (Task._id task) task now repo in
              (Ok task, repo)
          end
  end.

(** [findById(id)]: [None] is [null]. *)
Definition findById (id : string) (now : Z) (fresh : string) (repo : t)
    : Result (option Task.t) * t :=
  (* Check cache first *)
  let '(cached, repo) := _getFromCache id now repo in
  match cached with
  | Some task => (Ok (Some task), repo)
  | None =>
      (* Load from storage *)
      let '(tasks, repo) := _getAllTasks repo in
      match List.find (has_id id) tasks with
      | None => (Ok None, repo)
      | Some taskData =>
          match _hydrateTask taskData now fresh with
          | Throw e => (Throw e, repo)
          | Ok task => (Ok (Some task), cache_set id task now repo)
          end
      end
  end.

(** [findAll(options)] *)
Definition findAll (options : FindOptions) (now : Z) (fresh : string) (repo : t)
    : Result (list Task.t) * t :=
  let '(tasks, repo) := _getAllTasks repo in
  match mapR (fun taskData => _hydrateTask taskData now fresh) tasks with
  | Throw e => (Throw e, repo)
  | Ok result => (Ok (query options result), repo)
  end.

Definition reading_id_of_undefined : JsError :=
  TypeError "Cannot read properties of undefined".

(** [update(id, updates)] *)
Definition update (id : string) (updates : list Updates.entry) (now : Z)
    (fresh : string) (repo : t) : Result (option Task.t) * t :=
  let '(tasks, repo) := _getAllTasks repo in
  match findIndex (has_id id) tasks with
  | None => (Ok None, repo)
  | Some taskIndex =>
      let step :=
        (* Get current task data *)
        let* taskData :=
          match tasks !! taskIndex with
          | Some row => Ok row
          | None => Throw reading_id_of_undefined
          end in
        let* currentTask := _hydrateTask taskData now fresh in
        (* Apply updates to task object *)
        let* currentTask := Updates.apply now updates currentTask in
        (* Update timestamp *)
        let currentTask := Task.set_updatedAt (Js.DateAt now) currentTask in
        let* row := Task.toJSON currentTask in
        Ok (currentTask, row) in
      match step with
      | Throw e => (Throw e, repo)
      | Ok (currentTask, row) =>
          (* Update in storage *)
          let repo := _saveTasks (<[taskIndex := row]> tasks) repo in
          (* Update cache *)
          let repo := cache_set id currentTask now repo in
          (Ok (Some currentTask), repo)
      end
  end.

(** [delete(id)] *)
Definition delete (id : string) (repo : t) : bool * t :=
  let '(tasks, repo) := _getAllTasks repo in
  match findIndex (has_id id) tasks with
  | None => (false, repo)
  | Some taskIndex =>
      let repo := _saveTasks (base.delete taskIndex tasks) repo in
      (true, cache_delete id repo)
  end.

Definition exists_ (id : string) (now : Z) (fresh : string) (repo : t)
    : Result bool * t :=
  let '(r, repo) := findById id now fresh repo in
  (let* entity := r in Ok (bool_decide (entity <> None)), repo).

(** *** Specialized queries *)

Definition findByUserId (userId : string) :=
  findAll {| userId := Some userId; completed := None; priority := None;
             category := None; assignedTo := None; sortBy := None;
             sortOrder := None; limit := None; offset := None |}.

(** [!task.completed && task.dueDate && new Date(task.dueDate) < now] *)
Definition overdue_at (now : Z) (task : Task.t) : bool :=
  negb (Task._completed task) &&
  match Task._dueDate task with
  | Some due => Js.date_lt due (Js.DateAt now)
  | None => false
  end.

Definition findOverdue (now : Z) (fresh : string) (repo : t)
    : Result (list Task.t) * t :=
  let '(r, repo) := findAll no_options now fresh repo in
  (let* tasks := r in Ok (List.filter (overdue_at now) tasks), repo).

(** *** Statistics *)

(** The names that every plain object inherits from [Object.prototype]
    besides [__proto__]: each holds a function. *)
Definition Object_prototype_functions : list string :=
  ["constructor"; "hasOwnProperty"; "isPrototypeOf"; "propertyIsEnumerable";
   "toLocaleString"; "toString"; "valueOf"; "__defineGetter__";
   "__defineSetter__"; "__lookupGetter__"; "__lookupSetter__"].

(** What an own property of [byCategory] holds: a count, or, under a name
    that [Object.prototype] gives a function to, a string: the text of that
    function followed by [ones] characters [1]. *)
Inductive tally :=
| Count (n : nat)
| Text (inherited : string) (ones : nat).

Record Statistics := {
  total : nat;
  stat_completed : nat;
  pending : nat;
  overdue : nat;
  byPriority : list (string * nat);
  byCategory : gmap string tally
}.

(** [tasks.filter(p).length] *)
Definition count (p : Task.t -> bool) (tasks : list Task.t) : nat :=
  length (List.filter p tasks).

(** [task.category || 'uncategorized'] *)
Definition bucket (task : Task.t) : string :=
  if Js.truthy (Task._category task) then Task._category task
  else "uncategorized".

(** [stats.byCategory[category] = (stats.byCategory[category] || 0) + 1] on
    the plain object [{}], read as the finite map of its own properties.
    - An own property that holds a count gets the count plus one; one that
      holds a string gets the string with [1] appended.
    - Without an own property the read falls through to [Object.prototype].
      [__proto__] reads the prototype object, and the assignment of the
      string ["[object Object]1"] to [__proto__] is ignored by its setter: no
      property is created.  Another inherited name reads a function, and the
      text of the function with [1] appended becomes an own property.
    - Any other name reads [undefined] and becomes an own property that
      holds 1. *)
Definition count_category (byCategory : gmap string tally) (task : Task.t)
    : gmap string tally :=
  let category := bucket task in
  match byCategory !! category with
  | Some (Count n) => <[category := Count (n + 1)]> byCategory
  | Some (Text name ones) => <[category := Text name (ones + 1)]> byCategory
  | None =>
      if String.eqb category "__proto__" then byCategory
      else if Js.includes Object_prototype_functions category then
        <[category := Text category 1]> byCategory
      else <[category := Count 1]> byCategory
  end.

Definition statistics (now : Z) (tasks : list Task.t) : Statistics :=
  {| total := length tasks;
     stat_completed := count Task._completed tasks;
     pending := count (fun t => negb (Task._completed t)) tasks;
     overdue := count (overdue_at now) tasks;
     byPriority :=
       [("high", count (fun t => String.eqb (Task._priority t) "high") tasks);
        ("medium", count (fun t => String.eqb (Task._priority t) "medium") tasks);
        ("low", count (fun t => String.eqb (Task._priority t) "low") tasks)];
     byCategory := foldl count_category ∅ tasks |}.

(** [getStatistics(userId = null)] *)
Definition getStatistics (userId : option string) (now : Z) (fresh : string)
    (repo : t) : Result Statistics * t :=
  let '(r, repo) :=
    match userId with
    | Some u =>
        if Js.truthy u then findByUserId u now fresh repo
        else findAll no_options now fresh repo
    | None => findAll no_options now fresh repo
    end in
  (let* tasks := r in Ok (statistics now tasks), repo).

(** *** Further queries *)

(** The object literal of a finder: filters only. *)
Definition filters (userId : option string) (completed : option bool)
    (priority category assignedTo : option string) : FindOptions :=
  {| userId := userId; completed := completed; priority := priority;
     category := category; assignedTo := assignedTo; sortBy := None;
     sortOrder := None; limit := None; offset := None |}.

Definition findByCategory (category : string) :=
  findAll (filters None None None (Some category) None).

Definition findByPriority (priority : string) :=
  findAll (filters None None (Some priority) None None).

Definition findByStatus (completed : bool) :=
  findAll (filters None (Some completed) None None None).

Definition findByAssignee (assignedTo : string) :=
  findAll (filters None None None None (Some assignedTo)).

(** [a >= b] and [a <= b] on dates *)
Definition date_ge (a b : Js.Date) : bool :=
  match a, b with
  | Js.DateAt x, Js.DateAt y => y <=? x
  | _, _ => false
  end.

Definition date_le (a b : Js.Date) : bool := date_ge b a.

(** [findByDueDateRange(startDate, endDate)] *)
Definition findByDueDateRange (startDate endDate : Js.Date) (now : Z)
    (fresh : string) (repo : t) : Result (list Task.t) * t :=
  let '(r, repo) := findAll no_options now fresh repo in
  (let* tasks := r in
   Ok (List.filter
         (fun task =>
            match Task._dueDate task with
            | None => false
            | Some dueDate => date_ge dueDate startDate && date_le dueDate endDate
            end) tasks),
   repo).

(** The test of [search] on one task. *)
Definition matches (searchTerm : string) (task : Task.t) : bool :=
  Js.str_includes (Js.toLowerCase (Task._title task)) searchTerm
  || Js.str_includes (Js.toLowerCase (Task._description task)) searchTerm
  || existsb (fun tag => Js.str_includes (Js.toLowerCase tag) searchTerm)
       (Task._tags task).

(** [search(query)] *)
Definition search (query : string) (now : Z) (fresh : string) (repo : t)
    : Result (list Task.t) * t :=
  let '(r, repo) := findAll no_options now fresh repo in
  let searchTerm := Js.toLowerCase query in
  (let* tasks := r in Ok (List.filter (matches searchTerm) tasks), repo).

(** [count()]: the number of the entities that [findAll()] returns *)
Definition count_all (now : Z) (fresh : string) (repo : t) : Result nat * t :=
  let '(r, repo) := findAll no_options now fresh repo in
  (let* entities := r in Ok (length entities), repo).

End TaskRepository.

(** ** UserRepository *)

Module UserRepository.

Section WithUser.

(** The [User] class is not among the sources: an instance, a persisted
    row, the [id] of a row and [User.fromJSON] are parameters. *)
Context {User UserData : Type}.
Variable row_id : UserData -> option string.
Variable fromJSON : UserData -> Z -> Result User.

Record t := {
  storage : Storage.t UserData;
  _cache : gmap string (Cache.entry User)
}.

(** [this._cacheExpiry]: 10 minutes *)
Definition _cacheExpiry : Z := 10 * 60 * 1000.

Definition constructor (storageManager : Storage.t UserData) : t :=
  {| storage := storageManager; _cache := ∅ |}.

Definition _getAllUsers (repo : t) : list UserData * t :=
  let '(users, st) := Storage.load (storage repo) in
  (users, {| storage := st; _cache := _cache repo |}).

Definition _hydrateUser (userData : UserData) (now : Z) : Result User :=
  fromJSON userData now.

Definition _getFromCache (id : string) (now : Z) (repo : t) : option User * t :=
  let '(cached, cache) := Cache._getFromCache _cacheExpiry now id (_cache repo) in
  (cached, {| storage := storage repo; _cache := cache |}).

Definition cache_set (id : string) (user : User) (now : Z) (repo : t) : t :=
  {| storage := storage repo; _cache := Cache.set id user now (_cache repo) |}.

Definition has_id (id : string) (row : UserData) : bool :=
  match row_id row with
  | Some x => String.eqb x id
  | None => false
  end.

(** [findById(id)] *)
Definition findById (id : string) (now : Z) (repo : t)
    : Result (option User) * t :=
  let '(cached, repo) := _getFromCache id now repo in
  match cached with
  | Some user => (Ok (Some user), repo)
  | None =>
      let '(users, repo) := _getAllUsers repo in
      match List.find (has_id id) users with
      | None => (Ok None, repo)
      | Some userData =>
          match _hydrateUser userData now with
          | Throw e => (Throw e, repo)
          | Ok user => (Ok (Some user), cache_set id user now repo)
          end
      end
  end.

End WithUser.

Arguments t User UserData : clear implicits.

End UserRepository.

(** ** TaskService *)

Module TaskService.

(** What [notifyListeners(eventType, data)] hands to the listeners. *)
Inductive event :=
| taskUpdated (task : Task.t)
| taskDeleted (taskId : string)
| error (operation : string) (message : JsError).

(** The listeners are callbacks registered from outside; the service is
    modelled with the log of the events it has sent them. *)
Record t := {
  taskRepository : TaskRepository.t;
  notified : list event
}.

Definition notifyListeners (e : event) (service : t) : t :=
  {| taskRepository := taskRepository service;
     notified := notified service ++ [e] |}.

Definition with_repository (repo : TaskRepository.t) (service : t) : t :=
  {| taskRepository := repo; notified := notified service |}.

Definition getTaskById (taskId : string) (now : Z) (fresh : string) (service : t)
    : Result (option Task.t) * t :=
  let '(r, repo) := TaskRepository.findById taskId now fresh (taskRepository service) in
  (r, with_repository repo service).

Definition updateTask (taskId : string) (updates : list Updates.entry) (now : Z)
    (fresh : string) (service : t) : Result (option Task.t) * t :=
  let '(r, repo) :=
    TaskRepository.update taskId updates now fresh (taskRepository service) in
  let service := with_repository repo service in
  match r with
  | Ok (Some updatedTask) =>
      (Ok (Some updatedTask), notifyListeners (taskUpdated updatedTask) service)
  | Ok None => (Ok None, service)
  | Throw e => (Throw e, notifyListeners (error "updateTask" e) service)
  end.

Definition getTaskStats (userId : string) (now : Z) (fresh : string) (service : t)
    : Result TaskRepository.Statistics * t :=
  let '(r, repo) :=
    TaskRepository.getStatistics (Some userId) now fresh (taskRepository service) in
  (r, with_repository repo service).

(** *** Deletion and the read operations *)

Definition deleteTask (taskId : string) (service : t) : bool * t :=
  let '(success, repo) := TaskRepository.delete taskId (taskRepository service) in
  let service := with_repository repo service in
  if success then (true, notifyListeners (taskDeleted taskId) service)
  else (false, service).

(** A read of the repository on behalf of the service. *)
Definition reading {A} (query : TaskRepository.t -> Result A * TaskRepository.t)
    (service : t) : Result A * t :=
  let '(r, repo) := query (taskRepository service) in
  (r, with_repository repo service).

Definition getTasksForUser (userId : string) (now : Z) (fresh : string) :=
  reading (TaskRepository.findAll
             (TaskRepository.filters (Some userId) None None None None) now fresh).

Definition getPendingTasks (userId : string) (now : Z) (fresh : string) :=
  reading (TaskRepository.findAll
             (TaskRepository.filters (Some userId) (Some false) None None None)
             now fresh).

Definition getCompletedTasks (userId : string) (now : Z) (fresh : string) :=
  reading (TaskRepository.findAll
             (TaskRepository.filters (Some userId) (Some true) None None None)
             now fresh).

Definition getOverdueTasks (userId : string) (now : Z) (fresh : string)
    (service : t) : Result (list Task.t) * t :=
  let '(r, service) := getTasksForUser userId now fresh service in
  (let* allTasks := r in Ok (List.filter (Task.isOverdue now) allTasks), service).

(** [priority] and [category] may be [null]: the value of the filter that
    the controller hands on. *)
Definition getTasksByPriority (userId : string) (priority : option string)
    (now : Z) (fresh : string) :=
  reading (TaskRepository.findAll
             (TaskRepository.filters (Some userId) None priority None None)
             now fresh).

Definition getTasksByCategory (userId : string) (category : option string)
    (now : Z) (fresh : string) :=
  reading (TaskRepository.findAll
             (TaskRepository.filters (Some userId) None None category None)
             now fresh).

Definition getTasksAssignedToUser (userId : string) (now : Z) (fresh : string) :=
  reading (TaskRepository.findAll
             (TaskRepository.filters None None None None (Some userId)) now fresh).

Definition searchTasks (userId : string) (query : string) (now : Z)
    (fresh : string) (service : t) : Result (list Task.t) * t :=
  let '(r, service) := getTasksForUser userId now fresh service in
  (let* userTasks := r in
   Ok (List.filter
         (fun task =>
            Js.str_includes (Js.toLowerCase (Task._title task)) (Js.toLowerCase query)
            || Js.str_includes (Js.toLowerCase (Task._description task))
                 (Js.toLowerCase query)
            || existsb (fun tag => Js.str_includes (Js.toLowerCase tag)
                                     (Js.toLowerCase query))
                 (Task._tags task)) userTasks),
   service).

End TaskService.

(** ** TaskController *)

Module TaskController.

(** Modelled from the spec: the [User] class is not among the sources.  The
    controller reads three properties of the acting user: its [id], whether
    it holds an administrator role and whether it may manage users. *)
Record User := {
  id : string;
  isAdmin : bool;
  canManageUsers : bool
}.

(** Calls on the presentation surface and events sent to the listeners of
    the controller, in the order they happen. *)
Inductive output :=
| view_updateTask (task : option Task.t)
| view_displayStats (stats : TaskRepository.Statistics)
| notify_taskUpdated (task : option Task.t)
| notify_error (operation : string) (message : JsError) (timestamp : Z).

Record t := {
  taskService : TaskService.t;
  taskView : bool;
  currentUser : option User;
  currentFilter : string;
  outputs : list output
}.

Definition emit (o : output) (c : t) : t :=
  {| taskService := taskService c;
     taskView := taskView c;
     currentUser := currentUser c;
     currentFilter := currentFilter c;
     outputs := outputs c ++ [o] |}.

Definition with_service (service : TaskService.t) (c : t) : t :=
  {| taskService := service;
     taskView := taskView c;
     currentUser := currentUser c;
     currentFilter := currentFilter c;
     outputs := outputs c |}.

(** [handleError(error, operation)]: notify, then throw again. *)
Definition handleError {A} (e : JsError) (operation : string) (now : Z) (c : t)
    : Result A * t :=
  (Throw e, emit (notify_error operation e now) c).

(** [validateParams(params, required)] for string parameters *)
Definition validateParams (params : list (string * string)) : Result unit :=
  let missing := List.filter (fun p => String.eqb (snd p) "") params in
  if (0 <? length missing)%nat then
    Throw (Error ("Missing required parameters: " ++ Js.join ", " (map fst missing)))
  else Ok tt.

Definition canModifyTask (task : option Task.t) (c : t) : bool :=
  match task, currentUser c with
  | Some task, Some user =>
      (* User can modify if they own the task or are assigned to it *)
      if String.eqb (Task._userId task) (id user)
         || String.eqb (Task._assignedTo task) (id user) then true
      (* Admins can modify any task *)
      else if isAdmin user then true
      else false
  | _, _ => false
  end.

Definition canViewTask (task : option Task.t) (c : t) : bool :=
  match task, currentUser c with
  | Some task, Some user =>
      if String.eqb (Task._userId task) (id user)
         || String.eqb (Task._assignedTo task) (id user) then true
      else if isAdmin user || canManageUsers user then true
      else false
  | _, _ => false
  end.

Definition permission_denied : JsError :=
  Error "Permission denied: Cannot modify this task".

Definition reading_id_of_null : JsError :=
  TypeError "Cannot read properties of null (reading 'id')".

(** [updateTaskStats()] *)
Definition updateTaskStats (now : Z) (fresh : string) (c : t)
    : Result TaskRepository.Statistics * t :=
  match currentUser c with
  | None => handleError reading_id_of_null "updateTaskStats" now c
  | Some user =>
      let '(r, service) := TaskService.getTaskStats (id user) now fresh (taskService c) in
      let c := with_service service c in
      match r with
      | Throw e => handleError e "updateTaskStats" now c
      | Ok stats =>
          (* Display stats in view if available *)
          let c := if taskView c then emit (view_displayStats stats) c else c in
          (Ok stats, c)
      end
  end.

(** [updateTask(taskId, updates)] *)
Definition updateTask (taskId : string) (updates : list Updates.entry) (now : Z)
    (fresh : string) (c : t) : Result (option Task.t) * t :=
  match validateParams [("taskId", taskId)] with
  | Throw e => handleError e "updateTask" now c
  | Ok _ =>
      (* Check permissions *)
      let '(r, service) := TaskService.getTaskById taskId now fresh (taskService c) in
      let c := with_service service c in
      match r with
      | Throw e => handleError e "updateTask" now c
      | Ok task =>
          if negb (canModifyTask task c) then
            handleError permission_denied "updateTask" now c
          else
            (* Update task through service *)
            let '(r, service) :=
              TaskService.updateTask taskId updates now fresh (taskService c) in
            let c := with_service service c in
            match r with
            | Throw e => handleError e "updateTask" now c
            | Ok updatedTask =>
                (* Update view if available *)
                let '(r, c) :=
                  if taskView c then
                    let c := emit (view_updateTask updatedTask) c in
                    let '(r, c) := updateTaskStats now fresh c in
                    (let* _ := r in Ok tt, c)
                  else (Ok tt, c) in
                match r with
                | Throw e => handleError e "updateTask" now c
                | Ok _ =>
                    (Ok updatedTask, emit (notify_taskUpdated updatedTask) c)
                end
            end
      end
  end.

(** [toggleTaskCompletion(taskId)] *)
Definition toggleTaskCompletion (taskId : string) (now : Z) (fresh : string) (c : t)
    : Result (option Task.t) * t :=
  let '(r, service) := TaskService.getTaskById taskId now fresh (taskService c) in
  let c := with_service service c in
  match r with
  | Throw e => handleError e "toggleTaskCompletion" now c
  | Ok None => handleError (Error "Task not found") "toggleTaskCompletion" now c
  | Ok (Some task) =>
      let updates := [Updates.completed (negb (Task._completed task))] in
      let '(r, c) := updateTask taskId updates now fresh c in
      match r with
      | Throw e => handleError e "toggleTaskCompletion" now c
      | Ok updated => (Ok updated, c)
      end
  end.

(** The rows and the number of [save] calls behind a controller. *)
Definition persisted (c : t) : list TaskData.t :=
  Storage.records (TaskRepository.storage (TaskService.taskRepository (taskService c))).

Definition saves (c : t) : nat :=
  Storage.saveCalls (TaskRepository.storage (TaskService.taskRepository (taskService c))).

(** *** The other operations of the controller *)

(** Calls on the presentation surface and events sent to the listeners that
    only the operations below make; an operation returns them in the order
    they happen (an error event, which ends the operation, goes to
    [outputs]). *)
Inductive shown :=
| view_removeTask (taskId : string)
| view_displayTasks (tasks : list Task.t) (filterType : string)
| notify_taskDeleted (taskId : string) (task : option Task.t)
| notify_tasksFiltered (filterType : string) (filterValue : option string)
    (count : nat)
| notify_tasksSearched (query : string) (count : nat).

Definition with_filter (filterType : string) (c : t) : t :=
  {| taskService := taskService c;
     taskView := taskView c;
     currentUser := currentUser c;
     currentFilter := filterType;
     outputs := outputs c |}.

Definition cannot_delete : JsError :=
  Error "Permission denied: Cannot delete this task".

Definition task_not_found : JsError := Error "Task not found".

(** [deleteTask(taskId)]; [confirmed] is the answer of
    [taskView.confirmDeletion(task)], asked when there is a view. *)
Definition deleteTask (taskId : string) (confirmed : bool) (now : Z)
    (fresh : string) (c : t) : Result bool * t * list shown :=
  match validateParams [("taskId", taskId)] with
  | Throw e => (handleError e "deleteTask" now c, [])
  | Ok _ =>
      (* Check permissions *)
      let '(r, service) := TaskService.getTaskById taskId now fresh (taskService c) in
      let c := with_service service c in
      match r with
      | Throw e => (handleError e "deleteTask" now c, [])
      | Ok task =>
          if negb (canModifyTask task c) then
            (handleError cannot_delete "deleteTask" now c, [])
          else if negb (if taskView c then confirmed else true) then
            (Ok false, c, [])
          else
            (* Delete task through service *)
            let '(success, service) := TaskService.deleteTask taskId (taskService c) in
            let c := with_service service c in
            if success then
              if taskView c then
                let '(r, c) := updateTaskStats now fresh c in
                match r with
                | Throw e =>
                    (handleError e "deleteTask" now c, [view_removeTask taskId])
                | Ok _ =>
                    (Ok true, c,
                     [view_removeTask taskId; notify_taskDeleted taskId task])
                end
              else (Ok true, c, [notify_taskDeleted taskId task])
            else (Ok false, c, [])
      end
  end.

Definition unknown_filter (filterType : string) : JsError :=
  Error ("Unknown filter type: " ++ filterType).

(** The [switch] of [filterTasks]: the query of the service for a filter. *)
Definition filter_query (filterType : string) (filterValue : option string)
    (now : Z) (fresh : string) (c : t) : Result (list Task.t) * t :=
  let as_user (query : string -> TaskService.t -> Result (list Task.t) * TaskService.t) :=
    match currentUser c with
    | None => (Throw reading_id_of_null, c)
    | Some user =>
        let '(r, service) := query (id user) (taskService c) in
        (r, with_service service c)
    end in
  if String.eqb filterType "all" then
    as_user (fun u => TaskService.getTasksForUser u now fresh)
  else if String.eqb filterType "pending" then
    as_user (fun u => TaskService.getPendingTasks u now fresh)
  else if String.eqb filterType "completed" then
    as_user (fun u => TaskService.getCompletedTasks u now fresh)
  else if String.eqb filterType "overdue" then
    as_user (fun u => TaskService.getOverdueTasks u now fresh)
  else if String.eqb filterType "priority" then
    as_user (fun u => TaskService.getTasksByPriority u filterValue now fresh)
  else if String.eqb filterType "category" then
    as_user (fun u => TaskService.getTasksByCategory u filterValue now fresh)
  else if String.eqb filterType "assigned" then
    as_user (fun u => TaskService.getTasksAssignedToUser u now fresh)
  else (Throw (unknown_filter filterType), c).

(** [filterTasks(filterType, filterValue = null)] *)
Definition filterTasks (filterType : string) (filterValue : option string)
    (now : Z) (fresh : string) (c : t) : Result (list Task.t) * t * list shown :=
  let c := with_filter filterType c in
  let '(r, c) := filter_query filterType filterValue now fresh c in
  match r with
  | Throw e => (handleError e "filterTasks" now c, [])
  | Ok tasks =>
      (Ok tasks, c,
       (if taskView c then [view_displayTasks tasks filterType] else [])
       ++ [notify_tasksFiltered filterType filterValue (length tasks)])
  end.

(** [searchTasks(query)] *)
Definition searchTasks (query : string) (now : Z) (fresh : string) (c : t)
    : Result (list Task.t) * t * list shown :=
  if negb (Js.truthy query) || String.eqb (Js.trim query) "" then
    let '(r, c, shown) := filterTasks (currentFilter c) None now fresh c in
    match r with
    | Throw e => (handleError e "searchTasks" now c, shown)
    | Ok tasks => (Ok tasks, c, shown)
    end
  else
    match currentUser c with
    | None => (handleError reading_id_of_null "searchTasks" now c, [])
    | Some user =>
        let '(r, service) :=
          TaskService.searchTasks (id user) (Js.trim query) now fresh (taskService c) in
        let c := with_service service c in
        match r with
        | Throw e => (handleError e "searchTasks" now c, [])
        | Ok tasks =>
            (Ok tasks, c,
             (if taskView c then [view_displayTasks tasks "search"] else [])
             ++ [notify_tasksSearched query (length tasks)])
        end
    end.

(** [refreshTasks()] *)
Definition refreshTasks (now : Z) (fresh : string) (c : t)
    : Result unit * t * list shown :=
  let '(r, c, shown) := filterTasks (currentFilter c) None now fresh c in
  match r with
  | Throw e => (handleError e "refreshTasks" now c, shown)
  | Ok _ =>
      let '(r, c) := updateTaskStats now fresh c in
      match r with
      | Throw e => (handleError e "refreshTasks" now c, shown)
      | Ok _ => (Ok tt, c, shown)
      end
  end.

(** [addTimeSpent(taskId, hours)] for a number [hours] *)
Definition addTimeSpent (taskId : string) (hours : float) (now : Z) (fresh : string)
    (c : t) : Result (option Task.t) * t :=
  match validateParams [("taskId", taskId)] with
  | Throw e => handleError e "addTimeSpent" now c
  | Ok _ =>
      let '(r, service) := TaskService.getTaskById taskId now fresh (taskService c) in
      let c := with_service service c in
      match r with
      | Throw e => handleError e "addTimeSpent" now c
      | Ok None => handleError task_not_found "addTimeSpent" now c
      | Ok (Some task) =>
          if negb (canModifyTask (Some task) c) then
            handleError permission_denied "addTimeSpent" now c
          else
            let currentHours :=
              if Task.truthy_hours (Task._actualHours task)
              then default Number.zero (Task._actualHours task)
              else Number.zero in
            let '(r, c) :=
              updateTask taskId
                [Updates.actualHours (Some (currentHours + hours)%float)]
                now fresh c in
            match r with
            | Throw e => handleError e "addTimeSpent" now c
            | Ok updated => (Ok updated, c)
            end
      end
  end.

(** [setDueDate(taskId, dueDate)] *)
Definition setDueDate (taskId : string) (dueDate : option Js.DateInput) (now : Z)
    (fresh : string) (c : t) : Result (option Task.t) * t :=
  match validateParams [("taskId", taskId)] with
  | Throw e => handleError e "setDueDate" now c
  | Ok _ =>
      let '(r, c) := updateTask taskId [Updates.dueDate dueDate] now fresh c in
      match r with
      | Throw e => handleError e "setDueDate" now c
      | Ok updated => (Ok updated, c)
      end
  end.

(** [addTaskTag(taskId, tag)] *)
Definition addTaskTag (taskId tag : string) (now : Z) (fresh : string) (c : t)
    : Result (option Task.t) * t :=
  match validateParams [("taskId", taskId); ("tag", tag)] with
  | Throw e => handleError e "addTaskTag" now c
  | Ok _ =>
      let '(r, service) := TaskService.getTaskById taskId now fresh (taskService c) in
      let c := with_service service c in
      match r with
      | Throw e => handleError e "addTaskTag" now c
      | Ok None => handleError task_not_found "addTaskTag" now c
      | Ok (Some task) =>
          let currentTags := Task._tags task in
          if negb (Js.includes currentTags (Js.toLowerCase tag)) then
            let '(r, c) :=
              updateTask taskId [Updates.tags (currentTags ++ [Js.toLowerCase tag])]
                now fresh c in
            match r with
            | Throw e => handleError e "addTaskTag" now c
            | Ok updated => (Ok updated, c)
            end
          else (Ok (Some task), c)
      end
  end.

(** [removeTaskTag(taskId, tag)] *)
Definition removeTaskTag (taskId tag : string) (now : Z) (fresh : string) (c : t)
    : Result (option Task.t) * t :=
  match validateParams [("taskId", taskId); ("tag", tag)] with
  | Throw e => handleError e "removeTaskTag" now c
  | Ok _ =>
      let '(r, service) := TaskService.getTaskById taskId now fresh (taskService c) in
      let c := with_service service c in
      match r with
      | Throw e => handleError e "removeTaskTag" now c
      | Ok None => handleError task_not_found "removeTaskTag" now c
      | Ok (Some task) =>
          let updatedTags :=
            List.filter (fun t => negb (String.eqb t (Js.toLowerCase tag)))
              (Task._tags task) in
          let '(r, c) := updateTask taskId [Updates.tags updatedTags] now fresh c in
          match r with
          | Throw e => handleError e "removeTaskTag" now c
          | Ok updated => (Ok updated, c)
          end
      end
  end.

End TaskController.

(** ** TaskService.createTask *)

(** The creation path of the service reads the user repository, so its
    state joins the task service, a user repository and the log of the
    [taskCreated] events. *)
Module TaskCreation.

Section WithUser.

Context {User UserData : Type}.
Variable row_id : UserData -> option string.
Variable fromJSON : UserData -> Z -> Result User.

Record t := {
  service : TaskService.t;
  userRepository : UserRepository.t User UserData;
  created : list Task.t
}.

Definition user_not_found : JsError := Error "User not found".

(** [createTask(taskData)], where [taskData.userId] is the string [userId] *)
Definition createTask (userId : string) (taskData : TaskData.t) (now : Z)
    (fresh : string) (s : t) : Result Task.t * t :=
  (* Validate user exists *)
  let '(r, users) :=
    UserRepository.findById row_id fromJSON userId now (userRepository s) in
  let attempt :=
    let* user := r in
    match user with
    | None => Throw user_not_found
    | Some _ =>
        (* Create task instance *)
        Task.constructor (TaskData.title taskData) (TaskData.description taskData)
          (Some userId) taskData now fresh
    end in
  match attempt with
  | Throw e =>
      (Throw e,
       {| service := TaskService.notifyListeners
                       (TaskService.error "createTask" e) (service s);
          userRepository := users;
          created := created s |})
  | Ok task =>
      (* Save through repository *)
      let '(r, repo) :=
        TaskRepository.create task now (TaskService.taskRepository (service s)) in
      let service' := TaskService.with_repository repo (service s) in
      match r with
      | Throw e =>
          (Throw e,
           {| service := TaskService.notifyListeners
                           (TaskService.error "createTask" e) service';
              userRepository := users;
              created := created s |})
      | Ok savedTask =>
          (Ok savedTask,
           {| service := service';
              userRepository := users;
              created := created s ++ [savedTask] |})
      end
  end.

End WithUser.

Arguments t User UserData : clear implicits.

End TaskCreation.

(** ** TaskView.sortTasks *)

Module TaskView.

(** [priorityOrder[p]]: [None] is [undefined]. *)
Definition priorityOrder (p : string) : option Z :=
  if String.eqb p "urgent" then Some 4
  else if String.eqb p "high" then Some 3
  else if String.eqb p "medium" then Some 2
  else if String.eqb p "low" then Some 1
  else None.

(** [new Date(a) - new Date(b)]; NaN, which [sort] takes for 0, is 0. *)
Definition date_diff (a b : Js.Date) : Z :=
  match a, b with
  | Js.DateAt x, Js.DateAt y => x - y
  | _, _ => 0
  end.

(** The comparator of [sortTasks]. *)
Definition compare (now : Z) (a b : Task.t) : Z :=
  (* First, sort by completion status (incomplete first) *)
  if negb (Bool.eqb (Task._completed a) (Task._completed b)) then
    if Task._completed a then 1 else -1
  (* Then by overdue status (overdue first) *)
  else if negb (Bool.eqb (Task.isOverdue now a) (Task.isOverdue now b)) then
    if Task.isOverdue now a then -1 else 1
  else
    (* Then by priority (higher priority first) *)
    match priorityOrder (Task._priority b), priorityOrder (Task._priority a) with
    | Some rb, Some ra =>
        let priorityDiff := rb - ra in
        if negb (priorityDiff =? 0) then priorityDiff
        else
          (* Finally by due date (earlier due date first) *)
          match Task._dueDate a, Task._dueDate b with
          | Some da, Some db => date_diff da db
          | Some _, None => -1
          | None, Some _ => 1
          | None, None =>
              (* sort by creation date (newer first) *)
              date_diff (Task._createdAt b) (Task._createdAt a)
          end
    | _, _ => 0
    end.

Definition sortTasks (now : Z) (tasks : list Task.t) : list Task.t :=
  TaskRepository.sort (compare now) tasks.

(** [getEmptyStateMessage(filterType)] *)
Definition getEmptyStateMessage (filterType : string) : string :=
  if String.eqb filterType "pending" then "No pending tasks. Great job!"
  else if String.eqb filterType "completed" then
    "No completed tasks yet. Start working on your tasks!"
  else if String.eqb filterType "overdue" then "No overdue tasks. You're on track!"
  else if String.eqb filterType "search" then
    "No tasks match your search. Try different keywords."
  else "Create your first task using the form above".

End TaskView.

(** ** Invariants of the data model *)

Module Invariants.

(** [completed = true] exactly when [status = 'completed']. *)
Definition consistent (task : Task.t) : Prop :=
  Task._completed task = true <-> Task._status task = "completed".

(** The tags are a deduplicated set of lowercase strings. *)
Definition tags_ok (task : Task.t) : Prop :=
  NoDup (Task._tags task)
  /\ Forall (fun tag => Js.toLowerCase tag = tag) (Task._tags task).

(** The dependencies are a deduplicated set that leaves out the task itself. *)
Definition dependencies_ok (task : Task.t) : Prop :=
  NoDup (Task._dependencies task)
  /\ ~ In (Task._id task) (Task._dependencies task).

(** Hours are absent or not negative: a number for which the test
    [hours < 0] of the class fails. *)
Definition hours_ok (hours : option float) : Prop :=
  match hours with
  | Some h => PrimFloat.ltb h Number.zero = false
  | None => True
  end.

(** A date-time string of a plain object that [Date] can parse (the empty
    string counts as no date at all). *)
Definition parses (s : option Js.DateString) : Prop :=
  match s with
  | Some (Js.Unparsable text) => text = ""
  | _ => True
  end.

(** The normal form in which the constructor and the mutators of the class
    leave the fields of a task: the identifiers are not empty, the texts
    are trimmed, category and tags are trimmed and lowercased, priority and
    status are among the valid ones, hours are not negative and every date
    is a valid date. *)
Record normal_form (task : Task.t) : Prop := {
  nf_id : Task._id task <> "";
  nf_createdAt : Task._createdAt task <> Js.InvalidDate;
  nf_title : Js.trim (Task._title task) = Task._title task;
  nf_title_filled : Task._title task <> "";
  nf_description : Js.trim (Task._description task) = Task._description task;
  nf_priority : In (Task._priority task) Task.validPriorities;
  nf_updatedAt : Task._updatedAt task <> Js.InvalidDate;
  nf_userId : Task._userId task <> "";
  nf_assignedTo : Task._assignedTo task <> "";
  nf_category :
    Js.toLowerCase (Js.trim (Task._category task)) = Task._category task;
  nf_category_filled : Task._category task <> "";
  nf_tags :
    Forall (fun tag => Js.toLowerCase (Js.trim tag) = tag) (Task._tags task);
  nf_dueDate : Task._dueDate task <> Some Js.InvalidDate;
  nf_estimatedHours : hours_ok (Task._estimatedHours task);
  nf_actualHours : hours_ok (Task._actualHours task);
  nf_status : In (Task._status task) Task.validStatuses;
  nf_completedAt : Task._completedAt task <> Some Js.InvalidDate
}.

(** Whether a plain object inherits the name from [Object.prototype]. *)
Definition inherited_name (c : string) : bool :=
  String.eqb c "__proto__"
  || Js.includes TaskRepository.Object_prototype_functions c.

(** The count that a property of [byCategory] holds; a string counts
    nothing. *)
Definition counted (v : TaskRepository.tally) : nat :=
  match v with
  | TaskRepository.Count n => n
  | TaskRepository.Text _ _ => 0
  end.

(** The own properties of a [byCategory] object that hold a count are those
    under a name that is not inherited. *)
Definition sorted_out (m : gmap string TaskRepository.tally) : Prop :=
  forall c v, m !! c = Some v ->
    match v with
    | TaskRepository.Count _ => inherited_name c = false
    | TaskRepository.Text _ _ => inherited_name c = true
    end.

(** The counts of a [byCategory] object, added up. *)
Definition sum_of_counts (byCategory : gmap string TaskRepository.tally) : nat :=
  map_fold (fun _ v acc => counted v + acc)%nat 0%nat byCategory.

End Invariants.

(** ** Sample data *)

Module Samples.

(** An object without properties. *)
Definition no_properties : TaskData.t :=
  {| TaskData.id := None; TaskData.title := None; TaskData.description := None;
     TaskData.userId := None; TaskData.assignedTo := None;
     TaskData.priority := None; TaskData.category := None;
     TaskData.tags := None; TaskData.completed := None;
     TaskData.status := None; TaskData.dueDate := None;
     TaskData.estimatedHours := None; TaskData.actualHours := None;
     TaskData.notes := None; TaskData.attachments := None;
     TaskData.dependencies := None; TaskData.createdAt := None;
     TaskData.updatedAt := None; TaskData.completedAt := None |}.

(** The persisted row of a pending task [t1] that user [u1] owns. *)
Definition row_t1 : TaskData.t :=
  {| TaskData.id := Some "t1"; TaskData.title := Some "A";
     TaskData.description := Some ""; TaskData.userId := Some "u1";
     TaskData.assignedTo := Some "u1"; TaskData.priority := Some "high";
     TaskData.category := Some "general"; TaskData.tags := Some [];
     TaskData.completed := Some false; TaskData.status := Some "pending";
     TaskData.dueDate := Some (Js.ISO 500); TaskData.estimatedHours := None;
     TaskData.actualHours := None; TaskData.notes := Some [];
     TaskData.attachments := Some []; TaskData.dependencies := Some [];
     TaskData.createdAt := Some (Js.ISO 100);
     TaskData.updatedAt := Some (Js.ISO 100);
     TaskData.completedAt := None |}.

(** The task that [row_t1] hydrates to. *)
Definition task_t1 : Task.t :=
  {| Task._id := "t1"; Task._createdAt := Js.DateAt 100; Task._title := "A";
     Task._description := ""; Task._priority := "high";
     Task._completed := false; Task._updatedAt := Js.DateAt 100;
     Task._userId := "u1"; Task._assignedTo := "u1";
     Task._category := "general"; Task._tags := [];
     Task._dueDate := Some (Js.DateAt 500); Task._estimatedHours := None;
     Task._actualHours := None; Task._status := "pending";
     Task._completedAt := None; Task._notes := []; Task._attachments := [];
     Task._dependencies := [] |}.

(** [task_t1] after [update("t1", { completed: true })] at instant 2000. *)
Definition task_t1_flagged : Task.t :=
  {| Task._id := "t1"; Task._createdAt := Js.DateAt 100; Task._title := "A";
     Task._description := ""; Task._priority := "high";
     Task._completed := true; Task._updatedAt := Js.DateAt 2000;
     Task._userId := "u1"; Task._assignedTo := "u1";
     Task._category := "general"; Task._tags := [];
     Task._dueDate := Some (Js.DateAt 500); Task._estimatedHours := None;
     Task._actualHours := None; Task._status := "pending";
     Task._completedAt := None; Task._notes := []; Task._attachments := [];
     Task._dependencies := [] |}.

(** The options [{ completed: true }]. *)
Definition options_completed : TaskData.t :=
  {| TaskData.id := None; TaskData.title := None; TaskData.description := None;
     TaskData.userId := None; TaskData.assignedTo := None;
     TaskData.priority := None; TaskData.category := None;
     TaskData.tags := None; TaskData.completed := Some true;
     TaskData.status := None; TaskData.dueDate := None;
     TaskData.estimatedHours := None; TaskData.actualHours := None;
     TaskData.notes := None; TaskData.attachments := None;
     TaskData.dependencies := None; TaskData.createdAt := None;
     TaskData.updatedAt := None; TaskData.completedAt := None |}.

(** [task_t1] after [update("t1", { tags: [" Work"] })] at instant 2000. *)
Definition task_t1_tagged : Task.t :=
  {| Task._id := "t1"; Task._createdAt := Js.DateAt 100; Task._title := "A";
     Task._description := ""; Task._priority := "high";
     Task._completed := false; Task._updatedAt := Js.DateAt 2000;
     Task._userId := "u1"; Task._assignedTo := "u1";
     Task._category := "general"; Task._tags := [" Work"];
     Task._dueDate := Some (Js.DateAt 500); Task._estimatedHours := None;
     Task._actualHours := None; Task._status := "pending";
     Task._completedAt := None; Task._notes := []; Task._attachments := [];
     Task._dependencies := [] |}.

(** The options [{ category: " " }] and [{ dueDate: "soon" }]. *)
Definition options_blank_category : TaskData.t :=
  {| TaskData.id := None; TaskData.title := None; TaskData.description := None;
     TaskData.userId := None; TaskData.assignedTo := None;
     TaskData.priority := None; TaskData.category := Some " ";
     TaskData.tags := None; TaskData.completed := None;
     TaskData.status := None; TaskData.dueDate := None;
     TaskData.estimatedHours := None; TaskData.actualHours := None;
     TaskData.notes := None; TaskData.attachments := None;
     TaskData.dependencies := None; TaskData.createdAt := None;
     TaskData.updatedAt := None; TaskData.completedAt := None |}.

Definition options_due_soon : TaskData.t :=
  {| TaskData.id := None; TaskData.title := None; TaskData.description := None;
     TaskData.userId := None; TaskData.assignedTo := None;
     TaskData.priority := None; TaskData.category := None;
     TaskData.tags := None; TaskData.completed := None;
     TaskData.status := None; TaskData.dueDate := Some (Js.Unparsable "soon");
     TaskData.estimatedHours := None; TaskData.actualHours := None;
     TaskData.notes := None; TaskData.attachments := None;
     TaskData.dependencies := None; TaskData.createdAt := None;
     TaskData.updatedAt := None; TaskData.completedAt := None |}.

(** The options [{ id: "t1", tags: ["Work", "work"],
    dependencies: ["t1", "t1"] }]. *)
Definition options_duplicates : TaskData.t :=
  {| TaskData.id := Some "t1"; TaskData.title := None;
     TaskData.description := None; TaskData.userId := None;
     TaskData.assignedTo := None; TaskData.priority := None;
     TaskData.category := None; TaskData.tags := Some ["Work"; "work"];
     TaskData.completed := None; TaskData.status := None;
     TaskData.dueDate := None; TaskData.estimatedHours := None;
     TaskData.actualHours := None; TaskData.notes := None;
     TaskData.attachments := None; TaskData.dependencies := Some ["t1"; "t1"];
     TaskData.createdAt := None; TaskData.updatedAt := None;
     TaskData.completedAt := None |}.

(** A repository over a collection that holds [row_t1] alone. *)
Definition repo_t1 : TaskRepository.t :=
  TaskRepository.constructor
    {| Storage.records := [row_t1]; Storage.loadCalls := 0; Storage.saveCalls := 0 |}.

(** A repository over an empty collection, and what [create(task_t1)] at
    instant 100 makes of it. *)
Definition repo_empty : TaskRepository.t :=
  TaskRepository.constructor
    {| Storage.records := []; Storage.loadCalls := 0; Storage.saveCalls := 0 |}.

Definition repo_created : TaskRepository.t :=
  snd (TaskRepository.create task_t1 100 repo_empty).

(** [repo_t1] with [task_t1] cached at instant 100. *)
Definition repo_cached : TaskRepository.t :=
  TaskRepository.cache_set "t1" task_t1 100 repo_t1.

(** A user repository whose rows and users are plain names, with user [u1]
    cached at instant 100. *)
Definition user_repo : UserRepository.t string string :=
  {| UserRepository.storage :=
       {| Storage.records := ["u1"]; Storage.loadCalls := 0; Storage.saveCalls := 0 |};
     UserRepository._cache :=
       {[ "u1" := {| Cache.data := "u1"; Cache.timestamp := 100 |} ]} |}.

(** The options [{ sortBy: 'priority', sortOrder: 'desc' }]. *)
Definition by_priority_desc : TaskRepository.FindOptions :=
  {| TaskRepository.userId := None; TaskRepository.completed := None;
     TaskRepository.priority := None; TaskRepository.category := None;
     TaskRepository.assignedTo := None;
     TaskRepository.sortBy := Some TaskRepository.by_priority;
     TaskRepository.sortOrder := Some "desc";
     TaskRepository.limit := None; TaskRepository.offset := None |}.

(** Three rows with the priorities low, urgent and medium. *)
Definition row_with (id priority : string) : TaskData.t :=
  {| TaskData.id := Some id; TaskData.title := Some "A";
     TaskData.description := Some ""; TaskData.userId := Some "u1";
     TaskData.assignedTo := Some "u1"; TaskData.priority := Some priority;
     TaskData.category := Some "general"; TaskData.tags := Some [];
     TaskData.completed := Some false; TaskData.status := Some "pending";
     TaskData.dueDate := None; TaskData.estimatedHours := None;
     TaskData.actualHours := None; TaskData.notes := Some [];
     TaskData.attachments := Some []; TaskData.dependencies := Some [];
     TaskData.createdAt := Some (Js.ISO 100);
     TaskData.updatedAt := Some (Js.ISO 100);
     TaskData.completedAt := None |}.

Definition task_with (id priority : string) : Task.t :=
  {| Task._id := id; Task._createdAt := Js.DateAt 100; Task._title := "A";
     Task._description := ""; Task._priority := priority;
     Task._completed := false; Task._updatedAt := Js.DateAt 100;
     Task._userId := "u1"; Task._assignedTo := "u1";
     Task._category := "general"; Task._tags := [];
     Task._dueDate := None; Task._estimatedHours := None;
     Task._actualHours := None; Task._status := "pending";
     Task._completedAt := None; Task._notes := []; Task._attachments := [];
     Task._dependencies := [] |}.

Definition repo_three : TaskRepository.t :=
  TaskRepository.constructor
    {| Storage.records := [row_with "a" "low"; row_with "b" "urgent";
                           row_with "c" "medium"];
       Storage.loadCalls := 0; Storage.saveCalls := 0 |}.

(** An urgent task between a pending and a completed task of user [u1]. *)
Definition task_urgent : Task.t := task_with "b" "urgent".

(** A controller over [repo_t1] with a view, acting for user [u2], who is no
    administrator and neither owns [t1] nor is assigned to it. *)
Definition controller_u2 : TaskController.t :=
  {| TaskController.taskService :=
       {| TaskService.taskRepository := repo_t1; TaskService.notified := [] |};
     TaskController.taskView := true;
     TaskController.currentUser :=
       Some {| TaskController.id := "u2"; TaskController.isAdmin := false;
               TaskController.canManageUsers := true |};
     TaskController.currentFilter := "all";
     TaskController.outputs := [] |}.

(** The same controller acting for [u1], the owner of [t1]. *)
Definition controller_u1 : TaskController.t :=
  {| TaskController.taskService :=
       {| TaskService.taskRepository := repo_t1; TaskService.notified := [] |};
     TaskController.taskView := true;
     TaskController.currentUser :=
       Some {| TaskController.id := "u1"; TaskController.isAdmin := false;
               TaskController.canManageUsers := false |};
     TaskController.currentFilter := "all";
     TaskController.outputs := [] |}.

(** [task_t1] with two tags, six hours estimated and three hours spent. *)
Definition task_t1_busy : Task.t :=
  {| Task._id := "t1"; Task._createdAt := Js.DateAt 100; Task._title := "A";
     Task._description := ""; Task._priority := "high";
     Task._completed := false; Task._updatedAt := Js.DateAt 100;
     Task._userId := "u1"; Task._assignedTo := "u1";
     Task._category := "general"; Task._tags := ["work"; "home"];
     Task._dueDate := Some (Js.DateAt 500); Task._estimatedHours := Some 6%float;
     Task._actualHours := Some 3%float; Task._status := "in-progress";
     Task._completedAt := None; Task._notes := []; Task._attachments := [];
     Task._dependencies := [] |}.

(** The row of an urgent task of user [u1] in a given category, as the
    task form and [createTask] store it, and a repository that holds this
    row only. *)
Definition row_in (category : string) : TaskData.t :=
  {| TaskData.id := Some "t9"; TaskData.title := Some "A";
     TaskData.description := Some ""; TaskData.userId := Some "u1";
     TaskData.assignedTo := Some "u1"; TaskData.priority := Some "urgent";
     TaskData.category := Some category; TaskData.tags := Some [];
     TaskData.completed := Some false; TaskData.status := Some "pending";
     TaskData.dueDate := None; TaskData.estimatedHours := None;
     TaskData.actualHours := None; TaskData.notes := Some [];
     TaskData.attachments := Some []; TaskData.dependencies := Some [];
     TaskData.createdAt := Some (Js.ISO 100);
     TaskData.updatedAt := Some (Js.ISO 100);
     TaskData.completedAt := None |}.

Definition repo_in (category : string) : TaskRepository.t :=
  TaskRepository.constructor
    {| Storage.records := [row_in category]; Storage.loadCalls := 0;
       Storage.saveCalls := 0 |}.

(** The options of the task form for such a task. *)
Definition options_in (category : string) : TaskData.t :=
  {| TaskData.id := None; TaskData.title := Some "A";
     TaskData.description := Some ""; TaskData.userId := Some "u1";
     TaskData.assignedTo := Some "u1"; TaskData.priority := Some "urgent";
     TaskData.category := Some category; TaskData.tags := Some [];
     TaskData.completed := None; TaskData.status := None;
     TaskData.dueDate := None; TaskData.estimatedHours := None;
     TaskData.actualHours := None; TaskData.notes := None;
     TaskData.attachments := None; TaskData.dependencies := None;
     TaskData.createdAt := None; TaskData.updatedAt := None;
     TaskData.completedAt := None |}.

End Samples.

(** * Properties *)

(** ** Strings: normal forms of [trim] and [toLowerCase] *)

Module JsFacts.
Import Js.

Lemma truthy_spec (s : string) : truthy s = true <-> s <> "".
Proof.
  unfold truthy. destruct (String.eqb_spec s ""); simpl; split; congruence.
Qed.

Lemma truthy_false (s : string) : truthy s = false <-> s = "".
Proof.
  unfold truthy. destruct (String.eqb_spec s ""); simpl; split; congruence.
Qed.

Lemma or_else_truthy (s d : string) : s <> "" -> or_else (Some s) d = s.
Proof. intros H. simpl. apply truthy_spec in H. now rewrite H. Qed.

Lemma lower_char_idem (c : ascii) : lower_char (lower_char c) = lower_char c.
Proof. destruct c as [[] [] [] [] [] [] [] []]; reflexivity. Qed.

Lemma is_space_lower_char (c : ascii) : is_space (lower_char c) = is_space c.
Proof. destruct c as [[] [] [] [] [] [] [] []]; reflexivity. Qed.

Lemma toLowerCase_idem (s : string) : toLowerCase (toLowerCase s) = toLowerCase s.
Proof.
  induction s as [|c s IH]; simpl; [reflexivity|].
  now rewrite lower_char_idem, IH.
Qed.

Lemma toLowerCase_empty (s : string) : toLowerCase s = "" <-> s = "".
Proof. destruct s; simpl; split; congruence. Qed.

Lemma trimStart_lower (s : string) :
  trimStart (toLowerCase s) = toLowerCase (trimStart s).
Proof.
  induction s as [|c s IH]; simpl; [reflexivity|].
  rewrite is_space_lower_char. now destruct (is_space c).
Qed.

Lemma trimEnd_lower (s : string) :
  trimEnd (toLowerCase s) = toLowerCase (trimEnd s).
Proof.
  induction s as [|c s IH]; simpl; [reflexivity|].
  rewrite IH, is_space_lower_char.
  destruct (trimEnd s); simpl; [now destruct (is_space c)|reflexivity].
Qed.

Lemma trim_lower (s : string) : trim (toLowerCase s) = toLowerCase (trim s).
Proof. unfold trim. now rewrite trimStart_lower, trimEnd_lower. Qed.

Lemma trimEnd_idem (s : string) : trimEnd (trimEnd s) = trimEnd s.
Proof.
  induction s as [|c s IH]; simpl; [reflexivity|].
  destruct (trimEnd s) as [|c' r] eqn:E.
  - destruct (is_space c) eqn:Hc; simpl; [reflexivity|now rewrite Hc].
  - simpl in *. now rewrite IH.
Qed.

Lemma trimStart_clean (s : string) : starts_clean (trimStart s) = true.
Proof.
  induction s as [|c s IH]; simpl; [reflexivity|].
  destruct (is_space c) eqn:Hc; [exact IH|]. simpl. now rewrite Hc.
Qed.

Lemma trimStart_of_clean (s : string) : starts_clean s = true -> trimStart s = s.
Proof. destruct s as [|c s]; simpl; [reflexivity|]. now destruct (is_space c). Qed.

Lemma trimEnd_clean (s : string) :
  starts_clean s = true -> starts_clean (trimEnd s) = true.
Proof.
  destruct s as [|c s]; simpl; [reflexivity|]. intros Hc.
  destruct (trimEnd s); simpl; [|exact Hc].
  destruct (is_space c) eqn:E; [discriminate|simpl; now rewrite E].
Qed.

Lemma trim_idem (s : string) : trim (trim s) = trim s.
Proof.
  unfold trim.
  rewrite (trimStart_of_clean (trimEnd (trimStart s))).
  - apply trimEnd_idem.
  - apply trimEnd_clean, trimStart_clean.
Qed.

(** [s.trim().toLowerCase()] is a normal form: normalizing again changes
    nothing. *)
Lemma normalize_idem (s : string) :
  toLowerCase (trim (toLowerCase (trim s))) = toLowerCase (trim s).
Proof. now rewrite trim_lower, trim_idem, toLowerCase_idem. Qed.

Lemma includes_spec (l : list string) (s : string) :
  includes l s = true <-> In s l.
Proof.
  unfold includes. rewrite existsb_exists. split.
  - intros (x & Hin & Heq). apply String.eqb_eq in Heq. now subst.
  - intros Hin. exists s. split; [exact Hin|apply String.eqb_refl].
Qed.

Lemma includes_false (l : list string) (s : string) :
  includes l s = false <-> ~ In s l.
Proof.
  rewrite <- includes_spec. destruct (includes l s); split; congruence.
Qed.

Lemma remove_first_In (x y : string) (l r : list string) :
  remove_first x l = Some r -> In y r -> In y l.
Proof.
  revert r. induction l as [|a l IH]; simpl; intros r; [discriminate|].
  destruct (String.eqb a x).
  - intros [= <-] Hin. now right.
  - destruct (remove_first x l) as [r'|]; [|discriminate].
    intros [= <-] [->|Hin]; [now left|right; eauto].
Qed.

Lemma remove_first_NoDup (x : string) (l r : list string) :
  remove_first x l = Some r -> NoDup l -> NoDup r.
Proof.
  revert r. induction l as [|a l IH]; simpl; intros r; [discriminate|].
  rewrite !NoDup_cons. destruct (String.eqb a x).
  - intros [= <-] [_ H]. exact H.
  - destruct (remove_first x l) as [r'|] eqn:E; [|discriminate].
    intros [= <-] [Ha H]. apply NoDup_cons. split; [|eauto].
    rewrite list_elem_of_In in *. intros Hin. apply Ha.
    eapply remove_first_In; eauto.
Qed.

End JsFacts.

(** ** Numbers: what is not below zero *)

(** The test [x < 0] fails for NaN, for both zeros, for every positive
    number and for [Infinity].  Sums, products and quotients of such numbers
    are such numbers again, whatever the rounding: the sign of the result is
    fixed before it is rounded. *)
Module NumberFacts.

Lemma rounded_not_below_zero (mx ex : Z) (lx : location) :
  SFltb (binary_round_aux prec emax false mx ex lx) (S754_zero false) = false.
Proof.
  unfold binary_round_aux.
  destruct (shr_fexp prec emax mx ex lx) as [mrs' e'].
  destruct (shr_fexp prec emax _ e' loc_Exact) as [mrs'' e''].
  destruct (shr_m mrs''); [reflexivity| |reflexivity].
  destruct (Z.leb _ _); reflexivity.
Qed.

Lemma add_not_below_zero (x y : float) :
  PrimFloat.ltb x Number.zero = false ->
  PrimFloat.ltb y Number.zero = false ->
  PrimFloat.ltb (x + y)%float Number.zero = false.
Proof.
  rewrite !FloatAxioms.ltb_spec, FloatAxioms.add_spec.
  change (Prim2SF Number.zero) with (S754_zero false).
  destruct (Prim2SF x) as [sx|sx| |sx mx ex], (Prim2SF y) as [sy|sy| |sy my ey];
    try destruct sx; try destruct sy; try reflexivity; try discriminate.
  intros _ _. unfold SF64add, SFadd. cbn [cond_Zopp].
  destruct (shl_align mx ex _) as [mx' ex'], (shl_align my ey _) as [my' ey'].
  cbn [fst]. change (Z.add (Zpos mx') (Zpos my')) with (Zpos (mx' + my')).
  unfold binary_normalize, binary_round.
  destruct (shl_align (mx' + my') _ _) as [mz ez].
  apply rounded_not_below_zero.
Qed.

Lemma mul_not_below_zero (x y : float) :
  PrimFloat.ltb x Number.zero = false ->
  PrimFloat.ltb y Number.zero = false ->
  PrimFloat.ltb (x * y)%float Number.zero = false.
Proof.
  rewrite !FloatAxioms.ltb_spec, FloatAxioms.mul_spec.
  change (Prim2SF Number.zero) with (S754_zero false).
  destruct (Prim2SF x) as [sx|sx| |sx mx ex], (Prim2SF y) as [sy|sy| |sy my ey];
    try destruct sx; try destruct sy; try reflexivity; try discriminate.
  intros _ _. apply rounded_not_below_zero.
Qed.

(** For a quotient the divisor must not be a zero: [1 / -0] is
    [-Infinity]. *)
Lemma div_not_below_zero (x y : float) :
  PrimFloat.ltb x Number.zero = false ->
  PrimFloat.ltb y Number.zero = false ->
  PrimFloat.eqb y Number.zero = false ->
  PrimFloat.ltb (x / y)%float Number.zero = false.
Proof.
  rewrite !FloatAxioms.ltb_spec, FloatAxioms.eqb_spec, FloatAxioms.div_spec.
  change (Prim2SF Number.zero) with (S754_zero false).
  destruct (Prim2SF x) as [sx|sx| |sx mx ex], (Prim2SF y) as [sy|sy| |sy my ey];
    try destruct sx; try destruct sy; try reflexivity; try discriminate.
  intros _ _ _. unfold SF64div, SFdiv.
  destruct (SFdiv_core_binary _ _ _ _ _ _) as [[mz ez] lz].
  apply rounded_not_below_zero.
Qed.

(** [<] on numbers is asymmetric. *)
Lemma compare_cont_flip (p q : positive) :
  Pos.compare_cont Eq q p = CompOpp (Pos.compare_cont Eq p q).
Proof. now rewrite Pos.compare_cont_antisym. Qed.

Lemma SFltb_asym (x y : spec_float) : SFltb x y = true -> SFltb y x = false.
Proof.
  unfold SFltb.
  destruct x as [sx|sx| |sx mx ex], y as [sy|sy| |sy my ey];
    try destruct sx; try destruct sy; cbn; try reflexivity; try discriminate;
    rewrite (Z.compare_antisym ex ey);
    destruct (Z.compare ex ey); cbn; try reflexivity; try discriminate;
    rewrite (compare_cont_flip mx my);
    destruct (Pos.compare_cont Eq mx my); cbn; try reflexivity; discriminate.
Qed.

Lemma ltb_asym (x y : float) :
  PrimFloat.ltb x y = true -> PrimFloat.ltb y x = false.
Proof. rewrite !FloatAxioms.ltb_spec. apply SFltb_asym. Qed.

Lemma SFcompare_flip (x y : spec_float) :
  SFcompare y x = option_map CompOpp (SFcompare x y).
Proof.
  destruct x as [sx|sx| |sx mx ex], y as [sy|sy| |sy my ey];
    try destruct sx; try destruct sy; cbn; try reflexivity;
    rewrite (Z.compare_antisym ex ey);
    destruct (Z.compare ex ey); cbn; try reflexivity;
    rewrite (compare_cont_flip mx my);
    destruct (Pos.compare_cont Eq mx my); reflexivity.
Qed.

(** Of two numbers, neither of them NaN, the first is below the second or
    the second is at most the first. *)
Lemma leb_of_not_ltb (x y : float) :
  PrimFloat.is_nan x = false -> PrimFloat.is_nan y = false ->
  PrimFloat.ltb x y = false -> PrimFloat.leb y x = true.
Proof.
  unfold PrimFloat.is_nan.
  rewrite !FloatAxioms.eqb_spec, FloatAxioms.ltb_spec, FloatAxioms.leb_spec.
  unfold SFeqb, SFltb, SFleb.
  rewrite (SFcompare_flip (Prim2SF x) (Prim2SF y)).
  destruct (Prim2SF x) as [sx|sx| |sx mx ex], (Prim2SF y) as [sy|sy| |sy my ey];
    try discriminate; intros _ _;
    match goal with
    | |- context [SFcompare ?a ?b] => destruct (SFcompare a b) as [[]|] eqn:E
    end; cbn; try reflexivity; try discriminate;
    destruct sx, sy; discriminate.
Qed.

(** [Math.min(100, x)] is never above 100, and not below zero when [x] is
    not. *)
Lemma min_100_not_above (x : float) :
  PrimFloat.ltb Number.hundred (Number.Math_min Number.hundred x) = false.
Proof.
  unfold Number.Math_min.
  destruct (PrimFloat.is_nan Number.hundred || PrimFloat.is_nan x); [reflexivity|].
  destruct (PrimFloat.ltb x Number.hundred) eqn:Hlt; [now apply ltb_asym|].
  destruct (PrimFloat.ltb Number.hundred x) eqn:Hgt; [reflexivity|].
  destruct (PrimFloat.classify x); try reflexivity; exact Hgt.
Qed.

Lemma min_100_not_below_zero (x : float) :
  PrimFloat.ltb x Number.zero = false ->
  PrimFloat.ltb (Number.Math_min Number.hundred x) Number.zero = false.
Proof.
  intros Hx. unfold Number.Math_min.
  destruct (PrimFloat.is_nan Number.hundred || PrimFloat.is_nan x); [reflexivity|].
  destruct (PrimFloat.ltb x Number.hundred); [exact Hx|].
  destruct (PrimFloat.ltb Number.hundred x); [reflexivity|].
  destruct (PrimFloat.classify x); try reflexivity; exact Hx.
Qed.

End NumberFacts.

(** ** The definitions on small inputs *)

Module Examples.

Example trim_both_ends : Js.trim "  buy milk  " = "buy milk".
Proof. reflexivity. Qed.

Example trim_blank : Js.trim "   " = "".
Proof. reflexivity. Qed.

Example lower_mixed : Js.toLowerCase "Work-Item 7" = "work-item 7".
Proof. reflexivity. Qed.

Example or_else_empty : Js.or_else (Some "") "medium" = "medium".
Proof. reflexivity. Qed.

Example urgent_above_medium : Js.str_gt "urgent" "medium" = true.
Proof. reflexivity. Qed.

Example high_below_low : Js.str_lt "high" "low" = true.
Proof. reflexivity. Qed.

Example date_key : Js.str_includes "completedAt" "At" = true.
Proof. reflexivity. Qed.

Example category_is_no_date_key :
  Js.str_includes "category" "At" || Js.str_includes "category" "Date" = false.
Proof. reflexivity. Qed.

Example date_keys :
  List.filter
    (fun k => Js.str_includes (TaskRepository.sort_key_name k) "Date"
              || Js.str_includes (TaskRepository.sort_key_name k) "At")
    [TaskRepository.by_id; TaskRepository.by_title; TaskRepository.by_description;
     TaskRepository.by_priority; TaskRepository.by_category;
     TaskRepository.by_userId; TaskRepository.by_assignedTo;
     TaskRepository.by_status; TaskRepository.by_completed;
     TaskRepository.by_estimatedHours; TaskRepository.by_actualHours;
     TaskRepository.by_createdAt; TaskRepository.by_updatedAt;
     TaskRepository.by_dueDate; TaskRepository.by_completedAt;
     TaskRepository.by_tags; TaskRepository.by_dependencies]
  = [TaskRepository.by_createdAt; TaskRepository.by_updatedAt;
     TaskRepository.by_dueDate; TaskRepository.by_completedAt].
Proof. reflexivity. Qed.

Example expiry_in_milliseconds :
  TaskRepository._cacheExpiry = 300000
  /\ @UserRepository._cacheExpiry = 600000.
Proof. split; reflexivity. Qed.

Example slice_page :
  TaskRepository.slice ["a"; "b"; "c"; "d"; "e"] 1 3 = ["b"; "c"].
Proof. reflexivity. Qed.

Example slice_from_the_end :
  TaskRepository.slice ["a"; "b"; "c"; "d"; "e"] (-2) 9 = ["d"; "e"].
Proof. reflexivity. Qed.

(** Equal keys keep their order. *)
Example sort_is_stable :
  TaskRepository.sort (fun a b : Z * string => fst a - fst b)
    [(2, "x"); (1, "y"); (2, "z"); (1, "w")]
  = [(1, "y"); (1, "w"); (2, "x"); (2, "z")].
Proof. reflexivity. Qed.

Example dispatch_table :
  map Updates.dispatch ["status"; "title"; "completed"; "tags"; "colour"]
  = [Updates.BySetter; Updates.ByUpdateMethod; Updates.DirectWrite;
     Updates.DirectWrite; Updates.Skipped].
Proof. reflexivity. Qed.

Example setStatus_completed :
  exists task,
    Task.setStatus "completed" 900 Samples.task_t1 = Ok task
    /\ Task._completed task = true
    /\ Task._completedAt task = Some (Js.DateAt 900).
Proof. repeat eexists. Qed.

(** Leaving [completed] for another status resets the status to [pending]. *)
Example setStatus_cancelled_after_completed :
  exists task,
    Task.setStatus "cancelled" 950 (Task.markComplete 900 Samples.task_t1) = Ok task
    /\ Task._completed task = false
    /\ Task._status task = "pending".
Proof. repeat eexists. Qed.

Example invalid_status :
  isOk (Task.setStatus "done" 900 Samples.task_t1) = false.
Proof. reflexivity. Qed.

Example create_then_count :
  Storage.saveCalls
    (TaskRepository.storage Samples.repo_created) = 1%nat
  /\ length (Storage.records (TaskRepository.storage Samples.repo_created)) = 1%nat.
Proof. split; reflexivity. Qed.

End Examples.

(** ** The Task class *)

Module TaskFacts.
Import Invariants.

(** Unfolds the assignments of a method on a task given field by field. *)
Ltac fields task := destruct task; cbn in *.

Lemma row_t1_hydrates (now : Z) (fresh : string) :
  Task.fromJSON Samples.row_t1 now fresh = Ok Samples.task_t1.
Proof. reflexivity. Qed.

(** *** Completion and status *)

Lemma markComplete_consistent (now : Z) (task : Task.t) :
  consistent task -> consistent (Task.markComplete now task).
Proof.
  unfold consistent, Task.markComplete. intros H.
  destruct (Task._completed task) eqn:E; [now rewrite E|].
  fields task. split; reflexivity.
Qed.

Lemma markIncomplete_consistent (now : Z) (task : Task.t) :
  consistent task -> consistent (Task.markIncomplete now task).
Proof.
  unfold consistent, Task.markIncomplete. intros H.
  destruct (Task._completed task) eqn:E; simpl; [|now rewrite E].
  fields task. split; discriminate.
Qed.

Lemma markComplete_completed (now : Z) (task : Task.t) :
  Task._completed (Task.markComplete now task) = true.
Proof.
  unfold Task.markComplete.
  destruct (Task._completed task) eqn:E; [exact E|]. now fields task.
Qed.

(** [setStatus] restores the invariant whatever the task was before. *)
Lemma setStatus_consistent (status : string) (now : Z) (task task' : Task.t) :
  Task.setStatus status now task = Ok task' -> consistent task'.
Proof.
  unfold Task.setStatus, Task._validateStatus.
  destruct (negb (Js.includes Task.validStatuses status)); [discriminate|].
  cbn [bindR]. unfold consistent, Task.markComplete, Task.markIncomplete.
  destruct task as [? ? ? ? ? completed ? ? ? ? ? ? ? ? ? ? ? ? ?]; cbn.
  destruct (String.eqb_spec status "completed") as [->|Hne];
    destruct completed; cbn; intros [= <-]; cbn; split; congruence.
Qed.

(** The constructor copies [completed] and [status] as they are given. *)
Lemma constructor_copies_completion title description userId options now fresh task :
  Task.constructor title description userId options now fresh = Ok task ->
  Task._completed task = default false (TaskData.completed options)
  /\ Task._status task = Js.or_else (TaskData.status options) "pending".
Proof.
  unfold Task.constructor. intros H.
  repeat match type of H with
         | bindR ?r _ = Ok _ => destruct r eqn:?; cbn [bindR] in H; [|discriminate]
         end.
  injection H as <-. cbn. split; [reflexivity|].
  unfold Task._validateStatus in *.
  match goal with
  | E : (if ?b then _ else _) = Ok _ |- _ => destruct b; [discriminate|now injection E]
  end.
Qed.

(** *** isOverdue *)

(** C7: [isOverdue] is true exactly when a due date is set, lies in the past
    and the task is not completed; after [markComplete()] it is false at
    every instant, in particular for a task that was overdue. *)
Theorem C7_isOverdue_iff_due_in_past_and_not_completed (now : Z) (task : Task.t) :
  (Task.isOverdue now task = true <->
     exists due, Task._dueDate task = Some (Js.DateAt due)
                 /\ due < now /\ Task._completed task = false)
  /\ (forall at_ later, Task.isOverdue later (Task.markComplete at_ task) = false).
Proof.
  split.
  - unfold Task.isOverdue. destruct (Task._dueDate task) as [[due|]|].
    + destruct (Task._completed task); cbn.
      * split; [discriminate|]. intros (d & _ & _ & H). discriminate.
      * rewrite Z.ltb_lt. split.
        -- intros H. exists due. auto.
        -- intros (d & [= <-] & H & _). exact H.
    + destruct (Task._completed task); cbn;
        (split; [discriminate|intros (d & H & _); discriminate]).
    + split; [discriminate|intros (d & H & _); discriminate].
  - intros at_ later. unfold Task.isOverdue.
    rewrite markComplete_completed. now destruct (Task._dueDate _).
Qed.

(** An overdue task stops being overdue the instant it is marked complete. *)
Example overdue_then_complete :
  Task.isOverdue 1000 Samples.task_t1 = true
  /\ Task.isOverdue 1000 (Task.markComplete 1000 Samples.task_t1) = false.
Proof. split; reflexivity. Qed.

End TaskFacts.

(** ** Field updates through the repository *)

Module UpdateFacts.
Import Invariants.

(** Splits a successful run of a method into its successful steps. *)
Ltac steps :=
  repeat match goal with
         | H : bindR ?r _ = Ok _ |- _ =>
             destruct r eqn:?; cbn [bindR] in H; [|discriminate]
         | H : (if ?b then _ else _) = Ok _ |- _ =>
             destruct b eqn:?; try discriminate
         | H : match ?x with _ => _ end = Ok _ |- _ =>
             destruct x eqn:?; try discriminate
         | H : Ok _ = Ok _ |- _ => injection H as <-
         | H : Throw _ = Ok _ |- _ => discriminate
         end.

(** Every key of an entry passes the test of [update]: it names an own
    property, with its underscore or without. *)
Lemma key_is_own_property (u : Updates.entry) :
  Updates.hasOwnProperty ("_" ++ Updates.key u)
  || Updates.hasOwnProperty (Updates.key u) = true.
Proof. destruct u as [[]| | | | | | | | | | | | | | | | | | |]; reflexivity. Qed.

(** The name of an own property has no setter and no update method: the
    value is assigned to the property, whatever mutator the property has
    under its name without the underscore. *)
Lemma own_key_is_written_directly (w : Updates.own_write) (now : Z) (task : Task.t) :
  Updates.dispatch (Updates.own_key w) = Updates.DirectWrite
  /\ Updates.apply_entry now (Updates.own w) task = Ok (Updates.write w task).
Proof. destruct w; split; reflexivity. Qed.

(** [completed] has no setter and no update method: it is written directly. *)
Lemma completed_is_written_directly (v : bool) (now : Z) (task : Task.t) :
  Updates.apply_entry now (Updates.completed v) task
  = Ok (Task.set_completed v task).
Proof. reflexivity. Qed.

(** [status] goes through [setStatus]. *)
Lemma status_goes_through_setStatus (v : string) (now : Z) (task : Task.t) :
  Updates.apply_entry now (Updates.status v) task = Task.setStatus v now task.
Proof. reflexivity. Qed.

(** Every entry but [completed], [_completed] and [_status] keeps the
    invariant. *)
Lemma apply_entry_consistent (now : Z) (u : Updates.entry) (task task' : Task.t) :
  Updates.writes_completed u = false ->
  Updates.writes_status u = false ->
  consistent task ->
  Updates.apply_entry now u task = Ok task' ->
  consistent task'.
Proof.
  intros Hu Hs Hc H.
  destruct u as [w| | | | | | | | | | | | | | | | | | |];
    [destruct w; try discriminate Hu; try discriminate Hs;
     injection H as <-; destruct task; exact Hc|..];
    try discriminate Hu;
    try (injection H as <-; destruct task; exact Hc).
  - (* title *)
    change (Task.updateTitle v now task = Ok task') in H.
    unfold Task.updateTitle in H. steps. destruct task; exact Hc.
  - (* priority *)
    change (Task.updatePriority v now task = Ok task') in H.
    unfold Task.updatePriority, Task._validatePriority in H. steps.
    destruct task; exact Hc.
  - (* category *)
    change (Task.setCategory v now task = Ok task') in H.
    unfold Task.setCategory, Task._validateCategory in H. steps.
    destruct task; exact Hc.
  - (* dueDate *)
    change (Task.setDueDate v now task = Ok task') in H.
    unfold Task.setDueDate in H. steps; destruct task; exact Hc.
  - (* estimatedHours *)
    change (Task.setEstimatedHours v now task = Ok task') in H.
    unfold Task.setEstimatedHours, Task._validateHours in H. steps;
      destruct task; exact Hc.
  - (* actualHours *)
    change (Task.setActualHours v now task = Ok task') in H.
    unfold Task.setActualHours, Task._validateHours in H. steps;
      destruct task; exact Hc.
  - (* status *)
    eapply TaskFacts.setStatus_consistent. exact H.
Qed.

Lemma apply_consistent (now : Z) (updates : list Updates.entry) (task task' : Task.t) :
  forallb (fun u => negb (Updates.writes_completed u || Updates.writes_status u))
    updates = true ->
  consistent task ->
  Updates.apply now updates task = Ok task' ->
  consistent task'.
Proof.
  revert task. induction updates as [|u updates IH]; cbn; intros task Hu Hc H.
  - now injection H as <-.
  - apply andb_prop in Hu as [Hu Hus].
    apply negb_true_iff, orb_false_elim in Hu as [Hu Hs].
    destruct (Updates.apply_entry now u task) as [task1|] eqn:E; [|discriminate].
    cbn in H. apply (IH task1); [exact Hus| |exact H].
    eapply apply_entry_consistent; eauto.
Qed.

(** C1: the invariant [completed = true <-> status = 'completed'] is not kept
    by every mutation path.  [update("t1", { completed: true })] on a pending
    task writes the flag directly: the task it returns, caches and persists
    is completed with status [pending].  [new Task("A", null, "u1",
    { completed: true })] builds such a task as well. *)
Theorem C1_update_completed_breaks_invariant :
  let '(result, repo) :=
    TaskRepository.update "t1" [Updates.completed true] 2000 "x" Samples.repo_t1 in
  result = Ok (Some Samples.task_t1_flagged)
  /\ Task._completed Samples.task_t1_flagged = true
  /\ Task._status Samples.task_t1_flagged = "pending"
  /\ ~ consistent Samples.task_t1_flagged
  /\ (exists row, Storage.records (TaskRepository.storage repo) = [row]
                  /\ TaskData.completed row = Some true
                  /\ TaskData.status row = Some "pending")
  /\ (exists task,
        Task.constructor (Some "A") None (Some "u1") Samples.options_completed 100 "t1"
        = Ok task /\ ~ consistent task).
Proof.
  assert (Hbad : ~ consistent Samples.task_t1_flagged).
  { unfold consistent. cbn. intros [H _]. specialize (H eq_refl). discriminate. }
  vm_compute TaskRepository.update.
  repeat split; try exact Hbad.
  - eexists. repeat split.
  - eexists. split; [reflexivity|].
    unfold consistent. cbn. intros [H _]. specialize (H eq_refl). discriminate.
Qed.

(** The same happens when the owner toggles the completion of [t1] through
    the controller: the task comes back completed with status [pending]. *)
Example toggle_leaves_status_pending :
  fst (TaskController.toggleTaskCompletion "t1" 2000 "x" Samples.controller_u1)
  = Ok (Some Samples.task_t1_flagged).
Proof. reflexivity. Qed.

End UpdateFacts.

(** ** The repositories: cache and persistence *)

Module RepositoryFacts.
Import TaskRepository.

(** *** The cache *)

Lemma getFromCache_fresh {E} (expiry now : Z) (id : string)
    (cache : gmap string (Cache.entry E)) (cached : Cache.entry E) :
  cache !! id = Some cached ->
  now - Cache.timestamp cached <= expiry ->
  Cache._getFromCache expiry now id cache = (Some (Cache.data cached), cache).
Proof.
  intros Hin Hage. unfold Cache._getFromCache. rewrite Hin.
  destruct (Z.ltb_spec expiry (now - Cache.timestamp cached)); [lia|reflexivity].
Qed.

Lemma getFromCache_stale {E} (expiry now : Z) (id : string)
    (cache : gmap string (Cache.entry E)) (cached : Cache.entry E) :
  cache !! id = Some cached ->
  expiry < now - Cache.timestamp cached ->
  Cache._getFromCache expiry now id cache = (None, base.delete id cache).
Proof.
  intros Hin Hage. unfold Cache._getFromCache. rewrite Hin.
  destruct (Z.ltb_spec expiry (now - Cache.timestamp cached)); [reflexivity|lia].
Qed.

Lemma getFromCache_absent {E} (expiry now : Z) (id : string)
    (cache : gmap string (Cache.entry E)) :
  cache !! id = None ->
  Cache._getFromCache expiry now id cache = (None, cache).
Proof. intros Hin. unfold Cache._getFromCache. now rewrite Hin. Qed.

(** A hit that has not expired is answered from the cache: the repository,
    its load counter included, stays as it is. *)
Lemma findById_hit (id : string) (now : Z) (fresh : string) (repo : t)
    (cached : Cache.entry Task.t) :
  _cache repo !! id = Some cached ->
  now - Cache.timestamp cached <= _cacheExpiry ->
  findById id now fresh repo = (Ok (Some (Cache.data cached)), repo).
Proof.
  intros Hin Hage. unfold findById, _getFromCache.
  rewrite (getFromCache_fresh _ _ _ _ _ Hin Hage). now destruct repo.
Qed.

Lemma user_findById_hit {User UserData} (row_id : UserData -> option string)
    (fromJSON : UserData -> Z -> Result User) (id : string) (now : Z)
    (repo : UserRepository.t User UserData) (cached : Cache.entry User) :
  UserRepository._cache repo !! id = Some cached ->
  now - Cache.timestamp cached <= UserRepository._cacheExpiry ->
  UserRepository.findById row_id fromJSON id now repo
  = (Ok (Some (Cache.data cached)), repo).
Proof.
  intros Hin Hage. unfold UserRepository.findById, UserRepository._getFromCache.
  rewrite (getFromCache_fresh _ _ _ _ _ Hin Hage). now destruct repo.
Qed.

(** *** create *)

(** What a successful [create] leaves behind. *)
Lemma create_ok (task task' : Task.t) (now : Z) (repo repo' : t) :
  create task now repo = (Ok task', repo') ->
  task' = task
  /\ _cache repo' !! Task._id task
     = Some {| Cache.data := task; Cache.timestamp := now |}
  /\ exists row,
       Task.toJSON task = Ok row
       /\ Storage.records (storage repo') = Storage.records (storage repo) ++ [row].
Proof.
  unfold create. destruct (_validateTask task); [|intros [=]].
  destruct (negb (Js.truthy (Task._id task))); [intros [=]|].
  cbn. destruct (existsb _ _); [intros [=]|].
  destruct (Task.toJSON task) as [row|]; [|intros [=]].
  intros [= <- <-]. cbn. split; [reflexivity|]. split.
  - unfold Cache.set. apply lookup_insert_eq.
  - exists row. auto.
Qed.

(** A [create] that throws has written nothing. *)
Lemma create_throw (task : Task.t) (now : Z) (repo repo' : t) (e : JsError) :
  create task now repo = (Throw e, repo') ->
  Storage.records (storage repo') = Storage.records (storage repo)
  /\ Storage.saveCalls (storage repo') = Storage.saveCalls (storage repo)
  /\ _cache repo' = _cache repo.
Proof.
  unfold create. destruct (_validateTask task); [|intros [= <- <-]; auto].
  destruct (negb (Js.truthy (Task._id task))); [intros [= <- <-]; auto|].
  cbn. destruct (existsb _ _); [intros [= <- <-]; auto|].
  destruct (Task.toJSON task) as [row|]; intros [= <- <-]; auto.
Qed.

(** C5: [create] of an entity whose explicit id is already in the persisted
    collection throws the duplicate error ("Task with ID ... already exists")
    and makes no [save] call: the collection keeps its rows, and so its
    length, and the cache is as before. *)
Theorem C5_create_duplicate_id_rejected (task : Task.t) (now : Z) (repo : t) :
  Task._id task <> "" ->
  _validateTask task = Ok tt ->
  existsb (has_id (Task._id task)) (Storage.records (storage repo)) = true ->
  exists repo',
    create task now repo = (Throw (already_exists (Task._id task)), repo')
    /\ Storage.records (storage repo') = Storage.records (storage repo)
    /\ length (Storage.records (storage repo'))
       = length (Storage.records (storage repo))
    /\ Storage.saveCalls (storage repo') = Storage.saveCalls (storage repo)
    /\ _cache repo' = _cache repo.
Proof.
  intros Hid Hvalid Hdup. unfold create. rewrite Hvalid.
  apply JsFacts.truthy_spec in Hid. rewrite Hid. cbn. rewrite Hdup.
  eexists. split; [reflexivity|]. cbn. auto.
Qed.

Lemma C5_witness :
  Task._id Samples.task_t1 <> ""
  /\ _validateTask Samples.task_t1 = Ok tt
  /\ existsb (has_id (Task._id Samples.task_t1))
       (Storage.records (storage Samples.repo_t1)) = true
  /\ exists repo',
       create Samples.task_t1 7 Samples.repo_t1
       = (Throw (already_exists (Task._id Samples.task_t1)), repo')
       /\ Storage.records (storage repo') = Storage.records (storage Samples.repo_t1)
       /\ length (Storage.records (storage repo'))
          = length (Storage.records (storage Samples.repo_t1))
       /\ Storage.saveCalls (storage repo') = Storage.saveCalls (storage Samples.repo_t1)
       /\ _cache repo' = _cache Samples.repo_t1.
Proof.
  assert (H1 : Task._id Samples.task_t1 <> "") by discriminate.
  assert (H2 : _validateTask Samples.task_t1 = Ok tt) by reflexivity.
  assert (H3 : existsb (has_id (Task._id Samples.task_t1))
                 (Storage.records (storage Samples.repo_t1)) = true) by reflexivity.
  split; [exact H1|]. split; [exact H2|]. split; [exact H3|].
  exact (C5_create_duplicate_id_rejected Samples.task_t1 7 Samples.repo_t1 H1 H2 H3).
Defined.

(** *** update *)

(** What a successful [update] leaves behind. *)
Lemma update_ok (id : string) (updates : list Updates.entry) (now : Z)
    (fresh : string) (task : Task.t) (repo repo' : t) :
  update id updates now fresh repo = (Ok (Some task), repo') ->
  _cache repo' !! id = Some {| Cache.data := task; Cache.timestamp := now |}.
Proof.
  unfold update. cbn.
  destruct (findIndex _ _) as [taskIndex|]; [|intros [=]].
  match goal with |- (match ?step with _ => _ end) = _ -> _ => destruct step as [[t' row]|] end;
    [|intros [=]].
  intros [= <- <-]. cbn. unfold Cache.set. apply lookup_insert_eq.
Qed.

(** C2: a [findById(id)] issued while the entry written by a successful
    [create] or [update] of that id is not older than the expiry returns the
    cached entity and leaves the repository as it is: the load counter stays
    flat and the persisted collection is untouched. *)
Theorem C2_findById_after_write_served_from_cache
    (id : string) (task : Task.t) (written now : Z) (fresh : string)
    (before repo : t) :
  (create task written before = (Ok task, repo) /\ id = Task._id task)
  \/ (exists updates fresh', update id updates written fresh' before = (Ok (Some task), repo)) ->
  now - written <= _cacheExpiry ->
  findById id now fresh repo = (Ok (Some task), repo)
  /\ Storage.loadCalls (storage (snd (findById id now fresh repo)))
     = Storage.loadCalls (storage repo)
  /\ storage (snd (findById id now fresh repo)) = storage repo.
Proof.
  intros Hwrite Hage.
  assert (Hcached : _cache repo !! id
                    = Some {| Cache.data := task; Cache.timestamp := written |}).
  { destruct Hwrite as [[Hc ->]|(updates & fresh' & Hu)].
    - now apply create_ok in Hc as (_ & Hc & _).
    - now apply update_ok in Hu. }
  pose proof (findById_hit id now fresh repo _ Hcached Hage) as Hhit.
  cbn in Hhit. rewrite Hhit. auto.
Qed.

Lemma C2_witness :
  ((create Samples.task_t1 100 Samples.repo_empty
    = (Ok Samples.task_t1, Samples.repo_created)
    /\ "t1" = Task._id Samples.task_t1)
   \/ (exists updates fresh',
         update "t1" updates 100 fresh' Samples.repo_empty
         = (Ok (Some Samples.task_t1), Samples.repo_created)))
  /\ 200 - 100 <= _cacheExpiry
  /\ findById "t1" 200 "x" Samples.repo_created
     = (Ok (Some Samples.task_t1), Samples.repo_created).
Proof.
  assert (H1 : (create Samples.task_t1 100 Samples.repo_empty
                = (Ok Samples.task_t1, Samples.repo_created)
                /\ "t1" = Task._id Samples.task_t1)
               \/ (exists updates fresh',
                     update "t1" updates 100 fresh' Samples.repo_empty
                     = (Ok (Some Samples.task_t1), Samples.repo_created))).
  { left. split; reflexivity. }
  assert (H2 : 200 - 100 <= _cacheExpiry) by (unfold _cacheExpiry; lia).
  split; [exact H1|]. split; [exact H2|].
  exact (proj1 (C2_findById_after_write_served_from_cache
                  "t1" Samples.task_t1 100 200 "x"
                  Samples.repo_empty Samples.repo_created H1 H2)).
Defined.

(** *** Expiry *)

(** C3: when the entry of an id is older than the expiry (5 minutes for
    tasks, 10 minutes for users), [findById(id)] treats it as absent: the
    entry is evicted, the full collection is loaded once more, and the answer
    is the hydrated row of the collection (or [null]), cached anew when there
    is one, whether or not the row has changed. *)
Theorem C3_findById_after_expiry_reloads
    {User UserData : Type} (row_id : UserData -> option string)
    (fromJSON : UserData -> Z -> Result User)
    (id uid : string) (now : Z) (fresh : string)
    (repo : t) (cached : Cache.entry Task.t)
    (users : UserRepository.t User UserData) (cached_user : Cache.entry User) :
  _cache repo !! id = Some cached ->
  5 * 60 * 1000 < now - Cache.timestamp cached ->
  UserRepository._cache users !! uid = Some cached_user ->
  10 * 60 * 1000 < now - Cache.timestamp cached_user ->
  (let '(result, repo') := findById id now fresh repo in
   result = match List.find (has_id id) (persisted repo) with
            | Some row => let* task := Task.fromJSON row now fresh in Ok (Some task)
            | None => Ok None
            end
   /\ loads repo' = S (loads repo)
   /\ saves repo' = saves repo
   /\ persisted repo' = persisted repo
   /\ _cache repo' = match result with
                     | Ok (Some task) =>
                         <[id := {| Cache.data := task; Cache.timestamp := now |}]>
                           (base.delete id (_cache repo))
                     | _ => base.delete id (_cache repo)
                     end)
  /\ (let '(result, users') := UserRepository.findById row_id fromJSON uid now users in
      result = match List.find (UserRepository.has_id row_id uid)
                       (Storage.records (UserRepository.storage users)) with
               | Some row => let* user := fromJSON row now in Ok (Some user)
               | None => Ok None
               end
      /\ Storage.loadCalls (UserRepository.storage users')
         = S (Storage.loadCalls (UserRepository.storage users))
      /\ Storage.saveCalls (UserRepository.storage users')
         = Storage.saveCalls (UserRepository.storage users)
      /\ Storage.records (UserRepository.storage users')
         = Storage.records (UserRepository.storage users)
      /\ UserRepository._cache users'
         = match result with
           | Ok (Some user) =>
               <[uid := {| Cache.data := user; Cache.timestamp := now |}]>
                 (base.delete uid (UserRepository._cache users))
           | _ => base.delete uid (UserRepository._cache users)
           end).
Proof.
  intros Hin Hage Hin_user Hage_user. split.
  - unfold findById, _getFromCache.
    rewrite (getFromCache_stale _cacheExpiry _ _ _ _ Hin Hage). cbn.
    destruct (List.find _ _) as [row|]; [|auto].
    unfold _hydrateTask. destruct (Task.fromJSON row now fresh); cbn; auto.
  - unfold UserRepository.findById, UserRepository._getFromCache.
    rewrite (getFromCache_stale UserRepository._cacheExpiry _ _ _ _ Hin_user Hage_user). cbn.
    destruct (List.find _ _) as [row|]; [|auto].
    unfold UserRepository._hydrateUser. destruct (fromJSON row now); cbn; auto.
Qed.

Lemma C3_witness :
  _cache Samples.repo_cached !! "t1"
  = Some {| Cache.data := Samples.task_t1; Cache.timestamp := 100 |}
  /\ UserRepository._cache Samples.user_repo !! "u1"
     = Some {| Cache.data := "u1"; Cache.timestamp := 100 |}
  /\ fst (findById "t1" 700000 "x" Samples.repo_cached) = Ok (Some Samples.task_t1)
  /\ loads (snd (findById "t1" 700000 "x" Samples.repo_cached)) = 1%nat
  /\ Storage.loadCalls
       (UserRepository.storage
          (snd (UserRepository.findById Some (fun row _ => Ok row) "u1" 700000
                  Samples.user_repo))) = 1%nat.
Proof.
  assert (H1 : _cache Samples.repo_cached !! "t1"
               = Some {| Cache.data := Samples.task_t1; Cache.timestamp := 100 |})
    by reflexivity.
  assert (H2 : 5 * 60 * 1000 < 700000 - 100) by lia.
  assert (H3 : UserRepository._cache Samples.user_repo !! "u1"
               = Some {| Cache.data := "u1"; Cache.timestamp := 100 |})
    by reflexivity.
  assert (H4 : 10 * 60 * 1000 < 700000 - 100) by lia.
  pose proof (C3_findById_after_expiry_reloads Some (fun row _ => Ok row)
                "t1" "u1" 700000 "x" Samples.repo_cached _ Samples.user_repo _
                H1 H2 H3 H4) as [Htask Huser].
  destruct (findById "t1" 700000 "x" Samples.repo_cached) as [result repo'].
  destruct (UserRepository.findById Some (fun row _ => Ok row) "u1" 700000
              Samples.user_repo) as [result_user users'].
  cbn [fst snd].
  destruct Htask as (-> & -> & _). destruct Huser as (_ & -> & _).
  repeat split.
Defined.

End RepositoryFacts.

(** ** The controller: permission-gated mutation *)

Module ControllerFacts.
Import TaskController.

(** [findById] only reads the persisted collection. *)
Lemma findById_reads_only (id : string) (now : Z) (fresh : string)
    (repo : TaskRepository.t) :
  let repo' := snd (TaskRepository.findById id now fresh repo) in
  Storage.records (TaskRepository.storage repo')
  = Storage.records (TaskRepository.storage repo)
  /\ Storage.saveCalls (TaskRepository.storage repo')
     = Storage.saveCalls (TaskRepository.storage repo).
Proof.
  unfold TaskRepository.findById, TaskRepository._getFromCache, Cache._getFromCache.
  destruct (TaskRepository._cache repo !! id) as [cached|]; cbn.
  - destruct (_ <? _); cbn; [|auto].
    destruct (List.find _ _); cbn; [|auto].
    destruct (TaskRepository._hydrateTask _ _ _); cbn; auto.
  - destruct (List.find _ _); cbn; [|auto].
    destruct (TaskRepository._hydrateTask _ _ _); cbn; auto.
Qed.

(** [canModifyTask] holds exactly for the owner, the assignee and an
    administrator. *)
Lemma canModifyTask_iff (task : Task.t) (user : User) (c : t) :
  currentUser c = Some user ->
  canModifyTask (Some task) c = true <->
  Task._userId task = id user \/ Task._assignedTo task = id user \/ isAdmin user = true.
Proof.
  intros Hu. unfold canModifyTask. rewrite Hu.
  destruct (String.eqb_spec (Task._userId task) (id user));
    destruct (String.eqb_spec (Task._assignedTo task) (id user));
    destruct (isAdmin user); cbn; intuition congruence.
Qed.

(** C4: when the acting user is neither the owner of the task, nor its
    assignee, nor an administrator, [updateTask(taskId, updates)] throws the
    permission error ("Permission denied: Cannot modify this task"); the
    update never reaches the service, the repository makes no [save] call and
    the persisted collection is unchanged. *)
Theorem C4_updateTask_denied_without_permission
    (taskId : string) (updates : list Updates.entry) (now : Z) (fresh : string)
    (c : t) (user : User) (task : Task.t) (service : TaskService.t) :
  taskId <> "" ->
  currentUser c = Some user ->
  TaskService.getTaskById taskId now fresh (taskService c) = (Ok (Some task), service) ->
  Task._userId task <> id user ->
  Task._assignedTo task <> id user ->
  isAdmin user = false ->
  exists c',
    updateTask taskId updates now fresh c = (Throw permission_denied, c')
    /\ saves c' = saves c
    /\ persisted c' = persisted c
    /\ taskService c' = service
    /\ TaskService.notified (taskService c') = TaskService.notified (taskService c)
    /\ outputs c' = outputs c ++ [notify_error "updateTask" permission_denied now].
Proof.
  intros Hid Huser Hget Howner Hassignee Hadmin.
  assert (Hdenied : forall c0, currentUser c0 = Some user ->
                               canModifyTask (Some task) c0 = false).
  { intros c0 Hc0. destruct (canModifyTask (Some task) c0) eqn:E; [|reflexivity].
    apply (canModifyTask_iff task user c0 Hc0) in E.
    destruct E as [E|[E|E]]; congruence. }
  unfold updateTask, validateParams. cbn [List.filter snd].
  apply String.eqb_neq in Hid. rewrite Hid. cbn.
  rewrite Hget. rewrite Hdenied by (cbn; exact Huser). cbn.
  eexists. split; [reflexivity|]. cbn.
  unfold TaskService.getTaskById in Hget.
  pose proof (findById_reads_only taskId now fresh
                (TaskService.taskRepository (taskService c))) as [Hrows Hsaves].
  destruct (TaskRepository.findById taskId now fresh _) as [r repo'].
  injection Hget as _ <-. cbn in *. unfold saves, persisted. cbn. auto.
Qed.

Lemma C4_witness :
  "t1" <> ""
  /\ currentUser Samples.controller_u2
     = Some {| id := "u2"; isAdmin := false; canManageUsers := true |}
  /\ exists c',
       updateTask "t1" [Updates.title "B"] 1000 "x" Samples.controller_u2
       = (Throw permission_denied, c')
       /\ saves c' = saves Samples.controller_u2
       /\ persisted c' = persisted Samples.controller_u2.
Proof.
  assert (H1 : "t1" <> "") by discriminate.
  assert (H2 : currentUser Samples.controller_u2
               = Some {| id := "u2"; isAdmin := false; canManageUsers := true |})
    by reflexivity.
  assert (H3 : TaskService.getTaskById "t1" 1000 "x" (taskService Samples.controller_u2)
               = (Ok (Some Samples.task_t1),
                  snd (TaskService.getTaskById "t1" 1000 "x"
                         (taskService Samples.controller_u2))))
    by reflexivity.
  assert (H4 : Task._userId Samples.task_t1 <> "u2") by discriminate.
  assert (H5 : Task._assignedTo Samples.task_t1 <> "u2") by discriminate.
  split; [exact H1|]. split; [exact H2|].
  destruct (C4_updateTask_denied_without_permission
              "t1" [Updates.title "B"] 1000 "x" Samples.controller_u2 _ _ _
              H1 H2 H3 H4 H5 eq_refl) as (c' & Hc' & Hsaves & Hrows & _).
  exists c'. auto.
Defined.

End ControllerFacts.

(** ** Tags and dependencies *)

Module CollectionFacts.
Import Invariants.

Lemma NoDup_snoc (l : list string) (x : string) :
  NoDup l -> ~ In x l -> NoDup (l ++ [x]).
Proof.
  intros Hl Hx. apply NoDup_app. split; [exact Hl|]. split.
  - intros y Hy Hin. apply list_elem_of_In in Hy.
    apply list_elem_of_singleton in Hin. now subst.
  - apply NoDup_singleton.
Qed.

(** The constructor lowercases every tag. *)
Lemma constructor_tags_lowercase title description userId options now fresh task :
  Task.constructor title description userId options now fresh = Ok task ->
  Forall (fun tag => Js.toLowerCase tag = tag) (Task._tags task).
Proof.
  unfold Task.constructor, Task._validateTags. intros H. UpdateFacts.steps. cbn.
  apply Forall_forall. intros tag Hin. apply list_elem_of_In, in_map_iff in Hin.
  destruct Hin as (raw & <- & _). apply JsFacts.toLowerCase_idem.
Qed.

(** [addTag] keeps the tags a deduplicated set of lowercase strings. *)
Lemma addTag_ok (tag : string) (now : Z) (task task' : Task.t) :
  Task.addTag tag now task = Ok task' ->
  tags_ok task -> tags_ok task'.
Proof.
  unfold Task.addTag, tags_ok. intros H [Hnodup Hlower].
  destruct (negb (Js.truthy tag)); [discriminate|].
  destruct (Js.includes _ _) eqn:E; cbn in H; injection H as <-; [auto|].
  apply JsFacts.includes_false in E. destruct task; cbn in *. split.
  - now apply NoDup_snoc.
  - apply Forall_app. split; [exact Hlower|].
    apply Forall_singleton, JsFacts.toLowerCase_idem.
Qed.

Lemma removeTag_ok (tag : string) (now : Z) (task : Task.t) :
  tags_ok task -> tags_ok (Task.removeTag tag now task).
Proof.
  unfold Task.removeTag, tags_ok. intros [Hnodup Hlower].
  destruct (Js.remove_first _ _) as [tags|] eqn:E; [|auto].
  destruct task; cbn in *. split.
  - eapply JsFacts.remove_first_NoDup; eauto.
  - rewrite Forall_forall in *. intros x Hx. apply Hlower.
    rewrite list_elem_of_In in *. eapply JsFacts.remove_first_In; eauto.
Qed.

Lemma clearTags_ok (now : Z) (task : Task.t) : tags_ok (Task.clearTags now task).
Proof.
  unfold Task.clearTags, tags_ok. destruct task; cbn.
  split; [apply NoDup_nil_2|apply Forall_nil_2].
Qed.

(** [addDependency] refuses the task itself and an id already present. *)
Lemma addDependency_ok (taskId : string) (now : Z) (task task' : Task.t) :
  Task.addDependency taskId now task = Ok task' ->
  dependencies_ok task -> dependencies_ok task'.
Proof.
  unfold Task.addDependency, dependencies_ok. intros H [Hnodup Hself].
  destruct (negb (Js.truthy taskId)); [discriminate|].
  destruct (String.eqb_spec taskId (Task._id task)) as [|Hne]; [discriminate|].
  destruct (Js.includes _ _) eqn:E; cbn in H; injection H as <-; [auto|].
  apply JsFacts.includes_false in E. destruct task; cbn in *. split.
  - now apply NoDup_snoc.
  - rewrite in_app_iff. cbn. intuition congruence.
Qed.

Lemma removeDependency_ok (taskId : string) (now : Z) (task : Task.t) :
  dependencies_ok task -> dependencies_ok (Task.removeDependency taskId now task).
Proof.
  unfold Task.removeDependency, dependencies_ok. intros [Hnodup Hself].
  destruct (Js.remove_first _ _) as [deps|] eqn:E; [|auto].
  destruct task; cbn in *. split.
  - eapply JsFacts.remove_first_NoDup; eauto.
  - intros Hin. apply Hself. eapply JsFacts.remove_first_In; eauto.
Qed.

(** C6: construction does not make the tags and the dependencies
    deduplicated sets.  [new Task("A", null, "u1", { id: "t1",
    tags: ["Work", "work"], dependencies: ["t1", "t1"] })] succeeds with the
    tag [work] twice and with the task's own id, twice, among its
    dependencies; so does [Task.fromJSON] on the row of that task. *)
Theorem C6_constructor_keeps_duplicates_and_self :
  exists task row,
    Task.constructor (Some "A") None (Some "u1") Samples.options_duplicates 100 "x"
    = Ok task
    /\ Task._id task = "t1"
    /\ Task._tags task = ["work"; "work"]
    /\ Task._dependencies task = ["t1"; "t1"]
    /\ ~ tags_ok task
    /\ ~ dependencies_ok task
    /\ Task.toJSON task = Ok row
    /\ Task.fromJSON row 200 "y" = Ok task.
Proof.
  eexists. eexists. split; [reflexivity|]. cbn.
  repeat split.
  - intros [Hnodup _]. apply NoDup_cons in Hnodup as [Hin _].
    apply Hin. apply list_elem_of_In. now left.
  - intros [_ Hself]. apply Hself. now left.
Qed.

End CollectionFacts.

(** ** Queries *)

Module QueryFacts.
Import TaskRepository.

(** Sorting rearranges the tasks and neither drops nor repeats one. *)
Lemma insert_sorted_Permutation {A} (compare : A -> A -> Z) (a : A) (l : list A) :
  insert_sorted compare a l ≡ₚ a :: l.
Proof.
  induction l as [|b l IH]; cbn; [reflexivity|].
  destruct (compare a b <=? 0); [reflexivity|].
  rewrite IH. apply Permutation_swap.
Qed.

Lemma sort_Permutation {A} (compare : A -> A -> Z) (l : list A) :
  sort compare l ≡ₚ l.
Proof.
  induction l as [|a l IH]; cbn; [reflexivity|].
  unfold sort in *. now rewrite insert_sorted_Permutation, IH.
Qed.

(** The comparator on priorities, descending: [urgent], [medium], [low]
    compare as the lowercase strings they are. *)
Lemma compare_priority_desc (a b : Task.t) (pa pb : string) :
  Task._priority a = pa -> Task._priority b = pb ->
  compare_by by_priority "desc" a b
  = (if Js.str_gt (Js.toLowerCase pa) (Js.toLowerCase pb) then -1
     else if Js.str_lt (Js.toLowerCase pa) (Js.toLowerCase pb) then 1
     else 0).
Proof.
  intros <- <-. unfold compare_by. cbn.
  unfold gt, lt, gt. cbn.
  destruct (Js.str_gt _ _); [reflexivity|].
  unfold Js.str_lt, Js.str_gt. now destruct (String.ltb _ _).
Qed.

(** C8: over a collection of three tasks whose priorities are low, urgent
    and medium, in this order, [findAll({ sortBy: 'priority',
    sortOrder: 'desc' })] returns them in the order urgent, medium, low. *)
Theorem C8_findAll_sorted_by_priority_desc
    (repo : t) (now : Z) (fresh : string)
    (row1 row2 row3 : TaskData.t) (task1 task2 task3 : Task.t) :
  Storage.records (storage repo) = [row1; row2; row3] ->
  Task.fromJSON row1 now fresh = Ok task1 ->
  Task.fromJSON row2 now fresh = Ok task2 ->
  Task.fromJSON row3 now fresh = Ok task3 ->
  Task._priority task1 = "low" ->
  Task._priority task2 = "urgent" ->
  Task._priority task3 = "medium" ->
  fst (findAll Samples.by_priority_desc now fresh repo) = Ok [task2; task3; task1].
Proof.
  intros Hrows H1 H2 H3 P1 P2 P3.
  unfold findAll, _getAllTasks, Storage.load. rewrite Hrows. cbn [mapR].
  unfold _hydrateTask. rewrite H1, H2, H3. cbn [bindR fst].
  unfold query. cbn [Samples.by_priority_desc userId completed priority category
                       assignedTo sortBy sortOrder limit offset filter_string
                       truthy_number orb default].
  unfold _sortTasks, sort. cbn [foldr default from_option id insert_sorted].
  assert (C23 : compare_by by_priority "desc" task2 task3 = -1)
    by now rewrite (compare_priority_desc _ _ _ _ P2 P3).
  assert (C12 : compare_by by_priority "desc" task1 task2 = 1)
    by now rewrite (compare_priority_desc _ _ _ _ P1 P2).
  assert (C13 : compare_by by_priority "desc" task1 task3 = 1)
    by now rewrite (compare_priority_desc _ _ _ _ P1 P3).
  rewrite C23. change (-1 <=? 0) with true. cbn [insert_sorted].
  rewrite C12. change (1 <=? 0) with false. cbn [insert_sorted].
  rewrite C13. reflexivity.
Qed.

Lemma C8_witness :
  Storage.records (storage Samples.repo_three)
  = [Samples.row_with "a" "low"; Samples.row_with "b" "urgent";
     Samples.row_with "c" "medium"]
  /\ fst (findAll Samples.by_priority_desc 1000 "x" Samples.repo_three)
     = Ok [Samples.task_with "b" "urgent"; Samples.task_with "c" "medium";
           Samples.task_with "a" "low"].
Proof.
  split; [reflexivity|].
  exact (C8_findAll_sorted_by_priority_desc Samples.repo_three 1000 "x"
           _ _ _ (Samples.task_with "a" "low") (Samples.task_with "b" "urgent")
           (Samples.task_with "c" "medium")
           eq_refl eq_refl eq_refl eq_refl eq_refl eq_refl eq_refl).
Defined.

End QueryFacts.

(** ** Statistics *)

Module StatisticsFacts.
Import TaskRepository.

Lemma count_app (p : Task.t -> bool) (l1 l2 : list Task.t) :
  count p (l1 ++ l2) = (count p l1 + count p l2)%nat.
Proof. unfold count. now rewrite List.filter_app, length_app. Qed.

Lemma count_cons (p : Task.t -> bool) (task : Task.t) (l : list Task.t) :
  count p (task :: l) = ((if p task then 1 else 0) + count p l)%nat.
Proof. unfold count. cbn. now destruct (p task). Qed.

(** Inserting one task: every count grows by what the task itself counts. *)
Lemma count_insert (p : Task.t -> bool) (task : Task.t) (before after : list Task.t) :
  count p (before ++ task :: after)
  = ((if p task then 1 else 0) + count p (before ++ after))%nat.
Proof. rewrite !count_app, count_cons. lia. Qed.

(** A category name that [Object.prototype] knows nothing of. *)
Lemma plain_name (c : string) :
  String.eqb c "__proto__" = false ->
  Js.includes Object_prototype_functions c = false ->
  forall m : gmap string tally,
    m !! c = None -> forall task, bucket task = c ->
    count_category m task = <[c := Count 1]> m.
Proof.
  intros Hproto Hinherited m Hm task <-. unfold count_category. cbn zeta.
  now rewrite Hm, Hproto, Hinherited.
Qed.

(** The bucket of a category that is no inherited name holds the number of
    the tasks that fall into it. *)
Lemma byCategory_lookup (c : string) (tasks : list Task.t) (m : gmap string tally)
    (k : nat) :
  String.eqb c "__proto__" = false ->
  Js.includes Object_prototype_functions c = false ->
  m !! c = (if (k =? 0)%nat then None else Some (Count k)) ->
  foldl count_category m tasks !! c
  = let n := (k + count (fun t => String.eqb (bucket t) c) tasks)%nat in
    if (n =? 0)%nat then None else Some (Count n).
Proof.
  intros Hproto Hinherited. revert m k.
  induction tasks as [|task tasks IH]; intros m k Hm.
  - cbn. now rewrite Nat.add_0_r.
  - cbn [foldl]. rewrite count_cons. cbn zeta.
    destruct (String.eqb_spec (bucket task) c) as [Hc|Hne].
    + rewrite (IH _ (S k)).
      * cbn zeta. replace (S k + _)%nat with (k + (1 + count (fun t => String.eqb (bucket t) c) tasks))%nat by lia.
        reflexivity.
      * unfold count_category. cbn zeta. rewrite Hc, Hm.
        destruct k as [|k']; cbn [Nat.eqb].
        -- rewrite Hproto, Hinherited. apply lookup_insert_eq.
        -- rewrite lookup_insert_eq. f_equal. f_equal. lia.
    + rewrite (IH _ k); [reflexivity|].
      unfold count_category. cbn zeta.
      destruct (m !! bucket task) as [[n|name ones]|];
        [rewrite lookup_insert_ne by exact Hne; exact Hm
        |rewrite lookup_insert_ne by exact Hne; exact Hm|].
      destruct (String.eqb (bucket task) "__proto__"); [exact Hm|].
      destruct (Js.includes Object_prototype_functions (bucket task));
        rewrite lookup_insert_ne by exact Hne; exact Hm.
Qed.

(** No task ever gets a bucket under [__proto__]. *)
Lemma byCategory_proto (tasks : list Task.t) (m : gmap string tally) :
  m !! "__proto__" = None ->
  foldl count_category m tasks !! "__proto__" = None.
Proof.
  revert m. induction tasks as [|task tasks IH]; intros m Hm; [exact Hm|].
  cbn [foldl]. apply IH. unfold count_category. cbn zeta.
  destruct (String.eqb_spec (bucket task) "__proto__") as [->|Hne].
  - now rewrite Hm.
  - destruct (m !! bucket task) as [[n|name ones]|];
      [rewrite lookup_insert_ne by exact Hne; exact Hm
      |rewrite lookup_insert_ne by exact Hne; exact Hm|].
    destruct (Js.includes Object_prototype_functions (bucket task));
      rewrite lookup_insert_ne by exact Hne; exact Hm.
Qed.

(** [getStatistics] computes [statistics] over the hydrated collection, scoped
    to the user when one is given. *)
Lemma getStatistics_ok (userId : option string) (now : Z) (fresh : string)
    (repo repo' : t) (stats : Statistics) :
  getStatistics userId now fresh repo = (Ok stats, repo') ->
  exists tasks, stats = statistics now tasks.
Proof.
  unfold getStatistics.
  destruct (match userId with
            | Some u => if Js.truthy u then findByUserId u now fresh repo
                        else findAll no_options now fresh repo
            | None => findAll no_options now fresh repo
            end) as [[tasks|e] repo0]; cbn; intros [= <- <-].
  now exists tasks.
Qed.

Lemma mapR_app {A B} (f : A -> Result B) (l1 l2 : list A) :
  mapR f (l1 ++ l2)
  = let* a := mapR f l1 in let* b := mapR f l2 in Ok (a ++ b).
Proof.
  induction l1 as [|x l1 IH]; cbn.
  - now destruct (mapR f l2).
  - destruct (f x); cbn; [|reflexivity]. rewrite IH.
    destruct (mapR f l1); cbn; [|reflexivity]. now destruct (mapR f l2).
Qed.

(** [getStatistics] loads the collection once, hydrates every row and
    counts the tasks of the scope: all of them, or those of the user when a
    non-empty [userId] is given. *)
Lemma getStatistics_scope (userId : option string) (now : Z) (fresh : string)
    (repo : t) :
  getStatistics userId now fresh repo
  = (let* all := mapR (fun row => _hydrateTask row now fresh) (persisted repo) in
     Ok (statistics now (filter_string Task._userId userId all)),
     snd (_getAllTasks repo)).
Proof.
  unfold getStatistics, findByUserId, findAll. cbn.
  destruct userId as [u|]; [destruct (Js.truthy u) eqn:Hu|]; cbn;
    destruct (mapR _ (persisted repo)); cbn; try reflexivity;
    unfold query, filter_string; cbn; now rewrite ?Hu.
Qed.

Lemma filter_string_app (f : Task.t -> string) (o : option string)
    (l1 l2 : list Task.t) :
  filter_string f o (l1 ++ l2) = filter_string f o l1 ++ filter_string f o l2.
Proof.
  unfold filter_string. destruct o as [v|]; [|reflexivity].
  destruct (Js.truthy v); [apply List.filter_app|reflexivity].
Qed.

(** A task of the scope stays where it is when the scope is cut out. *)
Lemma scope_insert (userId : option string) (before after : list Task.t)
    (task : Task.t) :
  (forall u, userId = Some u -> u <> "" -> Task._userId task = u) ->
  filter_string Task._userId userId (before ++ task :: after)
  = filter_string Task._userId userId before
    ++ task :: filter_string Task._userId userId after.
Proof.
  intros Hscope. unfold filter_string. destruct userId as [u|]; [|reflexivity].
  destruct (Js.truthy u) eqn:Hu; [|reflexivity].
  rewrite List.filter_app. cbn.
  rewrite (Hscope u eq_refl) by (now apply JsFacts.truthy_spec).
  now rewrite String.eqb_refl.
Qed.

(** What the statistics do count: [getStatistics] returns [byPriority] with
    the keys [high], [medium] and [low]; and against the statistics of the same
    collection without the row of an urgent task of the scope, those with
    the row count one more in [total], one more in [completed] or in
    [pending], and the same in every count of [byPriority].  The bucket of
    the category holds one more as well, unless the category is a name that
    [Object.prototype] carries. *)
Lemma getStatistics_counts_urgent_task
    (userId : option string) (now : Z) (fresh : string) (repo others_repo repo' : t)
    (before after : list TaskData.t) (row : TaskData.t) (task : Task.t)
    (stats : Statistics) :
  persisted repo = before ++ row :: after ->
  persisted others_repo = before ++ after ->
  _hydrateTask row now fresh = Ok task ->
  Task._priority task = "urgent" ->
  (forall u, userId = Some u -> u <> "" -> Task._userId task = u) ->
  getStatistics userId now fresh repo = (Ok stats, repo') ->
  exists others,
    fst (getStatistics userId now fresh others_repo) = Ok others
    /\ map fst (byPriority stats) = ["high"; "medium"; "low"]
    /\ total stats = S (total others)
    /\ (if Task._completed task
        then stat_completed stats = S (stat_completed others)
             /\ pending stats = pending others
        else stat_completed stats = stat_completed others
             /\ pending stats = S (pending others))
    /\ byPriority stats = byPriority others
    /\ (String.eqb (bucket task) "__proto__" = false ->
        Js.includes Object_prototype_functions (bucket task) = false ->
        byCategory stats !! bucket task
        = Some (Count (S match byCategory others !! bucket task with
                         | Some (Count n) => n
                         | _ => 0%nat
                         end))).
Proof.
  intros Hrows Hothers Hrow Hurgent Hscope.
  rewrite !getStatistics_scope, Hrows, Hothers, !mapR_app. cbn [mapR].
  rewrite Hrow. cbn [bindR].
  destruct (mapR _ before) as [hb|]; cbn [bindR]; [|intros [=]].
  destruct (mapR _ after) as [ha|]; cbn [bindR fst]; [|intros [=]].
  intros [= <- _]. eexists. split; [reflexivity|].
  rewrite (scope_insert userId hb ha task Hscope), filter_string_app.
  generalize (filter_string Task._userId userId hb) as l1.
  generalize (filter_string Task._userId userId ha) as l2. intros l2 l1.
  unfold statistics. cbn [total stat_completed pending byCategory byPriority].
  rewrite !count_insert, Hurgent. cbn [String.eqb Ascii.eqb Bool.eqb].
  split; [reflexivity|].
  split; [rewrite !length_app; cbn; lia|].
  split; [destruct (Task._completed task); cbn; auto|].
  split; [reflexivity|].
  intros Hproto Hinherited.
  rewrite !(byCategory_lookup _ _ ∅ 0 Hproto Hinherited) by apply lookup_empty.
  cbn zeta. rewrite count_insert, String.eqb_refl. cbn [Nat.add].
  destruct (count (fun t => String.eqb (bucket t) (bucket task)) (l1 ++ l2));
    reflexivity.
Qed.

(** C9: the statistics lose an urgent task whose category is [__proto__]:
    the task form accepts the category, the class keeps it, and
    [getStatistics], with or without a [userId], counts the task in [total]
    and in [pending] and in none of the counts of [byPriority], but returns
    a [byCategory] with no bucket at all.  Under the category [constructor]
    the bucket exists and holds a string in place of a count; under a
    category such as [work] it holds 1. *)
Theorem C9_urgent_task_of_category_proto_has_no_bucket :
  (exists task,
      Task.constructor (Some "A") (Some "") (Some "u1")
        (Samples.options_in "__proto__") 100 "t9" = Ok task
      /\ Task._category task = "__proto__"
      /\ Task._priority task = "urgent"
      /\ Task.toJSON task = Ok (Samples.row_in "__proto__"))
  /\ fst (getStatistics None 1000 "x" (Samples.repo_in "__proto__"))
     = Ok {| total := 1; stat_completed := 0; pending := 1; overdue := 0;
             byPriority := [("high", 0%nat); ("medium", 0%nat); ("low", 0%nat)];
             byCategory := ∅ |}
  /\ fst (getStatistics (Some "u1") 1000 "x" (Samples.repo_in "__proto__"))
     = Ok {| total := 1; stat_completed := 0; pending := 1; overdue := 0;
             byPriority := [("high", 0%nat); ("medium", 0%nat); ("low", 0%nat)];
             byCategory := ∅ |}
  /\ fst (getStatistics None 1000 "x" (Samples.repo_in "constructor"))
     = Ok {| total := 1; stat_completed := 0; pending := 1; overdue := 0;
             byPriority := [("high", 0%nat); ("medium", 0%nat); ("low", 0%nat)];
             byCategory := {[ "constructor" := Text "constructor" 1 ]} |}
  /\ fst (getStatistics None 1000 "x" (Samples.repo_in "work"))
     = Ok {| total := 1; stat_completed := 0; pending := 1; overdue := 0;
             byPriority := [("high", 0%nat); ("medium", 0%nat); ("low", 0%nat)];
             byCategory := {[ "work" := Count 1 ]} |}.
Proof.
  split; [eexists; repeat split; reflexivity|].
  rewrite !getStatistics_scope.
  repeat split.
Qed.

End StatisticsFacts.

(** ** Hydration: [fromJSON] after [toJSON] *)

Module HydrationFacts.
Import Invariants.

(** Reads the fields of a task that is given field by field. *)
Ltac projections :=
  cbn [Task._id Task._createdAt Task._title Task._description Task._priority
       Task._completed Task._updatedAt Task._userId Task._assignedTo
       Task._category Task._tags Task._dueDate Task._estimatedHours
       Task._actualHours Task._status Task._completedAt Task._notes
       Task._attachments Task._dependencies] in *.

(** Reads the properties of the plain object that [toJSON] builds. *)
Ltac plain_object :=
  cbn [Task.options_of TaskData.id TaskData.title TaskData.description
       TaskData.userId TaskData.assignedTo TaskData.priority TaskData.category
       TaskData.tags TaskData.completed TaskData.status TaskData.dueDate
       TaskData.estimatedHours TaskData.actualHours TaskData.notes
       TaskData.attachments TaskData.dependencies TaskData.createdAt
       TaskData.updatedAt TaskData.completedAt default from_option Datatypes.id].

Lemma validatePriority_valid (p : string) :
  In p Task.validPriorities -> Task._validatePriority p = Ok p.
Proof.
  intros H. unfold Task._validatePriority.
  apply JsFacts.includes_spec in H. now rewrite H.
Qed.

Lemma validateStatus_valid (s : string) :
  In s Task.validStatuses -> Task._validateStatus s = Ok s.
Proof.
  intros H. unfold Task._validateStatus.
  apply JsFacts.includes_spec in H. now rewrite H.
Qed.

Lemma validateHours_ok (h : option float) :
  hours_ok h -> Task._validateHours h = Ok h.
Proof. destruct h as [q|]; cbn; [|reflexivity]. now intros ->. Qed.

Lemma valid_not_empty (l : list string) (s : string) :
  In s l -> ~ In "" l -> s <> "".
Proof. intros Hin Hno ->. contradiction. Qed.

Lemma map_normal (f : string -> string) (l : list string) :
  Forall (fun x => f x = x) l -> map f l = l.
Proof. induction 1 as [|x l Hx _ IH]; cbn; [reflexivity|]. now rewrite Hx, IH. Qed.

(** C10, as amended: for every task in the normal form of the class,
    [toJSON] succeeds and [Task.fromJSON(t.toJSON())] is a task equal to [t]
    in every field, at whatever instant and with whatever fresh id it is
    hydrated. *)
Theorem C10_fromJSON_toJSON_on_normal_form (task : Task.t) :
  normal_form task ->
  exists data,
    Task.toJSON task = Ok data
    /\ forall now fresh, Task.fromJSON data now fresh = Ok task.
Proof.
  intros [Hid Hcreated Htitle Htitle' Hdesc Hprio Hupdated Huser Hassigned
            Hcat Hcat' Htags Hdue Hest Hact Hstatus Hcompleted].
  destruct task as [id createdAt title description priority completed updatedAt
                      userId assignedTo category tags dueDate estimatedHours
                      actualHours status completedAt notes attachments
                      dependencies].
  projections.
  destruct createdAt as [created|]; [|congruence].
  destruct updatedAt as [updated|]; [|congruence].
  assert (Hprio' : priority <> "").
  { apply (valid_not_empty Task.validPriorities); [exact Hprio|].
    cbn. intuition discriminate. }
  assert (Hstatus' : status <> "").
  { apply (valid_not_empty Task.validStatuses); [exact Hstatus|].
    cbn. intuition discriminate. }
  assert (Hjson : exists due completedAt',
             Task.iso_or_null dueDate = Ok due
             /\ Task.iso_or_null completedAt = Ok completedAt'
             /\ Task.date_or_null due = dueDate
             /\ Task.date_or_null completedAt' = completedAt).
  { destruct dueDate as [[due|]|]; [|congruence|];
      (destruct completedAt as [[done|]|]; [|congruence|]);
      eexists; eexists; repeat split. }
  destruct Hjson as (due & completedAt' & Hdue1 & Hcompleted1 & Hdue2 & Hcompleted2).
  eexists. split.
  - unfold Task.toJSON. projections. rewrite Hdue1, Hcompleted1. reflexivity.
  - intros now fresh. unfold Task.fromJSON, Task.constructor.
    plain_object.
    unfold Task._validateConstructorParams, Js.or_else. plain_object.
    pose proof (proj2 (JsFacts.truthy_spec title) Htitle') as ->.
    pose proof (proj2 (JsFacts.truthy_spec userId) Huser) as ->.
    pose proof (proj2 (JsFacts.truthy_spec priority) Hprio') as ->.
    pose proof (proj2 (JsFacts.truthy_spec category) Hcat') as Hcat''.
    pose proof (proj2 (JsFacts.truthy_spec status) Hstatus') as ->.
    pose proof (proj2 (JsFacts.truthy_spec id) Hid) as ->.
    pose proof (proj2 (JsFacts.truthy_spec assignedTo) Hassigned) as ->.
    rewrite Htitle. apply String.eqb_neq in Htitle'. rewrite Htitle'.
    rewrite (validatePriority_valid _ Hprio).
    unfold Task._validateCategory, Task._validateTags.
    rewrite !Hcat'', Hcat, (map_normal _ _ Htags).
    rewrite (validateHours_ok _ Hest), (validateHours_ok _ Hact).
    rewrite (validateStatus_valid _ Hstatus).
    rewrite Hdue2, Hcompleted2, Hdesc.
    cbn [negb orb bindR Task.date_or Js.truthy_date_string Js.parse].
    now destruct (Js.truthy description) eqn:E;
      [|apply JsFacts.truthy_false in E; subst].
Qed.

Lemma task_t1_normal : normal_form Samples.task_t1.
Proof.
  split; cbn; try discriminate; try reflexivity; auto.
Qed.

Lemma C10_witness :
  normal_form Samples.task_t1
  /\ exists data,
       Task.toJSON Samples.task_t1 = Ok data
       /\ forall now fresh, Task.fromJSON data now fresh = Ok Samples.task_t1.
Proof.
  split; [exact task_t1_normal|].
  exact (C10_fromJSON_toJSON_on_normal_form Samples.task_t1 task_t1_normal).
Defined.

(** C10, as stated, fails: [update("t1", { tags: [" Work"] })] writes the
    tags directly, and the task it returns is not equal to its own
    [Task.fromJSON(t.toJSON())], whose tag is [work]. *)
Lemma C10_counterexample_untrimmed_tag :
  fst (TaskRepository.update "t1" [Updates.tags [" Work"]] 2000 "x" Samples.repo_t1)
  = Ok (Some Samples.task_t1_tagged)
  /\ exists data task',
       Task.toJSON Samples.task_t1_tagged = Ok data
       /\ Task.fromJSON data 3000 "y" = Ok task'
       /\ Task._tags Samples.task_t1_tagged = [" Work"]
       /\ Task._tags task' = ["work"]
       /\ task' <> Samples.task_t1_tagged.
Proof.
  split; [reflexivity|].
  eexists. eexists. split; [reflexivity|]. split; [reflexivity|].
  repeat split. discriminate.
Qed.

(** Two more tasks that do not come back: a category of white space is
    stored as the empty string and hydrates to [general]; a due date that
    does not parse makes [toJSON] throw. *)
Example blank_category_hydrates_to_general :
  exists task data task',
    Task.constructor (Some "A") None (Some "u1") Samples.options_blank_category 100 "t1"
    = Ok task
    /\ Task._category task = ""
    /\ Task.toJSON task = Ok data
    /\ Task.fromJSON data 200 "y" = Ok task'
    /\ Task._category task' = "general".
Proof. repeat eexists. Qed.

Example unparsable_due_date_breaks_toJSON :
  exists task,
    Task.constructor (Some "A") None (Some "u1") Samples.options_due_soon 100 "t1"
    = Ok task
    /\ Task._dueDate task = Some Js.InvalidDate
    /\ Task.toJSON task = Throw (RangeError "Invalid time value").
Proof. repeat eexists. Qed.

(** *** The constructor builds tasks in normal form *)

Lemma or_else_filled (o : option string) (d : string) :
  d <> "" -> Js.or_else o d <> "".
Proof.
  intros Hd. destruct o as [s|]; cbn; [|exact Hd].
  destruct (Js.truthy s) eqn:E; [|exact Hd]. now apply JsFacts.truthy_spec.
Qed.

Lemma date_or_valid (s : option Js.DateString) (now : Z) :
  parses s -> Task.date_or s (Js.DateAt now) <> Js.InvalidDate.
Proof.
  destruct s as [[ms|text]|]; cbn; try discriminate.
  intros ->. discriminate.
Qed.

Lemma date_or_null_valid (s : option Js.DateString) :
  parses s -> Task.date_or_null s <> Some Js.InvalidDate.
Proof.
  destruct s as [[ms|text]|]; cbn; try discriminate.
  intros ->. discriminate.
Qed.

Lemma validateHours_inv (h h' : option float) :
  Task._validateHours h = Ok h' -> hours_ok h'.
Proof.
  destruct h as [q|]; cbn; [|now intros [= <-]].
  destruct (PrimFloat.ltb q Number.zero) eqn:E; cbn; [discriminate|].
  now intros [= <-].
Qed.

(** A task that the constructor builds from parsable dates, a category that
    is not blank and a fresh id that is not empty is in normal form. *)
Lemma constructor_normal_form title description userId options now fresh task :
  Task.constructor title description userId options now fresh = Ok task ->
  fresh <> "" ->
  Js.trim (Js.or_else (TaskData.category options) "general") <> "" ->
  parses (TaskData.createdAt options) ->
  parses (TaskData.updatedAt options) ->
  parses (TaskData.dueDate options) ->
  parses (TaskData.completedAt options) ->
  normal_form task.
Proof.
  unfold Task.constructor. intros H Hfresh Hcat Hc Hu Hd Hdone.
  destruct (Task._validateConstructorParams title description userId) eqn:Hparams;
    cbn [bindR] in H; [|discriminate].
  unfold Task._validateConstructorParams in Hparams.
  destruct (negb (Js.truthy (default "" title))
            || String.eqb (Js.trim (default "" title)) "") eqn:Htitle;
    [discriminate|].
  destruct (negb (Js.truthy (default "" userId))) eqn:Huser; [discriminate|].
  apply orb_false_elim in Htitle as [_ Htitle]. apply String.eqb_neq in Htitle.
  apply negb_false_iff, JsFacts.truthy_spec in Huser.
  destruct (Task._validatePriority _) as [priority|] eqn:Hprio;
    cbn [bindR] in H; [|discriminate].
  destruct (Task._validateCategory _) as [category|] eqn:Hcategory;
    cbn [bindR] in H; [|discriminate].
  unfold Task._validateTags in H. cbn [bindR] in H.
  destruct (Task._validateHours (TaskData.estimatedHours options))
    as [estimated|] eqn:Hest; cbn [bindR] in H; [|discriminate].
  destruct (Task._validateHours (TaskData.actualHours options))
    as [actual|] eqn:Hact; cbn [bindR] in H; [|discriminate].
  destruct (Task._validateStatus _) as [status|] eqn:Hstatus;
    cbn [bindR] in H; [|discriminate].
  injection H as <-.
  unfold Task._validatePriority in Hprio.
  destruct (Js.includes Task.validPriorities _) eqn:Hp; [|discriminate].
  injection Hprio as <-. apply JsFacts.includes_spec in Hp.
  unfold Task._validateStatus in Hstatus.
  destruct (Js.includes Task.validStatuses _) eqn:Hs; [|discriminate].
  injection Hstatus as <-. apply JsFacts.includes_spec in Hs.
  unfold Task._validateCategory in Hcategory.
  destruct (negb _); [discriminate|]. injection Hcategory as <-.
  split; projections.
  - now apply or_else_filled.
  - now apply date_or_valid.
  - apply JsFacts.trim_idem.
  - exact Htitle.
  - destruct description as [d|]; [|reflexivity].
    destruct (Js.truthy d); [apply JsFacts.trim_idem|reflexivity].
  - exact Hp.
  - now apply date_or_valid.
  - exact Huser.
  - now apply or_else_filled.
  - apply JsFacts.normalize_idem.
  - intros E. apply (proj1 (JsFacts.toLowerCase_empty _)) in E. contradiction.
  - apply Forall_forall. intros tag Hin.
    apply list_elem_of_In, in_map_iff in Hin as (raw & <- & _).
    apply JsFacts.normalize_idem.
  - now apply date_or_null_valid.
  - eapply validateHours_inv; eauto.
  - eapply validateHours_inv; eauto.
  - exact Hs.
  - now apply date_or_null_valid.
Qed.

(** *** The mutators keep the normal form *)

(** Splits the goal into the fields of the normal form and closes those that
    the method has not touched. *)
Ltac keeps_normal_form :=
  match goal with
  | H : normal_form ?task |- _ =>
      destruct H; destruct task; projections; split; projections;
      try assumption; try discriminate
  end.

Lemma updateTitle_normal (newTitle : string) (now : Z) (task task' : Task.t) :
  Task.updateTitle newTitle now task = Ok task' ->
  normal_form task -> normal_form task'.
Proof.
  unfold Task.updateTitle. intros H Hnf.
  destruct (negb (Js.truthy newTitle) || String.eqb (Js.trim newTitle) "") eqn:E;
    [discriminate|].
  injection H as <-. apply orb_false_elim in E as [_ E].
  keeps_normal_form; [apply JsFacts.trim_idem|now apply String.eqb_neq].
Qed.

Lemma updateDescription_normal (d : option string) (now : Z) (task task' : Task.t) :
  Task.updateDescription d now task = Ok task' ->
  normal_form task -> normal_form task'.
Proof.
  unfold Task.updateDescription. intros [= <-] Hnf. keeps_normal_form.
  destruct d as [d|]; [|reflexivity].
  destruct (Js.truthy d); [apply JsFacts.trim_idem|reflexivity].
Qed.

Lemma updatePriority_normal (p : string) (now : Z) (task task' : Task.t) :
  Task.updatePriority p now task = Ok task' ->
  normal_form task -> normal_form task'.
Proof.
  unfold Task.updatePriority, Task._validatePriority. intros H Hnf.
  destruct (Js.includes Task.validPriorities p) eqn:E; [|discriminate].
  injection H as <-. keeps_normal_form. now apply JsFacts.includes_spec.
Qed.

Lemma markComplete_normal (now : Z) (task : Task.t) :
  normal_form task -> normal_form (Task.markComplete now task).
Proof.
  unfold Task.markComplete. intros Hnf.
  destruct (Task._completed task) eqn:E; [exact Hnf|]. keeps_normal_form.
  cbn. auto.
Qed.

Lemma markIncomplete_normal (now : Z) (task : Task.t) :
  normal_form task -> normal_form (Task.markIncomplete now task).
Proof.
  unfold Task.markIncomplete. intros Hnf.
  destruct (Task._completed task) eqn:E; [|exact Hnf]. keeps_normal_form.
  cbn. auto.
Qed.

Lemma setStatus_normal (status : string) (now : Z) (task task' : Task.t) :
  Task.setStatus status now task = Ok task' ->
  normal_form task -> normal_form task'.
Proof.
  unfold Task.setStatus, Task._validateStatus. intros H Hnf.
  destruct (Js.includes Task.validStatuses status) eqn:E; [|discriminate].
  apply JsFacts.includes_spec in E. cbn [negb bindR] in H.
  assert (Hset : normal_form (Task.set_status status task))
    by (keeps_normal_form; exact E).
  destruct (String.eqb status "completed" && _); [injection H as <-|].
  - now apply markComplete_normal.
  - destruct (negb _ && _); injection H as <-; [|exact Hset].
    now apply markIncomplete_normal.
Qed.

Lemma assignTo_normal (userId : string) (now : Z) (task task' : Task.t) :
  Task.assignTo userId now task = Ok task' ->
  normal_form task -> normal_form task'.
Proof.
  unfold Task.assignTo. intros H Hnf.
  destruct (Js.truthy userId) eqn:E; [|discriminate]. injection H as <-.
  keeps_normal_form. now apply JsFacts.truthy_spec.
Qed.

Lemma reassignToOwner_normal (now : Z) (task : Task.t) :
  normal_form task -> normal_form (Task.reassignToOwner now task).
Proof. unfold Task.reassignToOwner. intros Hnf. keeps_normal_form. Qed.

(** [setCategory] keeps the normal form unless the category is blank. *)
Lemma setCategory_normal (category : string) (now : Z) (task task' : Task.t) :
  Task.setCategory category now task = Ok task' ->
  Js.trim category <> "" ->
  normal_form task -> normal_form task'.
Proof.
  unfold Task.setCategory, Task._validateCategory. intros H Hfilled Hnf.
  destruct (Js.truthy category); [|discriminate]. injection H as <-.
  keeps_normal_form; [apply JsFacts.normalize_idem|].
  intros E. apply (proj1 (JsFacts.toLowerCase_empty _)) in E. contradiction.
Qed.

Lemma addTag_normal (tag : string) (now : Z) (task task' : Task.t) :
  Task.addTag tag now task = Ok task' ->
  normal_form task -> normal_form task'.
Proof.
  unfold Task.addTag. intros H Hnf.
  destruct (Js.truthy tag); [|discriminate]. cbn [negb] in H.
  destruct (Js.includes _ _); injection H as <-; [exact Hnf|].
  keeps_normal_form. apply Forall_app. split; [assumption|].
  apply Forall_singleton, JsFacts.normalize_idem.
Qed.

Lemma removeTag_normal (tag : string) (now : Z) (task : Task.t) :
  normal_form task -> normal_form (Task.removeTag tag now task).
Proof.
  unfold Task.removeTag. intros Hnf.
  destruct (Js.remove_first _ _) as [tags|] eqn:E; [|exact Hnf].
  keeps_normal_form. rewrite Forall_forall in *. intros x Hx.
  match goal with H : forall _, _ ∈ _ -> _ |- _ => apply H end.
  rewrite list_elem_of_In in *. eapply JsFacts.remove_first_In; eauto.
Qed.

Lemma clearTags_normal (now : Z) (task : Task.t) :
  normal_form task -> normal_form (Task.clearTags now task).
Proof.
  unfold Task.clearTags. intros Hnf. keeps_normal_form. apply Forall_nil_2.
Qed.

Lemma setDueDate_normal (date : option Js.DateInput) (now : Z) (task task' : Task.t) :
  Task.setDueDate date now task = Ok task' ->
  normal_form task -> normal_form task'.
Proof.
  unfold Task.setDueDate. intros H Hnf.
  destruct (match date with
            | Some (Js.OfDate d) => Some d
            | Some (Js.OfString s) =>
                if Js.truthy_date_string s then Some (Js.parse s) else None
            | None => None
            end) as [[ms|]|]; cbn in H; [| discriminate |];
    injection H as <-; keeps_normal_form.
Qed.

Lemma clearDueDate_normal (now : Z) (task : Task.t) :
  normal_form task -> normal_form (Task.clearDueDate now task).
Proof. unfold Task.clearDueDate. intros Hnf. keeps_normal_form. Qed.

Lemma setEstimatedHours_normal (hours : option float) (now : Z) (task task' : Task.t) :
  Task.setEstimatedHours hours now task = Ok task' ->
  normal_form task -> normal_form task'.
Proof.
  unfold Task.setEstimatedHours. intros H Hnf.
  destruct (Task._validateHours hours) as [h|] eqn:E; [|discriminate].
  injection H as <-. apply validateHours_inv in E. keeps_normal_form.
Qed.

Lemma setActualHours_normal (hours : option float) (now : Z) (task task' : Task.t) :
  Task.setActualHours hours now task = Ok task' ->
  normal_form task -> normal_form task'.
Proof.
  unfold Task.setActualHours. intros H Hnf.
  destruct (Task._validateHours hours) as [h|] eqn:E; [|discriminate].
  injection H as <-. apply validateHours_inv in E. keeps_normal_form.
Qed.

Lemma addTimeSpent_normal (hours : float) (now : Z) (task task' : Task.t) :
  Task.addTimeSpent hours now task = Ok task' ->
  normal_form task -> normal_form task'.
Proof.
  unfold Task.addTimeSpent. intros H Hnf.
  destruct (PrimFloat.ltb hours Number.zero) eqn:E; [discriminate|].
  injection H as <-. keeps_normal_form. cbn [hours_ok].
  apply NumberFacts.add_not_below_zero; [|exact E].
  match goal with
  | H : hours_ok ?h |- _ => destruct h as [q|]; cbn in *
  end; [|reflexivity].
  destruct (Number.truthy q); [assumption|reflexivity].
Qed.

Lemma addNote_normal (note : string) (author : option string) (now : Z)
    (fresh : string) (task task' : Task.t) :
  Task.addNote note author now fresh task = Ok task' ->
  normal_form task -> normal_form task'.
Proof.
  unfold Task.addNote. intros H Hnf.
  destruct (negb (Js.truthy note)); [discriminate|]. injection H as <-.
  keeps_normal_form.
Qed.

Lemma removeNote_normal (noteId : string) (now : Z) (task : Task.t) :
  normal_form task -> normal_form (Task.removeNote noteId now task).
Proof.
  unfold Task.removeNote. intros Hnf.
  destruct (Task.remove_first_note _ _); [|exact Hnf]. keeps_normal_form.
Qed.

Lemma addDependency_normal (taskId : string) (now : Z) (task task' : Task.t) :
  Task.addDependency taskId now task = Ok task' ->
  normal_form task -> normal_form task'.
Proof.
  unfold Task.addDependency. intros H Hnf.
  destruct (negb (Js.truthy taskId)); [discriminate|].
  destruct (String.eqb taskId (Task._id task)); [discriminate|].
  destruct (negb _); injection H as <-; [|exact Hnf]. keeps_normal_form.
Qed.

Lemma removeDependency_normal (taskId : string) (now : Z) (task : Task.t) :
  normal_form task -> normal_form (Task.removeDependency taskId now task).
Proof.
  unfold Task.removeDependency. intros Hnf.
  destruct (Js.remove_first _ _); [|exact Hnf]. keeps_normal_form.
Qed.

End HydrationFacts.

(** * Further properties of the code *)

(** ** The Task class: status, tags, dependencies *)

Module TaskBehaviour.
Import Invariants.

(** X1: [setStatus] with a valid status succeeds.  With [completed] it
    completes the task (stamping [completedAt] and [updatedAt] when the task
    was not completed yet).  With any other status on a completed task the
    task is marked incomplete and its status becomes [pending]: the status
    that was asked for is lost.  Otherwise only the status changes, and
    [updatedAt] is not touched. *)
Theorem setStatus_outcome (status : string) (now : Z) (task : Task.t) :
  In status Task.validStatuses ->
  exists task',
    Task.setStatus status now task = Ok task'
    /\ (status = "completed" ->
        Task._completed task' = true /\ Task._status task' = "completed"
        /\ (Task._completed task = false ->
            Task._completedAt task' = Some (Js.DateAt now)
            /\ Task._updatedAt task' = Js.DateAt now)
        /\ (Task._completed task = true ->
            task' = Task.set_status "completed" task))
    /\ (status <> "completed" ->
        Task._completed task' = false
        /\ (Task._completed task = true ->
            Task._status task' = "pending"
            /\ Task._completedAt task' = None
            /\ Task._updatedAt task' = Js.DateAt now)
        /\ (Task._completed task = false ->
            task' = Task.set_status status task)).
Proof.
  intros Hvalid. unfold Task.setStatus.
  rewrite (HydrationFacts.validateStatus_valid _ Hvalid). cbn [bindR].
  unfold Task.markComplete, Task.markIncomplete.
  destruct task as [? ? ? ? ? completed ? ? ? ? ? ? ? ? ? ? ? ? ?]; cbn.
  destruct (String.eqb_spec status "completed") as [->|Hne];
    destruct completed; cbn; eexists; (split; [reflexivity|]); cbn;
    repeat split; intros; try congruence; try discriminate; auto.
Qed.

Lemma setStatus_outcome_witness :
  In "cancelled" Task.validStatuses
  /\ exists task',
       Task.setStatus "cancelled" 950 (Task.markComplete 900 Samples.task_t1)
       = Ok task'
       /\ Task._status task' = "pending".
Proof.
  assert (H : In "cancelled" Task.validStatuses) by (cbn; auto 10).
  split; [exact H|].
  destruct (setStatus_outcome "cancelled" 950
              (Task.markComplete 900 Samples.task_t1) H)
    as (task' & Hrun & _ & Hother).
  exists task'. split; [exact Hrun|].
  destruct Hother as (_ & Hwas & _); [discriminate|].
  now destruct (Hwas eq_refl).
Defined.

(** X2: completing a task that is not completed and then marking it
    incomplete does not bring the task back: whatever its status was, it is
    now [pending], and [completedAt] is [null].  A second [markComplete] does
    nothing at all. *)
Theorem markIncomplete_after_markComplete (done undone again : Z) (task : Task.t) :
  Task._completed task = false ->
  Task.markIncomplete undone (Task.markComplete done task)
  = Task.set_updatedAt (Js.DateAt undone)
      (Task.set_completedAt None (Task.set_status "pending" task))
  /\ Task.markComplete again (Task.markComplete done task)
     = Task.markComplete done task.
Proof.
  intros H. unfold Task.markIncomplete, Task.markComplete, Task._touch.
  destruct task; cbn in *. subst. cbn. split; reflexivity.
Qed.

Lemma markIncomplete_after_markComplete_witness :
  Task._completed Samples.task_t1 = false
  /\ Task._status
       (Task.markIncomplete 950 (Task.markComplete 900 Samples.task_t1))
     = "pending".
Proof.
  split; [reflexivity|].
  now rewrite (proj1 (markIncomplete_after_markComplete 900 950 0
                        Samples.task_t1 eq_refl)).
Defined.

Lemma hasTag_spec (tag : string) (task : Task.t) :
  Task.hasTag tag task = true
  <-> In (Js.toLowerCase (Js.trim tag)) (Task._tags task).
Proof. unfold Task.hasTag. apply JsFacts.includes_spec. Qed.

(** X3: after a successful [addTag(tag)] the task has the tag, under every
    spelling that trims and lowercases to the same text; it keeps the tags it
    had, gains at most one, and when it had the tag already it is unchanged
    (not even [updatedAt] moves). *)
Theorem addTag_then_hasTag (tag : string) (now : Z) (task task' : Task.t) :
  Task.addTag tag now task = Ok task' ->
  (forall spelling,
      Js.toLowerCase (Js.trim spelling) = Js.toLowerCase (Js.trim tag) ->
      Task.hasTag spelling task' = true)
  /\ (forall other, Task.hasTag other task = true -> Task.hasTag other task' = true)
  /\ (Task.hasTag tag task = true -> task' = task)
  /\ (Task.hasTag tag task = false ->
      Task._tags task' = Task._tags task ++ [Js.toLowerCase (Js.trim tag)]
      /\ Task._updatedAt task' = Js.DateAt now).
Proof.
  unfold Task.addTag. destruct (negb (Js.truthy tag)); [discriminate|].
  fold (Task.hasTag tag task).
  destruct (Task.hasTag tag task) eqn:Hhas; cbn [negb]; intros [= <-].
  - repeat split; try discriminate; auto.
    intros spelling Heq. apply hasTag_spec. rewrite Heq. now apply hasTag_spec.
  - repeat split; try discriminate.
    + intros spelling Heq. apply hasTag_spec. rewrite Heq.
      destruct task; cbn. apply in_or_app. right. now left.
    + intros other Hother. apply hasTag_spec. apply hasTag_spec in Hother.
      destruct task; cbn in *. apply in_or_app. now left.
    + now destruct task.
    + now destruct task.
Qed.

Lemma addTag_then_hasTag_witness :
  exists task',
    Task.addTag " Home " 900 Samples.task_t1 = Ok task'
    /\ Task.hasTag "HOME" task' = true.
Proof.
  eexists. split; [reflexivity|].
  eapply (proj1 (addTag_then_hasTag " Home " 900 Samples.task_t1 _ eq_refl)).
  reflexivity.
Defined.

Lemma remove_first_spec (x : string) (l : list string) :
  match Js.remove_first x l with
  | Some r => In x l /\ forall y, y <> x -> (In y r <-> In y l)
  | None => ~ In x l
  end.
Proof.
  induction l as [|a l IH]; cbn; [tauto|].
  destruct (String.eqb_spec a x) as [->|Hne].
  - split; [now left|]. intros y Hy. split; [now right|].
    intros [E|H]; [congruence|exact H].
  - destruct (Js.remove_first x l) as [r|].
    + destruct IH as [Hin Hrest]. split; [now right|].
      intros y Hy. cbn. rewrite (Hrest y Hy). tauto.
    + intros [E|H]; [congruence|contradiction].
Qed.

Lemma remove_first_gone (x : string) (l r : list string) :
  NoDup l -> Js.remove_first x l = Some r -> ~ In x r.
Proof.
  revert r. induction l as [|a l IH]; cbn; intros r Hnodup; [discriminate|].
  apply NoDup_cons in Hnodup as [Ha Hl]. rewrite list_elem_of_In in Ha.
  destruct (String.eqb_spec a x) as [->|Hne].
  - now intros [= <-].
  - destruct (Js.remove_first x l) as [r'|] eqn:E; [|discriminate].
    intros [= <-] [Heq|Hin]; [congruence|]. now apply (IH r').
Qed.

(** X4: on a task whose tags are free of duplicates, [removeTag(tag)] leaves
    a task that has the tag no more and has every other tag exactly as
    before; when the tag was absent the task is unchanged. *)
Theorem removeTag_then_hasTag (tag : string) (now : Z) (task : Task.t) :
  NoDup (Task._tags task) ->
  Task.hasTag tag (Task.removeTag tag now task) = false
  /\ (forall other,
         Js.toLowerCase (Js.trim other) <> Js.toLowerCase (Js.trim tag) ->
         Task.hasTag other (Task.removeTag tag now task) = Task.hasTag other task)
  /\ (Task.hasTag tag task = false -> Task.removeTag tag now task = task).
Proof.
  intros Hnodup. unfold Task.removeTag.
  pose proof (remove_first_spec (Js.toLowerCase (Js.trim tag)) (Task._tags task)) as Hspec.
  destruct (Js.remove_first _ _) as [tags|] eqn:E.
  - destruct Hspec as [Hin Hrest].
    pose proof (remove_first_gone _ _ _ Hnodup E) as Hgone.
    repeat split.
    + apply not_true_is_false. intros H. apply hasTag_spec in H.
      destruct task; cbn in *. contradiction.
    + intros other Hother.
      destruct (Task.hasTag other task) eqn:Hb.
      * apply hasTag_spec. apply hasTag_spec in Hb.
        destruct task; cbn in *. now apply Hrest.
      * apply not_true_is_false. intros H. apply hasTag_spec in H.
        assert (In (Js.toLowerCase (Js.trim other)) (Task._tags task))
          by (destruct task; cbn in *; now apply Hrest).
        apply hasTag_spec in H0. congruence.
    + intros Habsent. apply hasTag_spec in Hin. congruence.
  - repeat split; auto.
    apply not_true_is_false. intros H. now apply hasTag_spec in H.
Qed.

Lemma removeTag_then_hasTag_witness :
  NoDup (Task._tags Samples.task_t1_busy)
  /\ Task.hasTag "work" Samples.task_t1_busy = true
  /\ Task.hasTag " Work" (Task.removeTag " Work" 900 Samples.task_t1_busy) = false.
Proof.
  assert (H : NoDup (Task._tags Samples.task_t1_busy)).
  { cbn. apply NoDup_cons. split; [|apply NoDup_singleton].
    intros Hin. apply list_elem_of_singleton in Hin. discriminate. }
  split; [exact H|]. split; [reflexivity|].
  exact (proj1 (removeTag_then_hasTag " Work" 900 Samples.task_t1_busy H)).
Defined.

(** X5: [addDependency(taskId)] succeeds only for a non-empty id other than
    the task's own; afterwards the task depends on [taskId], and its
    dependencies are those it had and [taskId], which is added once. *)
Theorem addDependency_outcome (taskId : string) (now : Z) (task task' : Task.t) :
  Task.addDependency taskId now task = Ok task' ->
  taskId <> "" /\ taskId <> Task._id task
  /\ Task.hasDependency taskId task' = true
  /\ (forall other, In other (Task._dependencies task')
                    <-> In other (Task._dependencies task) \/ other = taskId)
  /\ (Task.hasDependency taskId task = true -> task' = task)
  /\ count_occ string_dec (Task._dependencies task') taskId
     = Nat.max 1 (count_occ string_dec (Task._dependencies task) taskId).
Proof.
  unfold Task.addDependency.
  destruct (Js.truthy taskId) eqn:Htruthy; cbn [negb]; [|discriminate].
  apply JsFacts.truthy_spec in Htruthy.
  destruct (String.eqb_spec taskId (Task._id task)) as [|Hne]; [discriminate|].
  fold (Task.hasDependency taskId task).
  destruct (Task.hasDependency taskId task) eqn:Hhas; cbn [negb]; intros [= <-].
  - unfold Task.hasDependency in Hhas. apply JsFacts.includes_spec in Hhas.
    split; [exact Htruthy|]. split; [exact Hne|].
    split; [now apply JsFacts.includes_spec|].
    split; [intros other; split; [tauto|intros [H| ->]; auto]|].
    split; [reflexivity|].
    apply (count_occ_In string_dec) in Hhas. lia.
  - unfold Task.hasDependency in *. apply JsFacts.includes_false in Hhas.
    split; [exact Htruthy|]. split; [exact Hne|].
    destruct task; cbn in *.
    split; [apply JsFacts.includes_spec, in_or_app; right; now left|].
    split; [intros other; rewrite in_app_iff; cbn; intuition|].
    split; [discriminate|].
    rewrite count_occ_app. cbn.
    apply (count_occ_not_In string_dec) in Hhas. rewrite Hhas.
    now destruct (string_dec taskId taskId).
Qed.

Lemma addDependency_outcome_witness :
  exists task',
    Task.addDependency "t9" 900 Samples.task_t1 = Ok task'
    /\ Task.hasDependency "t9" task' = true.
Proof.
  eexists. split; [reflexivity|].
  exact (proj1 (proj2 (proj2 (addDependency_outcome "t9" 900 Samples.task_t1 _ eq_refl)))).
Defined.

End TaskBehaviour.

(** ** The Task class: derived values and copies *)

Module TaskDerived.
Import Invariants.

(** A task in normal form is rebuilt by [fromJSON] from its own plain
    object. *)
Lemma hydrate_own_json (task : Task.t) :
  normal_form task ->
  exists data,
    Task.toJSON task = Ok data
    /\ forall now fresh, Task.fromJSON data now fresh = Ok task.
Proof.
  intros [Hid Hcreated Htitle Htitle' Hdesc Hprio Hupdated Huser Hassigned
            Hcat Hcat' Htags Hdue Hest Hact Hstatus Hcompleted].
  destruct task as [id createdAt title description priority completed updatedAt
                      userId assignedTo category tags dueDate estimatedHours
                      actualHours status completedAt notes attachments
                      dependencies].
  HydrationFacts.projections.
  destruct createdAt as [created|]; [|congruence].
  destruct updatedAt as [updated|]; [|congruence].
  assert (Hprio' : priority <> "").
  { apply (HydrationFacts.valid_not_empty Task.validPriorities); [exact Hprio|].
    cbn. intuition discriminate. }
  assert (Hstatus' : status <> "").
  { apply (HydrationFacts.valid_not_empty Task.validStatuses); [exact Hstatus|].
    cbn. intuition discriminate. }
  assert (Hjson : exists due completedAt',
             Task.iso_or_null dueDate = Ok due
             /\ Task.iso_or_null completedAt = Ok completedAt'
             /\ Task.date_or_null due = dueDate
             /\ Task.date_or_null completedAt' = completedAt).
  { destruct dueDate as [[due|]|]; [|congruence|];
      (destruct completedAt as [[done|]|]; [|congruence|]);
      eexists; eexists; repeat split. }
  destruct Hjson as (due & completedAt' & Hdue1 & Hcompleted1 & Hdue2 & Hcompleted2).
  eexists. split.
  - unfold Task.toJSON. HydrationFacts.projections. rewrite Hdue1, Hcompleted1. reflexivity.
  - intros now fresh. unfold Task.fromJSON, Task.constructor.
    HydrationFacts.plain_object.
    unfold Task._validateConstructorParams, Js.or_else. HydrationFacts.plain_object.
    pose proof (proj2 (JsFacts.truthy_spec title) Htitle') as ->.
    pose proof (proj2 (JsFacts.truthy_spec userId) Huser) as ->.
    pose proof (proj2 (JsFacts.truthy_spec priority) Hprio') as ->.
    pose proof (proj2 (JsFacts.truthy_spec category) Hcat') as Hcat''.
    pose proof (proj2 (JsFacts.truthy_spec status) Hstatus') as ->.
    pose proof (proj2 (JsFacts.truthy_spec id) Hid) as ->.
    pose proof (proj2 (JsFacts.truthy_spec assignedTo) Hassigned) as ->.
    rewrite Htitle. apply String.eqb_neq in Htitle'. rewrite Htitle'.
    rewrite (HydrationFacts.validatePriority_valid _ Hprio).
    unfold Task._validateCategory, Task._validateTags.
    rewrite !Hcat'', Hcat, (HydrationFacts.map_normal _ _ Htags).
    rewrite (HydrationFacts.validateHours_ok _ Hest), (HydrationFacts.validateHours_ok _ Hact).
    rewrite (HydrationFacts.validateStatus_valid _ Hstatus).
    rewrite Hdue2, Hcompleted2, Hdesc.
    cbn [negb orb bindR Task.date_or Js.truthy_date_string Js.parse].
    now destruct (Js.truthy description) eqn:E;
      [|apply JsFacts.truthy_false in E; subst].
Qed.

(** X6: [progress] is 100 for a completed task.  When the hours are not
    negative it is never below 0 and never above 100: it is a number between
    0 and 100, or it is NaN.  NaN is a possible value: with both hour counts
    [Infinity], which the class accepts, the quotient has none. *)
Theorem progress_between_0_and_100 (task : Task.t) :
  hours_ok (Task._estimatedHours task) ->
  hours_ok (Task._actualHours task) ->
  PrimFloat.ltb (Task.progress task) Number.zero = false
  /\ PrimFloat.ltb Number.hundred (Task.progress task) = false
  /\ (PrimFloat.is_nan (Task.progress task) = false ->
      PrimFloat.leb Number.zero (Task.progress task) = true
      /\ PrimFloat.leb (Task.progress task) Number.hundred = true)
  /\ (Task._completed task = true -> Task.progress task = Number.hundred)
  /\ (Task._completed task = false ->
      hours_ok (Some PrimFloat.infinity)
      /\ PrimFloat.is_nan
           (Task.progress
              (Task.set_actualHours (Some PrimFloat.infinity)
                 (Task.set_estimatedHours (Some PrimFloat.infinity) task)))
         = true).
Proof.
  intros Hest Hact.
  assert (Hbounds : PrimFloat.ltb (Task.progress task) Number.zero = false
                    /\ PrimFloat.ltb Number.hundred (Task.progress task) = false).
  { unfold Task.progress.
    destruct (Task._completed task); [split; reflexivity|].
    destruct (Task._estimatedHours task) as [e|]; [|split; reflexivity].
    destruct (Task._actualHours task) as [a|];
      [|cbn; destruct (Number.truthy e); split; reflexivity].
    cbn in Hest, Hact. cbn [Task.truthy_hours default from_option id].
    destruct (Number.truthy e) eqn:He; [|split; reflexivity].
    destruct (Number.truthy a); [|split; reflexivity].
    cbn [negb orb]. unfold Task.Math_min. split.
    - apply NumberFacts.min_100_not_below_zero.
      apply NumberFacts.mul_not_below_zero; [|reflexivity].
      apply NumberFacts.div_not_below_zero; [exact Hact|exact Hest|].
      unfold Number.truthy in He. apply negb_true_iff, orb_false_elim in He.
      exact (proj1 He).
    - apply NumberFacts.min_100_not_above. }
  destruct Hbounds as [Hlow Hhigh].
  split; [exact Hlow|]. split; [exact Hhigh|]. split; [|split].
  - intros Hnumber. split.
    + apply NumberFacts.leb_of_not_ltb; [exact Hnumber|reflexivity|exact Hlow].
    + apply NumberFacts.leb_of_not_ltb; [reflexivity|exact Hnumber|exact Hhigh].
  - unfold Task.progress. now intros ->.
  - intros Hopen. split; [reflexivity|].
    destruct task; cbn in Hopen; subst. reflexivity.
Qed.

Lemma progress_between_0_and_100_witness :
  Task.progress Samples.task_t1_busy = 50%float
  /\ PrimFloat.leb Number.zero (Task.progress Samples.task_t1_busy) = true
  /\ PrimFloat.leb (Task.progress Samples.task_t1_busy) Number.hundred = true.
Proof.
  split; [reflexivity|].
  destruct (progress_between_0_and_100 Samples.task_t1_busy eq_refl eq_refl)
    as (_ & _ & Hrange & _).
  exact (Hrange eq_refl).
Defined.

(** X7: [daysUntilDue] is [null] without a due date; with a valid one it is
    the number of days, rounded up, from now to the due date: the least [n]
    with [due - now <= n] days.  So it is at most 0 exactly when the due date
    is not in the future, and a task that is overdue never shows a positive
    number of days. *)
Theorem daysUntilDue_rounds_up (now due : Z) (task : Task.t) :
  Task._dueDate task = Some (Js.DateAt due) ->
  exists n,
    Task.daysUntilDue now task = Some (Some n)
    /\ 86400000 * (n - 1) < due - now <= 86400000 * n
    /\ (n <= 0 <-> due <= now)
    /\ (Task.isOverdue now task = true -> n <= 0).
Proof.
  intros Hdue. unfold Task.daysUntilDue, Task.isOverdue, Task.ceil_div.
  rewrite Hdue. eexists. split; [reflexivity|].
  change (1000 * 60 * 60 * 24) with 86400000.
  pose proof (Z.div_mod (- (due - now)) 86400000 ltac:(lia)) as Hdiv.
  pose proof (Z.mod_pos_bound (- (due - now)) 86400000 ltac:(lia)) as Hmod.
  assert (Hbounds : 86400000 * (- (- (due - now) / 86400000) - 1) < due - now
                    <= 86400000 * - (- (due - now) / 86400000)) by lia.
  split; [exact Hbounds|]. split; [lia|].
  destruct (Task._completed task); [discriminate|]. cbn.
  rewrite Z.ltb_lt. lia.
Qed.

Lemma daysUntilDue_rounds_up_witness :
  Task._dueDate Samples.task_t1 = Some (Js.DateAt 500)
  /\ Task.daysUntilDue 400 Samples.task_t1 = Some (Some 1)
  /\ Task.daysUntilDue 500 Samples.task_t1 = Some (Some 0)
  /\ exists n, Task.daysUntilDue 90000000 Samples.task_t1 = Some (Some n) /\ n <= 0.
Proof.
  split; [reflexivity|]. split; [reflexivity|]. split; [reflexivity|].
  destruct (daysUntilDue_rounds_up 90000000 500 Samples.task_t1 eq_refl)
    as (n & Hn & _ & Hle & _).
  exists n. split; [exact Hn|]. apply Hle. lia.
Defined.

(** X8: [clone()] of a task in normal form, with a fresh id that is not
    empty, succeeds: the copy has the fresh id and the present instant as
    [createdAt] and [updatedAt], and every other field of the original,
    completion, notes and dependencies included. *)
Theorem clone_copies_all_but_identity (now : Z) (fresh : string) (task : Task.t) :
  normal_form task ->
  fresh <> "" ->
  Task.clone now fresh task
  = Ok (Task.set_updatedAt (Js.DateAt now)
          (Task.set_createdAt (Js.DateAt now) (Task.set_id fresh task))).
Proof.
  intros Hnf Hfresh.
  assert (Hcopy : normal_form
                    (Task.set_updatedAt (Js.DateAt now)
                       (Task.set_createdAt (Js.DateAt now) (Task.set_id fresh task)))).
  { destruct Hnf. destruct task. split; cbn in *; auto; discriminate. }
  destruct (hydrate_own_json _ Hcopy) as (data & Hjson & Hback).
  specialize (Hback now fresh). rewrite <- Hback.
  unfold Task.clone.
  destruct Hnf as [_ Hcreated _ _ _ _ Hupdated _ _ _ _ _ Hdue _ _ _ Hdone].
  destruct task as [id createdAt title description priority completed updatedAt
                      userId assignedTo category tags dueDate estimatedHours
                      actualHours status completedAt notes attachments
                      dependencies].
  cbn in Hcreated, Hupdated, Hdue, Hdone.
  destruct createdAt as [created|]; [|congruence].
  destruct updatedAt as [updated|]; [|congruence].
  unfold Task.toJSON in *. cbn in *.
  destruct (Task.iso_or_null dueDate) as [due|]; cbn in *; [|discriminate].
  destruct (Task.iso_or_null completedAt) as [done|]; cbn in *; [|discriminate].
  injection Hjson as <-. reflexivity.
Qed.

Lemma clone_copies_all_but_identity_witness :
  normal_form Samples.task_t1
  /\ "t2" <> ""
  /\ exists copy,
       Task.clone 900 "t2" Samples.task_t1 = Ok copy
       /\ Task._id copy = "t2"
       /\ Task._title copy = Task._title Samples.task_t1.
Proof.
  assert (H1 : normal_form Samples.task_t1) by exact HydrationFacts.task_t1_normal.
  assert (H2 : "t2" <> "") by discriminate.
  split; [exact H1|]. split; [exact H2|].
  eexists. split; [exact (clone_copies_all_but_identity 900 "t2" Samples.task_t1 H1 H2)|].
  split; reflexivity.
Defined.

End TaskDerived.

(** ** Lists: [findIndex], [slice] and [sort] *)

Module ListFacts.
Import TaskRepository.

Lemma findIndex_None {A} (p : A -> bool) (l : list A) :
  findIndex p l = None <-> existsb p l = false.
Proof.
  induction l as [|a l IH]; cbn; [tauto|].
  destruct (p a); cbn; [split; discriminate|].
  rewrite <- IH. destruct (findIndex p l); cbn; split; congruence.
Qed.

(** [findIndex] returns the position of the first element that satisfies
    the test. *)
Lemma findIndex_Some {A} (p : A -> bool) (l : list A) (i : nat) :
  findIndex p l = Some i ->
  exists before a after,
    l = before ++ a :: after /\ length before = i
    /\ p a = true /\ existsb p before = false
    /\ List.find p l = Some a.
Proof.
  revert i. induction l as [|a l IH]; cbn; intros i; [discriminate|].
  destruct (p a) eqn:Hp.
  - intros [= <-]. exists [], a, l. auto.
  - destruct (findIndex p l) as [j|]; cbn; [|discriminate]. intros [= <-].
    destruct (IH j eq_refl) as (before & b & after & -> & Hlen & Hb & Hnone & Hfind).
    exists (a :: before), b, after. cbn. rewrite Hp. cbn. auto.
Qed.

Lemma lookup_middle_eq {A} (before after : list A) (a : A) :
  (before ++ a :: after) !! length before = Some a.
Proof. now rewrite list_lookup_middle. Qed.

Lemma insert_middle_eq {A} (before after : list A) (a b : A) :
  <[length before := b]> (before ++ a :: after) = before ++ b :: after.
Proof.
  rewrite insert_app_r_alt by lia. now rewrite Nat.sub_diag.
Qed.

Lemma delete_middle_eq {A} (before after : list A) (a : A) :
  base.delete (length before) (before ++ a :: after) = before ++ after.
Proof. apply delete_middle. Qed.

Lemma find_app_none {A} (p : A -> bool) (l1 l2 : list A) :
  existsb p l1 = false -> List.find p (l1 ++ l2) = List.find p l2.
Proof.
  induction l1 as [|a l1 IH]; cbn; [reflexivity|].
  destruct (p a); cbn; [discriminate|exact IH].
Qed.

Lemma find_none_existsb {A} (p : A -> bool) (l : list A) :
  existsb p l = false -> List.find p l = None.
Proof.
  induction l as [|a l IH]; cbn; [reflexivity|].
  destruct (p a); cbn; [discriminate|exact IH].
Qed.

Lemma filter_nil_existsb {A} (p : A -> bool) (l : list A) :
  List.filter p l = [] <-> existsb p l = false.
Proof.
  induction l as [|a l IH]; cbn; [tauto|].
  destruct (p a); cbn; [split; discriminate|exact IH].
Qed.

(** [slice] returns elements of the list. *)
Lemma In_slice {A} (l : list A) (start stop : Z) (x : A) :
  In x (slice l start stop) -> In x l.
Proof.
  unfold slice. intros H. apply list_elem_of_In in H.
  apply list_elem_of_In.
  eapply subseteq_drop, subseteq_take. exact H.
Qed.

(** A page that starts at [offset >= 0] and holds [limit > 0] elements. *)
Lemma slice_window {A} (l : list A) (offset limit : Z) :
  0 <= offset -> 0 < limit ->
  slice l offset (offset + limit)
  = take (Z.to_nat limit) (drop (Z.to_nat offset) l).
Proof.
  intros Hoff Hlim. unfold slice.
  destruct (Z.ltb_spec offset 0); [lia|].
  destruct (Z.ltb_spec (offset + limit) 0); [lia|].
  destruct (Z.le_gt_cases offset (Z.of_nat (length l))) as [Hin|Hout].
  - rewrite (Z.min_l offset) by lia.
    destruct (Z.le_gt_cases (offset + limit) (Z.of_nat (length l))) as [Hfits|Hcut].
    + rewrite Z.min_l by lia. f_equal. lia.
    + rewrite Z.min_r by lia.
      rewrite (take_ge (drop (Z.to_nat offset) l)
                 (Z.to_nat (Z.of_nat (length l) - offset)))
        by (rewrite length_drop; lia).
      now rewrite take_ge by (rewrite length_drop; lia).
  - rewrite !Z.min_r by lia. rewrite Z.sub_diag.
    change (Z.to_nat 0) with 0%nat. rewrite take_0.
    rewrite (drop_ge l (Z.to_nat offset)) by lia. now rewrite take_nil.
Qed.

Lemma In_sort {A} (compare : A -> A -> Z) (l : list A) (x : A) :
  In x (sort compare l) <-> In x l.
Proof.
  rewrite <- !list_elem_of_In. now rewrite QueryFacts.sort_Permutation.
Qed.

(** Sorting by a comparator that follows a numbering of the elements puts
    the elements in the order of their numbers. *)
Section SortedByRank.

Context {A : Type} (compare : A -> A -> Z) (le : A -> A -> Prop).
Hypothesis le_trans : forall a b c, le a b -> le b c -> le a c.
Hypothesis compare_le : forall a b, compare a b <= 0 -> le a b.
Hypothesis compare_gt : forall a b, 0 < compare a b -> le b a.

Lemma insert_sorted_sorted (a : A) (l : list A) :
  StronglySorted le l -> StronglySorted le (insert_sorted compare a l).
Proof.
  induction 1 as [|b l Hl IH Hb]; cbn; [repeat constructor|].
  destruct (Z.leb_spec (compare a b) 0) as [Hle|Hgt].
  - constructor; [now constructor|].
    constructor; [now apply compare_le|].
    rewrite List.Forall_forall in *. intros x Hx.
    eapply le_trans; [apply compare_le; exact Hle|now apply Hb].
  - constructor; [exact IH|].
    rewrite List.Forall_forall in *. intros x Hx.
    apply list_elem_of_In in Hx.
    rewrite QueryFacts.insert_sorted_Permutation in Hx.
    apply list_elem_of_In in Hx. destruct Hx as [<-|Hx].
    + now apply compare_gt.
    + now apply Hb.
Qed.

Lemma sort_sorted (l : list A) : StronglySorted le (sort compare l).
Proof.
  induction l as [|a l IH]; cbn; [constructor|].
  now apply insert_sorted_sorted.
Qed.

End SortedByRank.

(** The same when the comparator follows the numbering on the elements of
    the list only. *)
Section SortedWithin.

Context {A : Type} (compare : A -> A -> Z) (le : A -> A -> Prop) (P : A -> Prop).
Hypothesis le_trans : forall a b c, le a b -> le b c -> le a c.
Hypothesis compare_le : forall a b, P a -> P b -> compare a b <= 0 -> le a b.
Hypothesis compare_gt : forall a b, P a -> P b -> 0 < compare a b -> le b a.

Lemma insert_sorted_within (a : A) (l : list A) :
  P a -> List.Forall P l ->
  StronglySorted le l -> StronglySorted le (insert_sorted compare a l).
Proof.
  intros Ha HP Hs. induction Hs as [|b l Hl IH Hb]; cbn; [repeat constructor|].
  inversion HP as [|? ? HPb HPl]; subst.
  destruct (Z.leb_spec (compare a b) 0) as [Hle|Hgt].
  - constructor; [now constructor|].
    constructor; [now apply compare_le|].
    rewrite List.Forall_forall in *. intros x Hx.
    eapply le_trans; [apply compare_le; [exact Ha|exact HPb|exact Hle]|now apply Hb].
  - constructor; [now apply IH|].
    rewrite List.Forall_forall in *. intros x Hx.
    apply list_elem_of_In in Hx.
    rewrite QueryFacts.insert_sorted_Permutation in Hx.
    apply list_elem_of_In in Hx. destruct Hx as [<-|Hx].
    + now apply compare_gt.
    + now apply Hb.
Qed.

Lemma sort_within (l : list A) :
  List.Forall P l -> StronglySorted le (sort compare l).
Proof.
  induction l as [|a l IH]; [constructor|].
  change (sort compare (a :: l)) with (insert_sorted compare a (sort compare l)).
  intros HP. inversion HP as [|? ? Ha Hl]; subst.
  apply insert_sorted_within; [exact Ha| |now apply IH].
  rewrite List.Forall_forall in *. intros x Hx. apply Hl.
  apply list_elem_of_In. apply list_elem_of_In in Hx.
  now rewrite QueryFacts.sort_Permutation in Hx.
Qed.

End SortedWithin.

(** In a strongly sorted list every element is related to those after it. *)
Lemma sorted_split {A} (le : A -> A -> Prop) (l1 l2 : list A) (a : A) :
  StronglySorted le (l1 ++ a :: l2) -> List.Forall (le a) l2.
Proof.
  induction l1 as [|b l1 IH]; cbn; intros H; inversion H; subst; auto.
Qed.

(** *** The order of strings *)

Lemma ascii_compare_trans (a b c : ascii) :
  Ascii.compare a b <> Gt -> Ascii.compare b c <> Gt -> Ascii.compare a c <> Gt.
Proof.
  unfold Ascii.compare. rewrite !N.compare_le_iff. lia.
Qed.

Lemma ascii_compare_Eq (a b : ascii) : Ascii.compare a b = Eq <-> a = b.
Proof.
  split; [apply Ascii.compare_eq_iff|].
  intros ->. unfold Ascii.compare. apply N.compare_refl.
Qed.

Lemma ascii_compare_Lt_trans (a b c : ascii) :
  Ascii.compare a b = Lt -> Ascii.compare b c = Lt -> Ascii.compare a c = Lt.
Proof.
  unfold Ascii.compare. rewrite !N.compare_lt_iff. lia.
Qed.

Lemma string_leb_trans (a b c : string) :
  String.leb a b = true -> String.leb b c = true -> String.leb a c = true.
Proof.
  unfold String.leb. revert b c.
  induction a as [|x a IH]; intros [|y b] [|z c]; cbn; try congruence.
  destruct (Ascii.compare x y) eqn:Hxy; try congruence;
    destruct (Ascii.compare y z) eqn:Hyz; try congruence.
  - apply ascii_compare_Eq in Hxy, Hyz. subst.
    rewrite (proj2 (ascii_compare_Eq z z) eq_refl). apply IH.
  - apply ascii_compare_Eq in Hxy. subst. now rewrite Hyz.
  - apply ascii_compare_Eq in Hyz. subst. now rewrite Hxy.
  - now rewrite (ascii_compare_Lt_trans _ _ _ Hxy Hyz).
Qed.

Lemma string_ltb_false (a b : string) :
  String.ltb b a = false <-> String.leb a b = true.
Proof.
  unfold String.ltb, String.leb. rewrite (String.compare_antisym a b).
  destruct (String.compare b a); cbn; split; congruence.
Qed.

Lemma string_ltb_leb (a b : string) :
  String.ltb a b = true -> String.leb a b = true.
Proof.
  unfold String.ltb, String.leb. destruct (String.compare a b); congruence.
Qed.

End ListFacts.

(** ** TaskRepository: create, update and delete *)

Module RepositoryOps.
Import TaskRepository.

(** X9: for an id that no row of the collection carries, [delete(id)]
    returns [false] and [update(id, updates)] returns [null]; each loads the
    collection once and changes nothing else: no [save], the same rows, the
    same cache. *)
Theorem delete_and_update_of_missing_id
    (id : string) (updates : list Updates.entry) (now : Z) (fresh : string)
    (repo : t) :
  existsb (has_id id) (persisted repo) = false ->
  delete id repo = (false, snd (_getAllTasks repo))
  /\ update id updates now fresh repo = (Ok None, snd (_getAllTasks repo))
  /\ persisted (snd (_getAllTasks repo)) = persisted repo
  /\ saves (snd (_getAllTasks repo)) = saves repo
  /\ loads (snd (_getAllTasks repo)) = S (loads repo)
  /\ _cache (snd (_getAllTasks repo)) = _cache repo.
Proof.
  intros Habsent. apply ListFacts.findIndex_None in Habsent.
  unfold delete, update. cbn. rewrite Habsent. repeat split.
Qed.

Lemma delete_and_update_of_missing_id_witness :
  existsb (has_id "t7") (persisted Samples.repo_t1) = false
  /\ fst (delete "t7" Samples.repo_t1) = false
  /\ fst (update "t7" [Updates.title "B"] 900 "x" Samples.repo_t1) = Ok None.
Proof.
  assert (H : existsb (has_id "t7") (persisted Samples.repo_t1) = false)
    by reflexivity.
  destruct (delete_and_update_of_missing_id "t7" [Updates.title "B"] 900 "x"
              Samples.repo_t1 H) as (Hdelete & Hupdate & _).
  split; [exact H|]. now rewrite Hdelete, Hupdate.
Defined.

(** X10: when exactly one row carries the id, [delete(id)] returns [true],
    saves the collection without that row and with every other row in
    place, and evicts the cache entry; a [findById(id)] that follows returns
    [null], whatever the instant. *)
Theorem delete_then_findById (id : string) (repo : t) :
  length (List.filter (has_id id) (persisted repo)) = 1%nat ->
  let '(deleted, repo') := delete id repo in
  deleted = true
  /\ (exists before row after,
        persisted repo = before ++ row :: after
        /\ has_id id row = true
        /\ persisted repo' = before ++ after)
  /\ saves repo' = S (saves repo)
  /\ _cache repo' = base.delete id (_cache repo)
  /\ existsb (has_id id) (persisted repo') = false
  /\ forall now fresh, fst (findById id now fresh repo') = Ok None.
Proof.
  intros Hone. unfold delete. cbn.
  destruct (findIndex (has_id id) (persisted repo)) as [i|] eqn:Hi.
  - apply ListFacts.findIndex_Some in Hi
      as (before & row & after & Hrows & <- & Hrow & Hbefore & _).
    rewrite Hrows in *. rewrite ListFacts.delete_middle_eq. cbn.
    assert (Hafter : existsb (has_id id) after = false).
    { rewrite List.filter_app in Hone. cbn in Hone. rewrite Hrow in Hone.
      apply ListFacts.filter_nil_existsb in Hbefore. rewrite Hbefore in Hone.
      cbn in Hone. apply ListFacts.filter_nil_existsb.
      destruct (List.filter (has_id id) after); [reflexivity|discriminate]. }
    assert (Hgone : existsb (has_id id) (before ++ after) = false)
      by (rewrite existsb_app, Hbefore, Hafter; reflexivity).
    split; [reflexivity|]. split; [exists before, row, after; auto|].
    split; [reflexivity|]. split; [reflexivity|]. split; [exact Hgone|].
    intros now fresh. unfold findById, _getFromCache, Cache._getFromCache. cbn.
    rewrite lookup_delete_eq. cbn.
    now rewrite (ListFacts.find_none_existsb _ _ Hgone).
  - apply ListFacts.findIndex_None, ListFacts.filter_nil_existsb in Hi.
    rewrite Hi in Hone. discriminate.
Qed.

Lemma delete_then_findById_witness :
  length (List.filter (has_id "t1") (persisted Samples.repo_created)) = 1%nat
  /\ fst (delete "t1" Samples.repo_created) = true
  /\ fst (findById "t1" 150 "x" (snd (delete "t1" Samples.repo_created))) = Ok None.
Proof.
  assert (H : length (List.filter (has_id "t1") (persisted Samples.repo_created))
              = 1%nat) by reflexivity.
  split; [exact H|].
  pose proof (delete_then_findById "t1" Samples.repo_created H) as Hdelete.
  destruct (delete "t1" Samples.repo_created) as [deleted repo'].
  destruct Hdelete as (-> & _ & _ & _ & _ & Hfind). split; [reflexivity|].
  apply Hfind.
Defined.

(** X11: a successful [create] has appended the plain object of the task as
    the last row, after one load and with one save; no row carried the id
    before, so the new row is the only one that [findById] can load for it;
    and the cache entry of the id holds the task with the instant of the
    call. *)
Theorem create_appends_one_row (task saved : Task.t) (now : Z) (repo repo' : t) :
  create task now repo = (Ok saved, repo') ->
  saved = task
  /\ existsb (has_id (Task._id task)) (persisted repo) = false
  /\ (exists row,
        Task.toJSON task = Ok row
        /\ persisted repo' = persisted repo ++ [row]
        /\ List.find (has_id (Task._id task)) (persisted repo') = Some row)
  /\ loads repo' = S (loads repo)
  /\ saves repo' = S (saves repo)
  /\ _cache repo'
     = <[Task._id task := {| Cache.data := task; Cache.timestamp := now |}]>
         (_cache repo).
Proof.
  unfold create. destruct (_validateTask task); [|intros [=]].
  destruct (negb (Js.truthy (Task._id task))); [intros [=]|].
  cbn. destruct (existsb _ _) eqn:Hnew; [intros [=]|].
  destruct (Task.toJSON task) as [row|] eqn:Hrow; [|intros [=]].
  intros [= <- <-]. cbn. split; [reflexivity|]. split; [reflexivity|].
  split; [|auto]. exists row. split; [reflexivity|]. split; [reflexivity|].
  rewrite (ListFacts.find_app_none _ _ _ Hnew). cbn.
  unfold Task.toJSON in Hrow.
  destruct (Task.iso_or_null (Task._dueDate task)); [|discriminate].
  destruct (Js.toISOString (Task._createdAt task)); [|discriminate].
  destruct (Js.toISOString (Task._updatedAt task)); [|discriminate].
  destruct (Task.iso_or_null (Task._completedAt task)); [|discriminate].
  cbn in Hrow. injection Hrow as <-. unfold has_id. cbn.
  now rewrite String.eqb_refl.
Qed.

Lemma create_appends_one_row_witness :
  create Samples.task_t1 100 Samples.repo_empty
  = (Ok Samples.task_t1, Samples.repo_created)
  /\ loads Samples.repo_created = 1%nat
  /\ saves Samples.repo_created = 1%nat.
Proof.
  assert (H : create Samples.task_t1 100 Samples.repo_empty
              = (Ok Samples.task_t1, Samples.repo_created)) by reflexivity.
  split; [exact H|].
  destruct (create_appends_one_row _ _ _ _ _ H) as (_ & _ & _ & Hloads & Hsaves & _).
  now rewrite Hloads, Hsaves.
Defined.

(** What the steps of a successful [update] were. *)
Lemma update_steps (id : string) (updates : list Updates.entry) (now : Z)
    (fresh : string) (task : Task.t) (repo repo' : t) :
  update id updates now fresh repo = (Ok (Some task), repo') ->
  exists before old after hydrated patched row,
    persisted repo = before ++ old :: after
    /\ has_id id old = true
    /\ existsb (has_id id) before = false
    /\ Task.fromJSON old now fresh = Ok hydrated
    /\ Updates.apply now updates hydrated = Ok patched
    /\ task = Task.set_updatedAt (Js.DateAt now) patched
    /\ Task.toJSON task = Ok row
    /\ persisted repo' = before ++ row :: after
    /\ loads repo' = S (loads repo)
    /\ saves repo' = S (saves repo)
    /\ _cache repo'
       = <[id := {| Cache.data := task; Cache.timestamp := now |}]> (_cache repo).
Proof.
  unfold update. cbn.
  destruct (findIndex (has_id id) (persisted repo)) as [i|] eqn:Hi; [|intros [=]].
  apply ListFacts.findIndex_Some in Hi
    as (before & old & after & Hrows & <- & Hold & Hbefore & _).
  rewrite Hrows, ListFacts.lookup_middle_eq. cbn [bindR].
  unfold _hydrateTask.
  destruct (Task.fromJSON old now fresh) as [hydrated|] eqn:Hh; cbn [bindR];
    [|intros [=]].
  destruct (Updates.apply now updates hydrated) as [patched|] eqn:Hp; cbn [bindR];
    [|intros [=]].
  destruct (Task.toJSON (Task.set_updatedAt (Js.DateAt now) patched)) as [row|] eqn:Hr;
    cbn [bindR]; [|intros [=]].
  intros [= <- <-]. rewrite ListFacts.insert_middle_eq.
  exists before, old, after, hydrated, patched, row. cbn. repeat split; auto.
Qed.

(** X12: a successful [update] rewrites one row only, the first that
    carries the id: the collection keeps its length and every other row.
    The task it returns, and the row it saves, are stamped with the instant of
    the call, whatever the updates say about [updatedAt]. *)
Theorem update_rewrites_one_row (id : string) (updates : list Updates.entry)
    (now : Z) (fresh : string) (task : Task.t) (repo repo' : t) :
  update id updates now fresh repo = (Ok (Some task), repo') ->
  Task._updatedAt task = Js.DateAt now
  /\ length (persisted repo') = length (persisted repo)
  /\ exists before old after row,
       persisted repo = before ++ old :: after
       /\ persisted repo' = before ++ row :: after
       /\ has_id id old = true
       /\ existsb (has_id id) before = false
       /\ Task.toJSON task = Ok row
       /\ TaskData.updatedAt row = Some (Js.ISO now).
Proof.
  intros H. apply update_steps in H
    as (before & old & after & hydrated & patched & row & Hrows & Hold & Hbefore
        & _ & _ & -> & Hrow & Hrows' & _).
  split; [now destruct patched|].
  split; [rewrite Hrows, Hrows', !length_app; reflexivity|].
  exists before, old, after, row. repeat split; auto.
  unfold Task.toJSON in Hrow.
  destruct (Task.iso_or_null _); [|discriminate].
  destruct (Js.toISOString (Task._createdAt _)); [|discriminate].
  cbn [bindR] in Hrow. destruct patched; cbn in Hrow.
  destruct (Task.iso_or_null _); [|discriminate].
  cbn in Hrow. now injection Hrow as <-.
Qed.

Lemma update_rewrites_one_row_witness :
  update "t1" [Updates.updatedAt (Js.DateAt 5); Updates.title " B "] 2000 "x"
    Samples.repo_t1
  = (Ok (Some (Task.set_updatedAt (Js.DateAt 2000)
                 (Task.set_title "B" Samples.task_t1))),
     snd (update "t1" [Updates.updatedAt (Js.DateAt 5); Updates.title " B "]
            2000 "x" Samples.repo_t1))
  /\ length (persisted (snd (update "t1"
                               [Updates.updatedAt (Js.DateAt 5); Updates.title " B "]
                               2000 "x" Samples.repo_t1))) = 1%nat.
Proof.
  assert (H : update "t1" [Updates.updatedAt (Js.DateAt 5); Updates.title " B "]
                2000 "x" Samples.repo_t1
              = (Ok (Some (Task.set_updatedAt (Js.DateAt 2000)
                             (Task.set_title "B" Samples.task_t1))),
                 snd (update "t1"
                        [Updates.updatedAt (Js.DateAt 5); Updates.title " B "]
                        2000 "x" Samples.repo_t1))) by reflexivity.
  split; [exact H|].
  destruct (update_rewrites_one_row _ _ _ _ _ _ _ H) as (_ & Hlength & _).
  now rewrite Hlength.
Defined.

(** X13: an [update] that throws (a row that does not hydrate, a value
    that a mutator refuses, a date that does not serialise) has loaded the
    collection once and written nothing: the rows are those of before, there
    was no [save], and the cache is untouched, also when earlier entries of
    the same call had been applied to the task in memory. *)
Theorem update_that_throws_writes_nothing
    (id : string) (updates : list Updates.entry) (now : Z) (fresh : string)
    (e : JsError) (repo repo' : t) :
  update id updates now fresh repo = (Throw e, repo') ->
  repo' = snd (_getAllTasks repo)
  /\ persisted repo' = persisted repo
  /\ saves repo' = saves repo
  /\ _cache repo' = _cache repo.
Proof.
  unfold update. cbn.
  destruct (findIndex (has_id id) (persisted repo)) as [i|]; [|intros [=]].
  match goal with
  | |- (match ?step with _ => _ end) = _ -> _ => destruct step as [[task row]|]
  end; intros [= <- <-]; auto.
Qed.

Lemma update_that_throws_writes_nothing_witness :
  exists e repo',
    update "t1" [Updates.title "B"; Updates.status "done"] 2000 "x" Samples.repo_t1
    = (Throw e, repo')
    /\ persisted repo' = persisted Samples.repo_t1
    /\ saves repo' = saves Samples.repo_t1.
Proof.
  eexists. eexists.
  assert (H : update "t1" [Updates.title "B"; Updates.status "done"] 2000 "x"
                Samples.repo_t1
              = (Throw (Error ("Invalid status: done. Must be one of: "
                               ++ Js.join ", " Task.validStatuses)),
                 snd (_getAllTasks Samples.repo_t1))) by reflexivity.
  split; [exact H|].
  destruct (update_that_throws_writes_nothing _ _ _ _ _ _ _ H) as (_ & Hrows & Hsaves & _).
  split; assumption.
Defined.

(** The keys that name the identity of a task, in both spellings. *)
Lemma apply_entry_identity (now : Z) (u : Updates.entry) (task task' : Task.t) :
  Js.includes ["id"; "createdAt"; "userId"; "_id"; "_createdAt"; "_userId"]
    (Updates.key u) = false ->
  Updates.apply_entry now u task = Ok task' ->
  Task._id task' = Task._id task
  /\ Task._createdAt task' = Task._createdAt task
  /\ Task._userId task' = Task._userId task.
Proof.
  intros Hkey H.
  destruct u as [w| | | | | | | | | | | | | | | | | | |];
    [destruct w; try discriminate Hkey;
     injection H as <-; destruct task; cbn; auto|..];
    try discriminate Hkey;
    try (injection H as <-; destruct task; cbn; auto).
  - change (Task.updateTitle v now task = Ok task') in H.
    unfold Task.updateTitle in H. UpdateFacts.steps. now destruct task.
  - change (Task.updatePriority v now task = Ok task') in H.
    unfold Task.updatePriority, Task._validatePriority in H. UpdateFacts.steps.
    now destruct task.
  - change (Task.setCategory v now task = Ok task') in H.
    unfold Task.setCategory, Task._validateCategory in H. UpdateFacts.steps.
    now destruct task.
  - change (Task.setDueDate v now task = Ok task') in H.
    unfold Task.setDueDate in H. UpdateFacts.steps; now destruct task.
  - change (Task.setEstimatedHours v now task = Ok task') in H.
    unfold Task.setEstimatedHours, Task._validateHours in H. UpdateFacts.steps;
      now destruct task.
  - change (Task.setActualHours v now task = Ok task') in H.
    unfold Task.setActualHours, Task._validateHours in H. UpdateFacts.steps;
      now destruct task.
  - change (Task.setStatus v now task = Ok task') in H.
    unfold Task.setStatus, Task._validateStatus, Task.markComplete,
      Task.markIncomplete in H.
    destruct (negb (Js.includes Task.validStatuses v)); [discriminate|].
    cbn [bindR] in H. destruct task as [? ? ? ? ? completed ? ? ? ? ? ? ? ? ? ? ? ? ?].
    cbn in H. destruct (String.eqb v "completed"), completed; cbn in H;
      injection H as <-; cbn; auto.
Qed.

Lemma apply_identity (now : Z) (updates : list Updates.entry) (task task' : Task.t) :
  forallb (fun u => negb (Js.includes ["id"; "createdAt"; "userId"; "_id";
                                       "_createdAt"; "_userId"] (Updates.key u)))
    updates = true ->
  Updates.apply now updates task = Ok task' ->
  Task._id task' = Task._id task
  /\ Task._createdAt task' = Task._createdAt task
  /\ Task._userId task' = Task._userId task.
Proof.
  revert task. induction updates as [|u updates IH]; cbn; intros task Hkeys H.
  - injection H as <-. auto.
  - apply andb_prop in Hkeys as [Hu Hrest]. apply negb_true_iff in Hu.
    destruct (Updates.apply_entry now u task) as [task1|] eqn:E; [|discriminate].
    cbn in H. destruct (apply_entry_identity _ _ _ _ Hu E) as (Hi & Hc & Ho).
    destruct (IH task1 Hrest H) as (Hi' & Hc' & Ho').
    repeat split; congruence.
Qed.

Lemma fromJSON_id (id : string) (row : TaskData.t) (now : Z) (fresh : string)
    (task : Task.t) :
  has_id id row = true -> id <> "" ->
  Task.fromJSON row now fresh = Ok task ->
  Task._id task = id.
Proof.
  unfold has_id, Task.fromJSON, Task.constructor. intros Hrow Hid H.
  destruct (TaskData.id row) as [x|] eqn:Hx; [|discriminate].
  apply String.eqb_eq in Hrow. subst x.
  UpdateFacts.steps. cbn. rewrite Hx. now apply JsFacts.or_else_truthy.
Qed.

(** X14: a task keeps its identity through [update] unless the updates name
    it: when no key is [id], [createdAt] or [userId], nor the own property
    [_id], [_createdAt] or [_userId], the task that a successful
    [update(id, updates)] returns has the id that was asked for and the owner
    and creation instant of the stored row.  (An [updates] that does carry
    one of these six keys overwrites the field: none of them has a
    mutator.) *)
Theorem update_keeps_identity (id : string) (updates : list Updates.entry)
    (now : Z) (fresh : string) (task : Task.t) (repo repo' : t) :
  id <> "" ->
  forallb (fun u => negb (Js.includes ["id"; "createdAt"; "userId"; "_id";
                                       "_createdAt"; "_userId"] (Updates.key u)))
    updates = true ->
  update id updates now fresh repo = (Ok (Some task), repo') ->
  Task._id task = id
  /\ exists old stored,
       List.find (has_id id) (persisted repo) = Some old
       /\ Task.fromJSON old now fresh = Ok stored
       /\ Task._userId task = Task._userId stored
       /\ Task._createdAt task = Task._createdAt stored.
Proof.
  intros Hid Hkeys H. apply update_steps in H
    as (before & old & after & hydrated & patched & row & Hrows & Hold & Hbefore
        & Hhydrated & Hpatched & -> & _).
  destruct (apply_identity _ _ _ _ Hkeys Hpatched) as (Hi & Hc & Hu).
  split.
  - rewrite <- (fromJSON_id id old now fresh hydrated Hold Hid Hhydrated).
    now destruct patched.
  - exists old, hydrated. rewrite Hrows, (ListFacts.find_app_none _ _ _ Hbefore).
    cbn. rewrite Hold. repeat split; auto; now destruct patched.
Qed.

Lemma update_keeps_identity_witness :
  "t1" <> ""
  /\ Task._id (Task.set_updatedAt (Js.DateAt 2000) (Task.set_title "B" Samples.task_t1))
     = "t1"
  /\ fst (update "t1" [Updates.userId "u7"] 2000 "x" Samples.repo_t1)
     = Ok (Some (Task.set_updatedAt (Js.DateAt 2000)
                   (Task.set_userId "u7" Samples.task_t1)))
  /\ fst (update "t1" [Updates.own (Updates.own_id "zz")] 2000 "x" Samples.repo_t1)
     = Ok (Some (Task.set_updatedAt (Js.DateAt 2000)
                   (Task.set_id "zz" Samples.task_t1))).
Proof.
  assert (H1 : "t1" <> "") by discriminate.
  assert (H : update "t1" [Updates.title " B "] 2000 "x" Samples.repo_t1
              = (Ok (Some (Task.set_updatedAt (Js.DateAt 2000)
                             (Task.set_title "B" Samples.task_t1))),
                 snd (update "t1" [Updates.title " B "] 2000 "x" Samples.repo_t1)))
    by reflexivity.
  split; [exact H1|]. split; [|split; reflexivity].
  exact (proj1 (update_keeps_identity "t1" [Updates.title " B "] 2000 "x" _
                  Samples.repo_t1 _ H1 eq_refl H)).
Defined.

End RepositoryOps.

(** ** TaskRepository: queries *)

Module QueryOps.
Import TaskRepository.

Lemma mapR_In {A B} (f : A -> Result B) (l : list A) (l' : list B) (y : B) :
  mapR f l = Ok l' -> In y l' -> exists x, In x l /\ f x = Ok y.
Proof.
  revert l'. induction l as [|a l IH]; cbn; intros l'.
  - intros [= <-] [].
  - destruct (f a) as [b|] eqn:Hb; cbn; [|discriminate].
    destruct (mapR f l) as [bs|]; cbn; [|discriminate].
    intros [= <-] [<-|Hin].
    + exists a. auto.
    + destruct (IH bs eq_refl Hin) as (x & Hx & Hfx). exists x. auto.
Qed.

Lemma mapR_length {A B} (f : A -> Result B) (l : list A) (l' : list B) :
  mapR f l = Ok l' -> length l' = length l.
Proof.
  revert l'. induction l as [|a l IH]; cbn; intros l'; [now intros [= <-]|].
  destruct (f a); cbn; [|discriminate].
  destruct (mapR f l) as [bs|]; cbn; [|discriminate].
  intros [= <-]. cbn. now rewrite (IH bs).
Qed.

Lemma filter_string_In (f : Task.t -> string) (o : option string)
    (l : list Task.t) (task : Task.t) :
  In task (filter_string f o l) ->
  In task l /\ forall v, o = Some v -> v <> "" -> f task = v.
Proof.
  unfold filter_string. destruct o as [v|].
  - destruct (Js.truthy v) eqn:Hv.
    + rewrite filter_In. intros [Hin Heq]. apply String.eqb_eq in Heq.
      split; [exact Hin|]. now intros ? [= <-] _.
    + apply JsFacts.truthy_false in Hv. intros Hin. split; [exact Hin|].
      intros ? [= <-] Hne. contradiction.
  - intros Hin. split; [exact Hin|]. discriminate.
Qed.

(** The tasks that the passes of [findAll] let through. *)
Lemma query_In (options : FindOptions) (l : list Task.t) (task : Task.t) :
  In task (query options l) ->
  In task l
  /\ (forall v, userId options = Some v -> v <> "" -> Task._userId task = v)
  /\ (forall c, completed options = Some c -> Task._completed task = c)
  /\ (forall v, priority options = Some v -> v <> "" -> Task._priority task = v)
  /\ (forall v, category options = Some v -> v <> "" -> Task._category task = v)
  /\ (forall v, assignedTo options = Some v -> v <> "" -> Task._assignedTo task = v).
Proof.
  unfold query. intros H.
  assert (Hsorted : In task
    match sortBy options with
    | Some k =>
        _sortTasks
          (filter_string Task._assignedTo (assignedTo options)
             (filter_string Task._category (category options)
                (filter_string Task._priority (priority options)
                   match completed options with
                   | Some c =>
                       List.filter (fun task => Bool.eqb (Task._completed task) c)
                         (filter_string Task._userId (userId options) l)
                   | None => filter_string Task._userId (userId options) l
                   end))) k (sortOrder options)
    | None =>
        filter_string Task._assignedTo (assignedTo options)
          (filter_string Task._category (category options)
             (filter_string Task._priority (priority options)
                match completed options with
                | Some c =>
                    List.filter (fun task => Bool.eqb (Task._completed task) c)
                      (filter_string Task._userId (userId options) l)
                | None => filter_string Task._userId (userId options) l
                end))
    end).
  { destruct (truthy_number (limit options) || truthy_number (offset options));
      [|exact H]. eapply ListFacts.In_slice. exact H. }
  clear H.
  assert (Hfiltered : In task
    (filter_string Task._assignedTo (assignedTo options)
       (filter_string Task._category (category options)
          (filter_string Task._priority (priority options)
             match completed options with
             | Some c =>
                 List.filter (fun task => Bool.eqb (Task._completed task) c)
                   (filter_string Task._userId (userId options) l)
             | None => filter_string Task._userId (userId options) l
             end)))).
  { destruct (sortBy options); [|exact Hsorted].
    unfold _sortTasks in Hsorted. now apply ListFacts.In_sort in Hsorted. }
  clear Hsorted.
  apply filter_string_In in Hfiltered as [Hin Hassigned].
  apply filter_string_In in Hin as [Hin Hcategory].
  apply filter_string_In in Hin as [Hin Hpriority].
  assert (Hcompleted : In task (filter_string Task._userId (userId options) l)
                       /\ forall c, completed options = Some c ->
                                    Task._completed task = c).
  { destruct (completed options) as [c|].
    - apply filter_In in Hin as [Hin Hc]. split; [exact Hin|].
      intros ? [= <-]. now apply Bool.eqb_prop.
    - split; [exact Hin|]. discriminate. }
  destruct Hcompleted as [Hin' Hcompleted].
  apply filter_string_In in Hin' as [Hin' Huser]. auto 10.
Qed.

(** X15: [findAll] only reads: it loads the collection once and leaves the
    cache alone.  Every task it returns is the hydration of a stored row and
    matches every filter that was supplied with a non-empty value: owner,
    completion flag, priority, category and assignee together. *)
Theorem findAll_returns_matching_tasks
    (options : FindOptions) (now : Z) (fresh : string) (tasks : list Task.t)
    (repo repo' : t) :
  findAll options now fresh repo = (Ok tasks, repo') ->
  repo' = snd (_getAllTasks repo)
  /\ saves repo' = saves repo /\ _cache repo' = _cache repo
  /\ forall task, In task tasks ->
       (exists row, In row (persisted repo) /\ Task.fromJSON row now fresh = Ok task)
       /\ (forall v, userId options = Some v -> v <> "" -> Task._userId task = v)
       /\ (forall c, completed options = Some c -> Task._completed task = c)
       /\ (forall v, priority options = Some v -> v <> "" -> Task._priority task = v)
       /\ (forall v, category options = Some v -> v <> "" -> Task._category task = v)
       /\ (forall v, assignedTo options = Some v -> v <> "" ->
                     Task._assignedTo task = v).
Proof.
  unfold findAll. cbn.
  destruct (mapR _ (persisted repo)) as [hydrated|] eqn:Hmap; [|intros [=]].
  intros [= <- <-]. cbn.
  split; [reflexivity|]. split; [reflexivity|]. split; [reflexivity|].
  intros task Hin. apply query_In in Hin as (Hin & Hrest).
  split; [|exact Hrest].
  destruct (mapR_In _ _ _ _ Hmap Hin) as (row & Hrow & Hhydrate).
  exists row. auto.
Qed.

Lemma findAll_returns_matching_tasks_witness :
  findAll (filters (Some "u1") (Some false) None None None) 900 "x" Samples.repo_three
  = (Ok [Samples.task_with "a" "low"; Samples.task_with "b" "urgent";
         Samples.task_with "c" "medium"],
     snd (_getAllTasks Samples.repo_three))
  /\ saves (snd (_getAllTasks Samples.repo_three)) = saves Samples.repo_three.
Proof.
  assert (H : findAll (filters (Some "u1") (Some false) None None None) 900 "x"
                Samples.repo_three
              = (Ok [Samples.task_with "a" "low"; Samples.task_with "b" "urgent";
                     Samples.task_with "c" "medium"],
                 snd (_getAllTasks Samples.repo_three))) by reflexivity.
  split; [exact H|].
  exact (proj1 (proj2 (findAll_returns_matching_tasks _ _ _ _ _ _ H))).
Defined.

(** X16: pagination cuts the filtered and sorted list: with an offset
    [k >= 0] and a limit [n > 0] the result is the [n] tasks after the first
    [k], so never more than [n]; a limit of 0 counts as no limit, and the
    result is everything after the first [k]. *)
Theorem findAll_pagination (u p c a : option string) (done : option bool)
    (by_key : option SortKey) (order : option string) (n k : Z)
    (l : list Task.t) :
  0 <= n -> 0 <= k ->
  let page :=
    query {| userId := u; completed := done; priority := p; category := c;
             assignedTo := a; sortBy := by_key; sortOrder := order;
             limit := Some n; offset := Some k |} l in
  let everything :=
    query {| userId := u; completed := done; priority := p; category := c;
             assignedTo := a; sortBy := by_key; sortOrder := order;
             limit := None; offset := None |} l in
  page = (if n =? 0 then drop (Z.to_nat k) everything
          else take (Z.to_nat n) (drop (Z.to_nat k) everything))
  /\ (0 < n -> (length page <= Z.to_nat n)%nat).
Proof.
  intros Hn Hk. cbn zeta. unfold query. cbn [userId completed priority category
    assignedTo sortBy sortOrder limit offset truthy_number default from_option id orb].
  set (everything := match by_key with
                     | Some key => _sortTasks _ key order
                     | None => _
                     end).
  assert (Hpage : (if negb (n =? 0) || negb (k =? 0)
                   then slice everything (if negb (k =? 0) then k else 0)
                          ((if negb (k =? 0) then k else 0)
                           + (if negb (n =? 0) then n
                              else Z.of_nat (length everything)))
                   else everything)
                  = if n =? 0 then drop (Z.to_nat k) everything
                    else take (Z.to_nat n) (drop (Z.to_nat k) everything)).
  { destruct (Z.eqb_spec n 0) as [->|Hn0]; destruct (Z.eqb_spec k 0) as [->|Hk0];
      cbn [negb orb].
    - reflexivity.
    - clearbody everything.
      destruct everything as [|x rest];
        [unfold slice; now rewrite !drop_nil, take_nil|].
      rewrite ListFacts.slice_window by (cbn [length]; lia).
      rewrite take_ge; [reflexivity|]. rewrite length_drop. lia.
    - rewrite ListFacts.slice_window by lia. reflexivity.
    - rewrite ListFacts.slice_window by lia. reflexivity. }
  rewrite Hpage. split; [reflexivity|].
  intros Hpos. destruct (Z.eqb_spec n 0); [lia|]. rewrite length_take. lia.
Qed.

Lemma findAll_pagination_witness :
  0 <= 2 /\ 0 <= 1
  /\ query {| userId := None; completed := None; priority := None;
              category := None; assignedTo := None; sortBy := None;
              sortOrder := None; limit := Some 2; offset := Some 1 |}
       [Samples.task_t1; Samples.task_urgent; Samples.task_t1_flagged;
        Samples.task_t1_busy]
     = [Samples.task_urgent; Samples.task_t1_flagged].
Proof.
  assert (H1 : 0 <= 2) by lia. assert (H2 : 0 <= 1) by lia.
  split; [exact H1|]. split; [exact H2|].
  now rewrite (proj1 (findAll_pagination None None None None None None None 2 1
                        [Samples.task_t1; Samples.task_urgent;
                         Samples.task_t1_flagged; Samples.task_t1_busy] H1 H2)).
Defined.

End QueryOps.

(** ** TaskRepository: sorting *)

Module SortOps.
Import TaskRepository.

(** The comparator on a property that holds strings. *)
Lemma compare_by_strings (k : SortKey) (field : Task.t -> string)
    (order : string) (a b : Task.t) :
  (forall task, get k task = VString (field task)) ->
  Js.str_includes (sort_key_name k) "Date"
  || Js.str_includes (sort_key_name k) "At" = false ->
  compare_by k order a b
  = let comparison :=
      if String.ltb (Js.toLowerCase (field b)) (Js.toLowerCase (field a)) then 1
      else if String.ltb (Js.toLowerCase (field a)) (Js.toLowerCase (field b))
           then -1 else 0 in
    if String.eqb order "desc" then - comparison else comparison.
Proof.
  intros Hfield Hdate. unfold compare_by. rewrite Hdate, !Hfield. reflexivity.
Qed.

Lemma sorted_by_strings (k : SortKey) (field : Task.t -> string)
    (order : option string) (tasks : list Task.t) :
  (forall task, get k task = VString (field task)) ->
  Js.str_includes (sort_key_name k) "Date"
  || Js.str_includes (sort_key_name k) "At" = false ->
  StronglySorted
    (fun a b =>
       if String.eqb (default "asc" order) "desc"
       then String.leb (Js.toLowerCase (field b)) (Js.toLowerCase (field a)) = true
       else String.leb (Js.toLowerCase (field a)) (Js.toLowerCase (field b)) = true)
    (_sortTasks tasks k order).
Proof.
  intros Hfield Hdate. unfold _sortTasks. apply ListFacts.sort_sorted.
  - intros a b c. destruct (String.eqb _ "desc"); intros H1 H2;
      eapply ListFacts.string_leb_trans; eauto.
  - intros a b. rewrite (compare_by_strings k field _ a b Hfield Hdate). cbn zeta.
    destruct (String.eqb _ "desc");
      destruct (String.ltb (Js.toLowerCase (field b)) (Js.toLowerCase (field a))) eqn:Hgt;
      destruct (String.ltb (Js.toLowerCase (field a)) (Js.toLowerCase (field b))) eqn:Hlt;
      intros Hcmp; try lia;
      try (apply ListFacts.string_ltb_false; assumption);
      try (apply ListFacts.string_ltb_leb; assumption).
  - intros a b. rewrite (compare_by_strings k field _ a b Hfield Hdate). cbn zeta.
    destruct (String.eqb _ "desc");
      destruct (String.ltb (Js.toLowerCase (field b)) (Js.toLowerCase (field a))) eqn:Hgt;
      destruct (String.ltb (Js.toLowerCase (field a)) (Js.toLowerCase (field b))) eqn:Hlt;
      intros Hcmp; try lia;
      try (apply ListFacts.string_ltb_false; assumption);
      try (apply ListFacts.string_ltb_leb; assumption).
Qed.

(** X17: sorting by a property that holds strings (id, title, description,
    priority, category, owner, assignee, status) rearranges the tasks, none
    lost and none repeated, into the order of the lowercased values compared
    by code units: ascending unless the order is [desc], descending when it
    is. *)
Theorem sortTasks_by_string_property (k : SortKey) (field : Task.t -> string)
    (order : option string) (tasks : list Task.t) :
  (forall task, get k task = VString (field task)) ->
  Js.str_includes (sort_key_name k) "Date"
  || Js.str_includes (sort_key_name k) "At" = false ->
  _sortTasks tasks k order ≡ₚ tasks
  /\ StronglySorted
       (fun a b =>
          if String.eqb (default "asc" order) "desc"
          then String.leb (Js.toLowerCase (field b)) (Js.toLowerCase (field a)) = true
          else String.leb (Js.toLowerCase (field a)) (Js.toLowerCase (field b)) = true)
       (_sortTasks tasks k order).
Proof.
  intros Hfield Hdate. split.
  - apply QueryFacts.sort_Permutation.
  - now apply sorted_by_strings.
Qed.

Lemma sortTasks_by_string_property_witness :
  (forall task, get by_title task = VString (Task._title task))
  /\ _sortTasks [Samples.task_with "b" "urgent"; Samples.task_t1] by_id None
     = [Samples.task_with "b" "urgent"; Samples.task_t1]
  /\ _sortTasks [Samples.task_t1; Samples.task_urgent] by_title (Some "desc")
     ≡ₚ [Samples.task_t1; Samples.task_urgent].
Proof.
  assert (H : forall task, get by_title task = VString (Task._title task))
    by reflexivity.
  split; [exact H|]. split; [reflexivity|].
  exact (proj1 (sortTasks_by_string_property by_title Task._title (Some "desc")
                  [Samples.task_t1; Samples.task_urgent] H eq_refl)).
Defined.

(** X18: priorities are sorted as words, not by rank.  In the descending
    order by priority the tasks of priority [high] come last: whatever
    follows a [high] task is [high] too, so every [low] and every [medium]
    task is listed before every [high] one. *)
Theorem descending_priority_lists_high_last
    (tasks before after : list Task.t) (a : Task.t) :
  List.Forall (fun task => In (Task._priority task) Task.validPriorities) tasks ->
  _sortTasks tasks by_priority (Some "desc") = before ++ a :: after ->
  Task._priority a = "high" ->
  List.Forall (fun b => Task._priority b = "high") after.
Proof.
  intros Hvalid Hsorted Ha.
  pose proof (sorted_by_strings by_priority Task._priority (Some "desc") tasks
                ltac:(reflexivity) eq_refl) as Hs.
  rewrite Hsorted in Hs. apply ListFacts.sorted_split in Hs.
  rewrite List.Forall_forall in *. intros b Hb.
  specialize (Hs b Hb). cbn in Hs. rewrite Ha in Hs.
  assert (Hin : In b tasks).
  { apply (ListFacts.In_sort (compare_by by_priority "desc")).
    unfold _sortTasks in Hsorted. cbn in Hsorted. rewrite Hsorted.
    apply in_or_app. right. now right. }
  specialize (Hvalid b Hin). cbn in Hvalid.
  destruct Hvalid as [H|[H|[H|[H|[]]]]]; rewrite <- H in Hs |- *;
    try reflexivity; vm_compute in Hs; discriminate.
Qed.

Lemma descending_priority_lists_high_last_witness :
  _sortTasks [Samples.task_t1; Samples.task_with "a" "low"] by_priority (Some "desc")
  = [] ++ Samples.task_with "a" "low" :: [Samples.task_t1]
  /\ _sortTasks [Samples.task_with "a" "low"; Samples.task_t1; Samples.task_t1_busy]
       by_priority (Some "desc")
     = [Samples.task_with "a" "low"] ++ Samples.task_t1 :: [Samples.task_t1_busy]
  /\ List.Forall (fun b => Task._priority b = "high") [Samples.task_t1_busy].
Proof.
  split; [reflexivity|].
  assert (H : _sortTasks [Samples.task_with "a" "low"; Samples.task_t1;
                          Samples.task_t1_busy] by_priority (Some "desc")
              = [Samples.task_with "a" "low"] ++ Samples.task_t1
                  :: [Samples.task_t1_busy]) by reflexivity.
  split; [exact H|].
  refine (descending_priority_lists_high_last _ _ _ _ _ H eq_refl).
  repeat (apply List.Forall_cons; [cbn; auto 10|]). apply List.Forall_nil.
Defined.

(** X19: [findOverdue] recomputes the overdue test on its own, and the
    test agrees with the [isOverdue] getter: the result is the hydrated
    collection filtered by [isOverdue], completed tasks and tasks without a
    valid due date in the past left out. *)
Theorem findOverdue_agrees_with_isOverdue (now : Z) (fresh : string) (repo : t) :
  (forall task, overdue_at now task = Task.isOverdue now task)
  /\ findOverdue now fresh repo
     = (let* tasks := fst (findAll no_options now fresh repo) in
        Ok (List.filter (Task.isOverdue now) tasks),
        snd (findAll no_options now fresh repo))
  /\ forall tasks task,
       fst (findOverdue now fresh repo) = Ok tasks ->
       In task tasks ->
       Task._completed task = false
       /\ exists due, Task._dueDate task = Some (Js.DateAt due) /\ due < now.
Proof.
  assert (Hsame : forall task, overdue_at now task = Task.isOverdue now task).
  { intros task. unfold overdue_at, Task.isOverdue.
    destruct (Task._completed task); cbn; [now destruct (Task._dueDate task)|].
    destruct (Task._dueDate task) as [[due|]|]; reflexivity. }
  split; [exact Hsame|]. unfold findOverdue.
  destruct (findAll no_options now fresh repo) as [[all|e] repo']; cbn.
  - rewrite (List.filter_ext _ _ Hsame). split; [reflexivity|].
    intros tasks task [= <-] Hin. apply filter_In in Hin as [_ Hoverdue].
    unfold Task.isOverdue in Hoverdue.
    destruct (Task._dueDate task) as [[due|]|]; try discriminate;
      destruct (Task._completed task); try discriminate.
    split; [reflexivity|]. exists due. split; [reflexivity|].
    cbn in Hoverdue. now apply Z.ltb_lt.
  - split; [reflexivity|]. discriminate.
Qed.

End SortOps.

(** ** TaskRepository: statistics *)

Module StatisticsOps.
Import TaskRepository Invariants.

(** Adding up the counts of a [byCategory] object with one property set. *)
Lemma sum_insert (m : gmap string tally) (c : string) (v : tally) :
  (sum_of_counts (<[c := v]> m) + from_option counted 0 (m !! c))%nat
  = (counted v + sum_of_counts m)%nat.
Proof.
  unfold sum_of_counts. destruct (m !! c) as [w|] eqn:Hc; cbn [from_option].
  - rewrite (map_fold_delete_L _ _ c w m) by (intros; lia || exact Hc).
    rewrite <- (insert_delete_eq m).
    rewrite map_fold_insert_L by (intros; lia || apply lookup_delete_eq). lia.
  - rewrite map_fold_insert_L by (intros; lia || exact Hc). lia.
Qed.

Lemma count_category_sum (m : gmap string tally) (task : Task.t) :
  sorted_out m ->
  sorted_out (count_category m task)
  /\ sum_of_counts (count_category m task)
     = (sum_of_counts m + if inherited_name (bucket task) then 0 else 1)%nat.
Proof.
  intros Hm. unfold count_category. cbn zeta.
  assert (Hset : forall v,
             match v with
             | Count _ => inherited_name (bucket task) = false
             | Text _ _ => inherited_name (bucket task) = true
             end ->
             sorted_out (<[bucket task := v]> m)).
  { intros v Hv c w. destruct (String.eqb_spec (bucket task) c) as [<-|Hne].
    - rewrite lookup_insert_eq. now intros [= <-].
    - rewrite lookup_insert_ne by exact Hne. apply Hm. }
  destruct (m !! bucket task) as [[n|name ones]|] eqn:Hc.
  - pose proof (Hm _ _ Hc) as Hplain. cbn in Hplain. split; [now apply Hset|].
    pose proof (sum_insert m (bucket task) (Count (n + 1))) as Hsum.
    rewrite Hc, Hplain in *. cbn in Hsum. lia.
  - pose proof (Hm _ _ Hc) as Hinherited. cbn in Hinherited.
    split; [now apply Hset|].
    pose proof (sum_insert m (bucket task) (Text name (ones + 1))) as Hsum.
    rewrite Hc, Hinherited in *. cbn in Hsum. lia.
  - unfold inherited_name in *.
    destruct (String.eqb (bucket task) "__proto__") eqn:Hproto; cbn [orb].
    + split; [exact Hm|lia].
    + destruct (Js.includes Object_prototype_functions (bucket task)) eqn:Hf.
      * split; [apply Hset; reflexivity|].
        pose proof (sum_insert m (bucket task) (Text (bucket task) 1)) as Hsum.
        rewrite Hc in Hsum. cbn in Hsum. lia.
      * split; [apply Hset; reflexivity|].
        pose proof (sum_insert m (bucket task) (Count 1)) as Hsum.
        rewrite Hc in Hsum. cbn in Hsum. lia.
Qed.

Lemma sum_byCategory (tasks : list Task.t) (m : gmap string tally) :
  sorted_out m ->
  sum_of_counts (foldl count_category m tasks)
  = (sum_of_counts m
     + count (fun t => negb (inherited_name (bucket t))) tasks)%nat.
Proof.
  revert m. induction tasks as [|task tasks IH]; intros m Hm; cbn [foldl].
  - unfold count. cbn. lia.
  - destruct (count_category_sum m task Hm) as [Hm' Hsum].
    rewrite (IH _ Hm'), Hsum, StatisticsFacts.count_cons.
    destruct (inherited_name (bucket task)); cbn [negb]; lia.
Qed.

Lemma count_split (p : Task.t -> bool) (tasks : list Task.t) :
  (count p tasks + count (fun t => negb (p t)) tasks)%nat = length tasks.
Proof.
  induction tasks as [|task tasks IH]; [reflexivity|].
  rewrite !StatisticsFacts.count_cons. cbn [length].
  destruct (p task); cbn [negb]; lia.
Qed.

Lemma count_le (p q : Task.t -> bool) (tasks : list Task.t) :
  (forall task, p task = true -> q task = true) ->
  (count p tasks <= count q tasks)%nat.
Proof.
  intros Hpq. induction tasks as [|task tasks IH]; [reflexivity|].
  rewrite !StatisticsFacts.count_cons.
  destruct (p task) eqn:Hp; [rewrite (Hpq _ Hp)|destruct (q task)]; lia.
Qed.

(** X20: the counts of the statistics add up.  [total] is [completed] plus
    [pending]; an overdue task is a pending one, so [overdue] is at most
    [pending]; [byPriority] leaves out exactly the tasks whose priority is
    none of [high], [medium] and [low]; and the counts of [byCategory] add up
    to the number of the tasks whose category is no name that a plain object
    inherits from [Object.prototype]: the others are lost to the count, and
    [__proto__] never becomes a bucket. *)
Theorem statistics_counts_add_up (now : Z) (tasks : list Task.t) :
  let stats := statistics now tasks in
  total stats = (stat_completed stats + pending stats)%nat
  /\ (overdue stats <= pending stats)%nat
  /\ sum_of_counts (byCategory stats)
     = count (fun t => negb (inherited_name (bucket t))) tasks
  /\ (sum_of_counts (byCategory stats) <= total stats)%nat
  /\ byCategory stats !! "__proto__" = None
  /\ (list_sum (snd <$> byPriority stats)
      + count (fun t => negb (existsb (String.eqb (Task._priority t))
                                ["high"; "medium"; "low"])) tasks)%nat
     = total stats.
Proof.
  cbn zeta. unfold statistics. cbn [total stat_completed pending overdue
                                      byPriority byCategory].
  assert (Hsum : sum_of_counts (foldl count_category ∅ tasks)
                 = count (fun t => negb (inherited_name (bucket t))) tasks).
  { rewrite sum_byCategory by (intros c v; now rewrite lookup_empty).
    unfold sum_of_counts. rewrite map_fold_empty. lia. }
  split; [now rewrite count_split|].
  split.
  { apply count_le. intros task. unfold overdue_at.
    now intros [H _]%andb_prop. }
  split; [exact Hsum|].
  split.
  { rewrite Hsum. unfold count. apply List.filter_length_le. }
  split; [apply StatisticsFacts.byCategory_proto, lookup_empty|].
  clear Hsum. cbn [fmap list_fmap snd list_sum].
  induction tasks as [|task tasks IH]; [reflexivity|].
  rewrite !StatisticsFacts.count_cons. cbn [length existsb list_sum fold_right] in *.
  destruct (String.eqb (Task._priority task) "high") eqn:H1;
    destruct (String.eqb (Task._priority task) "medium") eqn:H2;
    destruct (String.eqb (Task._priority task) "low") eqn:H3;
    try apply String.eqb_eq in H1; try apply String.eqb_eq in H2;
    try apply String.eqb_eq in H3; try congruence; cbn [negb orb]; lia.
Qed.

End StatisticsOps.

(** ** TaskView: the order of the displayed tasks *)

Module ViewOps.

Lemma isOverdue_not_completed (now : Z) (task : Task.t) :
  Task.isOverdue now task = true -> Task._completed task = false.
Proof.
  unfold Task.isOverdue. destruct (Task._dueDate task); [|discriminate].
  now destruct (Task._completed task).
Qed.

(** X21: the view lists the tasks it is given, none lost and none repeated,
    in three groups: first the overdue tasks, then the other tasks that are
    not completed, then the completed tasks.  This holds whatever the
    priorities and dates of the tasks are. *)
Theorem sortTasks_groups (now : Z) (tasks : list Task.t) :
  let group task :=
    if Task._completed task then 2
    else if Task.isOverdue now task then 0 else 1 in
  TaskView.sortTasks now tasks ≡ₚ tasks
  /\ StronglySorted (fun a b => group a <= group b) (TaskView.sortTasks now tasks).
Proof.
  cbn zeta. split; [apply QueryFacts.sort_Permutation|].
  unfold TaskView.sortTasks. apply ListFacts.sort_sorted.
  - intros a b c. lia.
  - intros a b. unfold TaskView.compare.
    pose proof (isOverdue_not_completed now a) as Ha.
    pose proof (isOverdue_not_completed now b) as Hb.
    destruct (Task._completed a), (Task._completed b),
      (Task.isOverdue now a), (Task.isOverdue now b); cbn;
      try (specialize (Ha eq_refl); discriminate);
      try (specialize (Hb eq_refl); discriminate); lia.
  - intros a b. unfold TaskView.compare.
    pose proof (isOverdue_not_completed now a) as Ha.
    pose proof (isOverdue_not_completed now b) as Hb.
    destruct (Task._completed a), (Task._completed b),
      (Task.isOverdue now a), (Task.isOverdue now b); cbn;
      try (specialize (Ha eq_refl); discriminate);
      try (specialize (Hb eq_refl); discriminate); lia.
Qed.

(** X22: when every task has one of the four valid priorities, the view
    orders the tasks of one group by the rank of the priority, [urgent]
    before [high] before [medium] before [low]: of two tasks, the one listed
    first is in an earlier group, or in the same group with a rank at least
    as high. *)
Theorem sortTasks_ranks_priorities (now : Z) (tasks : list Task.t) :
  List.Forall (fun task => In (Task._priority task) Task.validPriorities) tasks ->
  let group task :=
    if Task._completed task then 2
    else if Task.isOverdue now task then 0 else 1 in
  let rank task := default 0 (TaskView.priorityOrder (Task._priority task)) in
  StronglySorted
    (fun a b => group a < group b \/ (group a = group b /\ rank b <= rank a))
    (TaskView.sortTasks now tasks).
Proof.
  intros Hvalid. cbn zeta. unfold TaskView.sortTasks.
  apply (ListFacts.sort_within _ _
           (fun task => In (Task._priority task) Task.validPriorities));
    [| | |exact Hvalid].
  - intros a b c. lia.
  - intros a b Hpa Hpb. unfold TaskView.compare.
    pose proof (isOverdue_not_completed now a) as Ha.
    pose proof (isOverdue_not_completed now b) as Hb.
    destruct (Task._completed a), (Task._completed b),
      (Task.isOverdue now a), (Task.isOverdue now b);
      cbn [negb Bool.eqb];
      try (specialize (Ha eq_refl); discriminate);
      try (specialize (Hb eq_refl); discriminate); try lia;
      cbn in Hpa, Hpb;
      destruct Hpa as [<-|[<-|[<-|[<-|[]]]]];
      destruct Hpb as [<-|[<-|[<-|[<-|[]]]]]; cbn;
      repeat match goal with
             | |- context [?x - ?y =? 0] =>
                 let v := eval vm_compute in (x - y =? 0) in
                 change (x - y =? 0) with v
             end; cbn [negb]; lia.
  - intros a b Hpa Hpb. unfold TaskView.compare.
    pose proof (isOverdue_not_completed now a) as Ha.
    pose proof (isOverdue_not_completed now b) as Hb.
    destruct (Task._completed a), (Task._completed b),
      (Task.isOverdue now a), (Task.isOverdue now b);
      cbn [negb Bool.eqb];
      try (specialize (Ha eq_refl); discriminate);
      try (specialize (Hb eq_refl); discriminate); try lia;
      cbn in Hpa, Hpb;
      destruct Hpa as [<-|[<-|[<-|[<-|[]]]]];
      destruct Hpb as [<-|[<-|[<-|[<-|[]]]]]; cbn;
      repeat match goal with
             | |- context [?x - ?y =? 0] =>
                 let v := eval vm_compute in (x - y =? 0) in
                 change (x - y =? 0) with v
             end; cbn [negb]; lia.
Qed.

Lemma sortTasks_ranks_priorities_witness :
  TaskView.sortTasks 1000
    [Samples.task_with "a" "low"; Samples.task_t1_flagged; Samples.task_urgent;
     Samples.task_t1]
  = [Samples.task_t1; Samples.task_urgent; Samples.task_with "a" "low";
     Samples.task_t1_flagged]
  /\ StronglySorted
       (fun a b =>
          (if Task._completed a then 2
           else if Task.isOverdue 1000 a then 0 else 1)
          < (if Task._completed b then 2
             else if Task.isOverdue 1000 b then 0 else 1)
          \/ ((if Task._completed a then 2
               else if Task.isOverdue 1000 a then 0 else 1)
              = (if Task._completed b then 2
                 else if Task.isOverdue 1000 b then 0 else 1)
              /\ default 0 (TaskView.priorityOrder (Task._priority b))
                 <= default 0 (TaskView.priorityOrder (Task._priority a))))
       (TaskView.sortTasks 1000
          [Samples.task_with "a" "low"; Samples.task_t1_flagged;
           Samples.task_urgent; Samples.task_t1]).
Proof.
  split; [reflexivity|].
  apply (sortTasks_ranks_priorities 1000).
  repeat (apply List.Forall_cons; [cbn; auto 10|]). apply List.Forall_nil.
Defined.

End ViewOps.

(** ** TaskService *)

Module ServiceOps.

Lemma filter_swap {A} (p q : A -> bool) (l : list A) :
  List.filter p (List.filter q l) = List.filter q (List.filter p l).
Proof.
  induction l as [|a l IH]; [reflexivity|]. cbn.
  destruct (p a) eqn:Hp, (q a) eqn:Hq; cbn; rewrite ?Hp, ?Hq, IH; reflexivity.
Qed.

(** X23: the lists of the service are cuts of one list.  When
    [getTasksForUser] returns the tasks of a user, [getPendingTasks] returns
    those of them that are not completed, [getCompletedTasks] those that are,
    and [getOverdueTasks] those that are overdue, each in the order of the
    full list and with the same effect on the repository; so pending and
    completed tasks together are the tasks of the user, and every overdue
    task is a pending one. *)
Theorem service_lists_cut_the_tasks_of_the_user
    (userId : string) (now : Z) (fresh : string) (service service' : TaskService.t)
    (tasks : list Task.t) :
  TaskService.getTasksForUser userId now fresh service = (Ok tasks, service') ->
  TaskService.getPendingTasks userId now fresh service
  = (Ok (List.filter (fun task => negb (Task._completed task)) tasks), service')
  /\ TaskService.getCompletedTasks userId now fresh service
     = (Ok (List.filter Task._completed tasks), service')
  /\ TaskService.getOverdueTasks userId now fresh service
     = (Ok (List.filter (Task.isOverdue now) tasks), service')
  /\ List.filter (fun task => negb (Task._completed task)) tasks
     ++ List.filter Task._completed tasks ≡ₚ tasks
  /\ forall task,
       In task (List.filter (Task.isOverdue now) tasks) ->
       In task (List.filter (fun task => negb (Task._completed task)) tasks).
Proof.
  unfold TaskService.getOverdueTasks, TaskService.getTasksForUser,
    TaskService.getPendingTasks, TaskService.getCompletedTasks,
    TaskService.reading, TaskRepository.findAll.
  cbn. destruct (mapR _ _) as [hydrated|]; [|intros [=]].
  unfold TaskRepository.query. cbn. intros [= <- <-].
  split; [|split; [|split; [|split]]].
  - rewrite (List.filter_ext _ (fun task => negb (Task._completed task)));
      [reflexivity|]. intros task. now destruct (Task._completed task).
  - rewrite (List.filter_ext _ Task._completed); [reflexivity|].
    intros task. now destruct (Task._completed task).
  - reflexivity.
  - match goal with
    | |- context [List.filter Task._completed ?l] => generalize l
    end.
    intros l. induction l as [|a l IH]; [reflexivity|]. cbn.
    destruct (Task._completed a); cbn.
    + rewrite <- Permutation_middle. now constructor.
    + now constructor.
  - intros task. rewrite !filter_In. intros [Hin Hoverdue]. split; [exact Hin|].
    now rewrite (ViewOps.isOverdue_not_completed _ _ Hoverdue).
Qed.

Lemma service_lists_cut_the_tasks_of_the_user_witness :
  exists tasks service',
    TaskService.getTasksForUser "u1" 1000 "x"
      (TaskController.taskService Samples.controller_u1) = (Ok tasks, service')
    /\ TaskService.getPendingTasks "u1" 1000 "x"
         (TaskController.taskService Samples.controller_u1)
       = (Ok [Samples.task_t1], service')
    /\ fst (TaskService.getCompletedTasks "u1" 1000 "x"
              (TaskController.taskService Samples.controller_u1)) = Ok [].
Proof.
  eexists. eexists.
  assert (H : TaskService.getTasksForUser "u1" 1000 "x"
                (TaskController.taskService Samples.controller_u1)
              = (Ok [Samples.task_t1],
                 snd (TaskService.getTasksForUser "u1" 1000 "x"
                        (TaskController.taskService Samples.controller_u1))))
    by reflexivity.
  split; [exact H|].
  destruct (service_lists_cut_the_tasks_of_the_user _ _ _ _ _ _ H)
    as (Hpending & Hcompleted & _).
  split; [exact Hpending|]. now rewrite Hcompleted.
Defined.

(** X24: the search of the service and the search of the repository apply
    the same test (the lowercased query is part of the lowercased title, of
    the lowercased description or of a lowercased tag): the service returns
    what the repository finds, restricted to the tasks of the user.  An empty
    query matches every task. *)
Theorem searchTasks_agrees_with_repository_search
    (userId query : string) (now : Z) (fresh : string) (service : TaskService.t) :
  userId <> "" ->
  fst (TaskService.searchTasks userId query now fresh service)
  = (let* found :=
       fst (TaskRepository.search query now fresh
              (TaskService.taskRepository service)) in
     Ok (List.filter (fun task => String.eqb (Task._userId task) userId) found))
  /\ fst (TaskRepository.search "" now fresh (TaskService.taskRepository service))
     = fst (TaskRepository.findAll TaskRepository.no_options now fresh
              (TaskService.taskRepository service)).
Proof.
  intros Huser. apply JsFacts.truthy_spec in Huser.
  unfold TaskService.searchTasks, TaskService.getTasksForUser,
    TaskService.reading, TaskRepository.search, TaskRepository.findAll.
  cbn. destruct (mapR _ _) as [hydrated|]; [|split; reflexivity].
  unfold TaskRepository.query, TaskRepository.filter_string. cbn.
  rewrite Huser. split.
  - f_equal. rewrite filter_swap. reflexivity.
  - f_equal. induction hydrated as [|a l IH]; [reflexivity|].
    cbn [List.filter]. unfold TaskRepository.matches at 1.
    assert (Hall : forall s, Js.str_includes s "" = true)
      by (intros s; destruct s; reflexivity).
    change (Js.toLowerCase "") with "". rewrite Hall. cbn [orb].
    now rewrite IH.
Qed.

Lemma searchTasks_agrees_with_repository_search_witness :
  fst (TaskService.searchTasks "u1" "A" 1000 "x"
         (TaskController.taskService Samples.controller_u1))
  = Ok [Samples.task_t1].
Proof.
  rewrite (proj1 (searchTasks_agrees_with_repository_search "u1" "A" 1000 "x"
                    (TaskController.taskService Samples.controller_u1)
                    ltac:(discriminate))).
  reflexivity.
Defined.

(** X25: a [createTask] that fails has written nothing: the persisted
    tasks and the number of [save] calls are as before, no [taskCreated]
    event is sent, and the listeners receive exactly one [error] event that
    carries the operation name and the error thrown.  When the user
    repository knows no user of the given id, the error is "User not found". *)
Theorem createTask_failure_writes_nothing {User UserData : Type}
    (row_id : UserData -> option string) (fromJSON : UserData -> Z -> Result User)
    (userId : string) (taskData : TaskData.t) (now : Z) (fresh : string)
    (e : JsError) (s s' : TaskCreation.t User UserData) :
  TaskData.userId taskData = Some userId ->
  TaskCreation.createTask row_id fromJSON userId taskData now fresh s
  = (Throw e, s') ->
  TaskRepository.persisted (TaskService.taskRepository (TaskCreation.service s'))
  = TaskRepository.persisted (TaskService.taskRepository (TaskCreation.service s))
  /\ TaskRepository.saves (TaskService.taskRepository (TaskCreation.service s'))
     = TaskRepository.saves (TaskService.taskRepository (TaskCreation.service s))
  /\ TaskCreation.created s' = TaskCreation.created s
  /\ TaskService.notified (TaskCreation.service s')
     = TaskService.notified (TaskCreation.service s)
       ++ [TaskService.error "createTask" e]
  /\ (fst (UserRepository.findById row_id fromJSON userId now
             (TaskCreation.userRepository s)) = Ok None ->
      e = TaskCreation.user_not_found).
Proof.
  intros _. unfold TaskCreation.createTask.
  destruct (UserRepository.findById row_id fromJSON userId now
              (TaskCreation.userRepository s)) as [[[user|]|e0] users]; cbn.
  - destruct (Task.constructor _ _ _ _ _ _) as [task|e1].
    + destruct (TaskRepository.create task now _) as [[saved|e2] repo] eqn:Hcreate;
        intros [= <- <-]; cbn.
      apply RepositoryFacts.create_throw in Hcreate as (Hrows & Hsaves & _).
      repeat split; auto. discriminate.
    + intros [= <- <-]; cbn. repeat split; auto. discriminate.
  - intros [= <- <-]; cbn. repeat split; auto.
  - intros [= <- <-]; cbn. repeat split; auto. discriminate.
Qed.

Lemma createTask_failure_writes_nothing_witness :
  exists s',
    TaskCreation.createTask (fun row : string => Some row)
      (fun (row : string) (_ : Z) => Ok row) "u1" Samples.row_t1 1000 "x"
      {| TaskCreation.service := TaskController.taskService Samples.controller_u1;
         TaskCreation.userRepository :=
           UserRepository.constructor
             {| Storage.records := ["u7"]; Storage.loadCalls := 0;
                Storage.saveCalls := 0 |};
         TaskCreation.created := [] |}
    = (Throw TaskCreation.user_not_found, s')
    /\ TaskCreation.created s' = []
    /\ TaskRepository.saves (TaskService.taskRepository (TaskCreation.service s')) = 0%nat.
Proof.
  eexists.
  pose (s := {| TaskCreation.service := TaskController.taskService Samples.controller_u1;
                TaskCreation.userRepository :=
                  UserRepository.constructor
                    {| Storage.records := ["u7"]; Storage.loadCalls := 0;
                       Storage.saveCalls := 0 |};
                TaskCreation.created := [] |} : TaskCreation.t string string).
  assert (H : TaskCreation.createTask (fun row : string => Some row)
                (fun (row : string) (_ : Z) => Ok row) "u1" Samples.row_t1 1000 "x" s
              = (Throw TaskCreation.user_not_found,
                 snd (TaskCreation.createTask (fun row : string => Some row)
                        (fun (row : string) (_ : Z) => Ok row) "u1" Samples.row_t1
                        1000 "x" s)))
    by reflexivity.
  split; [exact H|].
  destruct (createTask_failure_writes_nothing _ _ "u1" Samples.row_t1 _ _ _ _ _
              eq_refl H)
    as (_ & Hsaves & Hcreated & _).
  split; [exact Hcreated|exact Hsaves].
Defined.

End ServiceOps.

(** ** TaskController *)

Module ControllerOps.
Import TaskController.

(** Looking a task up through the service writes nothing. *)
Lemma getTaskById_reads_only (taskId : string) (now : Z) (fresh : string)
    (c : t) (r : Result (option Task.t)) (service : TaskService.t) :
  TaskService.getTaskById taskId now fresh (taskService c) = (r, service) ->
  persisted (with_service service c) = persisted c
  /\ saves (with_service service c) = saves c
  /\ TaskService.notified service = TaskService.notified (taskService c).
Proof.
  unfold TaskService.getTaskById. intros Hget.
  pose proof (ControllerFacts.findById_reads_only taskId now fresh
                (TaskService.taskRepository (taskService c))) as [Hrows Hsaves].
  destruct (TaskRepository.findById taskId now fresh _) as [r0 repo'].
  injection Hget as _ <-. cbn in *. unfold saves, persisted. cbn. auto.
Qed.

(** X26: [deleteTask] deletes nothing when the acting user may not modify
    the task or when the view's confirmation is declined.  Without the
    permission it throws "Permission denied: Cannot delete this task", also
    for an id that names no task, and sends one error event; with a declined
    confirmation it returns [false] and sends nothing.  In both cases the
    service is not asked to delete: no [save] call, the persisted tasks as
    before, no event of the service, and the view is asked for nothing but
    the confirmation. *)
Theorem deleteTask_refused
    (taskId : string) (confirmed : bool) (now : Z) (fresh : string) (c : t)
    (task : option Task.t) (service : TaskService.t) :
  taskId <> "" ->
  TaskService.getTaskById taskId now fresh (taskService c) = (Ok task, service) ->
  canModifyTask task c = false \/ (taskView c = true /\ confirmed = false) ->
  exists c',
    deleteTask taskId confirmed now fresh c
    = (if canModifyTask task c then Ok false else Throw cannot_delete, c', [])
    /\ persisted c' = persisted c
    /\ saves c' = saves c
    /\ TaskService.notified (taskService c') = TaskService.notified (taskService c)
    /\ outputs c'
       = outputs c ++ (if canModifyTask task c then []
                       else [notify_error "deleteTask" cannot_delete now]).
Proof.
  intros Hid Hget Hrefused.
  destruct (getTaskById_reads_only _ _ _ _ _ _ Hget) as (Hrows & Hsaves & Hnotified).
  unfold deleteTask, validateParams. cbn [List.filter snd].
  apply String.eqb_neq in Hid. rewrite Hid. cbn. rewrite Hget.
  change (canModifyTask task (with_service service c)) with (canModifyTask task c).
  destruct (canModifyTask task c); cbn.
  - destruct Hrefused as [[=]|[Hview ->]]. rewrite Hview. cbn.
    eexists. split; [reflexivity|]. rewrite app_nil_r. auto.
  - eexists. split; [reflexivity|]. cbn. auto.
Qed.

Lemma deleteTask_refused_witness :
  exists c',
    deleteTask "t1" true 1000 "x" Samples.controller_u2
    = (Throw cannot_delete, c', [])
    /\ persisted c' = persisted Samples.controller_u2
    /\ saves c' = saves Samples.controller_u2.
Proof.
  assert (H1 : "t1" <> "") by discriminate.
  assert (H2 : TaskService.getTaskById "t1" 1000 "x" (taskService Samples.controller_u2)
               = (Ok (Some Samples.task_t1),
                  snd (TaskService.getTaskById "t1" 1000 "x"
                         (taskService Samples.controller_u2))))
    by reflexivity.
  assert (H3 : canModifyTask (Some Samples.task_t1) Samples.controller_u2 = false
               \/ (taskView Samples.controller_u2 = true /\ true = false))
    by (left; reflexivity).
  destruct (deleteTask_refused "t1" true 1000 "x" Samples.controller_u2 _ _ H1 H2 H3)
    as (c' & Hc' & Hrows & Hsaves & _).
  exists c'. auto.
Defined.

(** X27: [filterTasks] stores the filter type before it looks at it.  A type
    that is none of [all], [pending], [completed], [overdue], [priority],
    [category] and [assigned] throws "Unknown filter type: ..." and sends one
    error event, and stays the current filter: every later [refreshTasks],
    and every [searchTasks] with a blank query, throws the same error. *)
Theorem filterTasks_unknown_type_is_remembered
    (filterType : string) (filterValue : option string) (now : Z) (fresh : string)
    (c : t) :
  ~ In filterType
      ["all"; "pending"; "completed"; "overdue"; "priority"; "category"; "assigned"] ->
  let c' := emit (notify_error "filterTasks" (unknown_filter filterType) now)
              (with_filter filterType c) in
  filterTasks filterType filterValue now fresh c
  = (Throw (unknown_filter filterType), c', [])
  /\ currentFilter c' = filterType
  /\ (forall now' fresh',
        fst (fst (refreshTasks now' fresh' c')) = Throw (unknown_filter filterType))
  /\ (forall now' fresh' query,
        Js.trim query = "" ->
        fst (fst (searchTasks query now' fresh' c')) = Throw (unknown_filter filterType)).
Proof.
  intros Hunknown. cbn zeta.
  assert (Hthrows : forall v c0, currentFilter c0 = filterType ->
            filter_query filterType v now fresh c0
            = (Throw (unknown_filter filterType), c0)
            /\ forall now' fresh',
                 filter_query filterType v now' fresh' c0
                 = (Throw (unknown_filter filterType), c0)).
  { intros v c0 _. unfold filter_query.
    repeat match goal with
           | |- context [String.eqb filterType ?s] =>
               destruct (String.eqb_spec filterType s) as [->|_];
               [exfalso; apply Hunknown; cbn; auto 10|]
           end.
    split; reflexivity. }
  unfold filterTasks at 1.
  rewrite (proj1 (Hthrows filterValue (with_filter filterType c) eq_refl)).
  split; [reflexivity|]. split; [reflexivity|]. split.
  - intros now' fresh'. unfold refreshTasks, filterTasks. cbn [currentFilter emit
      with_filter].
    match goal with
    | |- context [filter_query filterType None now' fresh' ?c0] =>
        rewrite (proj2 (Hthrows None c0 eq_refl) now' fresh')
    end.
    reflexivity.
  - intros now' fresh' query Hblank. unfold searchTasks. rewrite Hblank.
    cbn [String.eqb orb]. rewrite orb_true_r.
    unfold filterTasks. cbn [currentFilter emit with_filter].
    match goal with
    | |- context [filter_query filterType None now' fresh' ?c0] =>
        rewrite (proj2 (Hthrows None c0 eq_refl) now' fresh')
    end.
    reflexivity.
Qed.

Lemma filterTasks_unknown_type_is_remembered_witness :
  fst (fst (filterTasks "tag" (Some "work") 1000 "x" Samples.controller_u1))
  = Throw (Error "Unknown filter type: tag")
  /\ fst (fst (refreshTasks 2000 "y"
                 (snd (fst (filterTasks "tag" (Some "work") 1000 "x"
                              Samples.controller_u1)))))
     = Throw (Error "Unknown filter type: tag").
Proof.
  assert (H : ~ In "tag" ["all"; "pending"; "completed"; "overdue"; "priority";
                          "category"; "assigned"]).
  { cbn. intros [H|[H|[H|[H|[H|[H|[H|[]]]]]]]]; discriminate. }
  destruct (filterTasks_unknown_type_is_remembered "tag" (Some "work") 1000 "x"
              Samples.controller_u1 H) as (Hfilter & _ & Hrefresh & _).
  rewrite Hfilter. split; [reflexivity|]. apply Hrefresh.
Defined.

(** X28: [addTaskTag] with a tag that the task already carries (compared
    in lowercase, without trimming) returns the task as it is: the update is
    not requested, so nothing is written, no permission is checked and
    nothing is sent to the listeners. *)
Theorem addTaskTag_of_present_tag
    (taskId tag : string) (now : Z) (fresh : string) (c : t) (task : Task.t)
    (service : TaskService.t) :
  taskId <> "" ->
  tag <> "" ->
  TaskService.getTaskById taskId now fresh (taskService c) = (Ok (Some task), service) ->
  In (Js.toLowerCase tag) (Task._tags task) ->
  addTaskTag taskId tag now fresh c = (Ok (Some task), with_service service c)
  /\ persisted (with_service service c) = persisted c
  /\ saves (with_service service c) = saves c
  /\ outputs (with_service service c) = outputs c
  /\ TaskService.notified service = TaskService.notified (taskService c).
Proof.
  intros Hid Htag Hget Hpresent.
  destruct (getTaskById_reads_only _ _ _ _ _ _ Hget) as (Hrows & Hsaves & Hnotified).
  unfold addTaskTag, validateParams. cbn [List.filter snd].
  apply String.eqb_neq in Hid, Htag. rewrite Hid, Htag. cbn. rewrite Hget.
  apply JsFacts.includes_spec in Hpresent. rewrite Hpresent. cbn. auto.
Qed.

Lemma addTaskTag_of_present_tag_witness :
  fst (addTaskTag "t1" "Work" 1000 "x"
         (with_service
            {| TaskService.taskRepository :=
                 TaskRepository.cache_set "t1" Samples.task_t1_busy 900
                   Samples.repo_t1;
               TaskService.notified := [] |}
            Samples.controller_u2))
  = Ok (Some Samples.task_t1_busy).
Proof.
  assert (H1 : "t1" <> "") by discriminate.
  assert (H2 : "Work" <> "") by discriminate.
  pose (c := with_service
               {| TaskService.taskRepository :=
                    TaskRepository.cache_set "t1" Samples.task_t1_busy 900
                      Samples.repo_t1;
                  TaskService.notified := [] |}
               Samples.controller_u2).
  assert (H3 : TaskService.getTaskById "t1" 1000 "x" (taskService c)
               = (Ok (Some Samples.task_t1_busy),
                  snd (TaskService.getTaskById "t1" 1000 "x" (taskService c))))
    by reflexivity.
  assert (H4 : In (Js.toLowerCase "Work") (Task._tags Samples.task_t1_busy))
    by (left; reflexivity).
  change (fst (addTaskTag "t1" "Work" 1000 "x" c) = Ok (Some Samples.task_t1_busy)).
  rewrite (proj1 (addTaskTag_of_present_tag "t1" "Work" 1000 "x" c _ _ H1 H2 H3 H4)).
  reflexivity.
Defined.

End ControllerOps.

(** ** The validated routes of update *)

Module UpdateOps.
Import Invariants.

(** X29: the route of an update entry and what it keeps.  In [update]'s
    loop over the keys, [category], [dueDate], [estimatedHours],
    [actualHours] and [status] reach a setter, [title], [description] and
    [priority] reach an update method, and every other key of an entry, the
    names of the own properties included, is assigned directly.  Updates
    that name only the eight keys with a method, and no blank category, turn
    a task in the normal form of the class into a task in normal form. *)
Theorem update_through_methods_keeps_normal_form
    (now : Z) (updates : list Updates.entry) (task task' : Task.t) :
  (forall k, In k ["category"; "dueDate"; "estimatedHours"; "actualHours"; "status"] ->
     Updates.dispatch k = Updates.BySetter)
  /\ (forall k, In k ["title"; "description"; "priority"] ->
       Updates.dispatch k = Updates.ByUpdateMethod)
  /\ (forall u,
       ~ In (Updates.key u)
           ["category"; "dueDate"; "estimatedHours"; "actualHours"; "status";
            "title"; "description"; "priority"] ->
       Updates.dispatch (Updates.key u) = Updates.DirectWrite)
  /\ ((forall u, In u updates ->
         In (Updates.key u)
           ["category"; "dueDate"; "estimatedHours"; "actualHours"; "status";
            "title"; "description"; "priority"]
         /\ forall v, u = Updates.category v -> Js.trim v <> "") ->
      Updates.apply now updates task = Ok task' ->
      normal_form task -> normal_form task').
Proof.
  split; [|split; [|split]].
  - intros k [<-|[<-|[<-|[<-|[<-|[]]]]]]; reflexivity.
  - intros k [<-|[<-|[<-|[]]]]; reflexivity.
  - intros u Hother.
    destruct u as [[]| | | | | | | | | | | | | | | | | | |];
      try reflexivity; exfalso; apply Hother; cbn; auto 10.
  - revert task. induction updates as [|u updates IH]; cbn [Updates.apply];
      intros task Hroutes H Hnf.
    + now injection H as <-.
    + destruct (Updates.apply_entry now u task) as [task1|] eqn:Hu; [|discriminate].
      cbn [bindR] in H.
      apply (IH task1 (fun u' Hin => Hroutes u' (or_intror Hin)) H).
      destruct (Hroutes u (or_introl eq_refl)) as [Hroute Hcategory].
      unfold Updates.apply_entry in Hu.
      destruct u as [[]| | | | | | | | | | | | | | | | | | |];
        cbn [Updates.key Updates.own_key] in Hroute, Hu;
        try (exfalso; cbn in Hroute;
             repeat match goal with
                    | H : _ \/ _ |- _ => destruct H as [H|H]
                    end; (discriminate || contradiction));
        match type of Hu with
        | context [Updates.dispatch ?k] =>
            let r := eval vm_compute in (Updates.dispatch k) in
            change (Updates.dispatch k) with r in Hu
        end;
        cbn [Updates.call_setter Updates.call_update_method] in Hu.
      * eapply HydrationFacts.updateTitle_normal; eauto.
      * eapply HydrationFacts.updateDescription_normal; eauto.
      * eapply HydrationFacts.updatePriority_normal; eauto.
      * eapply HydrationFacts.setCategory_normal; eauto.
      * eapply HydrationFacts.setDueDate_normal; eauto.
      * eapply HydrationFacts.setEstimatedHours_normal; eauto.
      * eapply HydrationFacts.setActualHours_normal; eauto.
      * eapply HydrationFacts.setStatus_normal; eauto.
Qed.

Lemma update_through_methods_keeps_normal_form_witness :
  exists task',
    Updates.apply 2000
      [Updates.title " B "; Updates.estimatedHours (Some PrimFloat.nan);
       Updates.status "completed"]
      Samples.task_t1 = Ok task'
    /\ Task._title task' = "B"
    /\ Task._estimatedHours task' = Some PrimFloat.nan
    /\ normal_form task'.
Proof.
  eexists.
  assert (H : Updates.apply 2000
                [Updates.title " B "; Updates.estimatedHours (Some PrimFloat.nan);
                 Updates.status "completed"]
                Samples.task_t1
              = Ok (Task.markComplete 2000
                      (Task.set_status "completed"
                         (Task.set_estimatedHours (Some PrimFloat.nan)
                            (Task.set_updatedAt (Js.DateAt 2000)
                               (Task.set_title "B" Samples.task_t1))))))
    by reflexivity.
  split; [exact H|]. split; [reflexivity|]. split; [reflexivity|].
  refine (proj2 (proj2 (proj2 (update_through_methods_keeps_normal_form _ _ _ _)))
            _ H HydrationFacts.task_t1_normal).
  intros u [<-|[<-|[<-|[]]]];
    (split; [cbn; auto 10|intros v; discriminate]).
Defined.

End UpdateOps.

(** ** TaskController: permissions *)

Module PermissionOps.

(** X30: whoever may modify a task may view it.  [canViewTask] grants what
    [canModifyTask] grants, to the owner, the assignee and an administrator,
    and besides to a user who may manage users; for no task, or with nobody
    signed in, both refuse. *)
Theorem canModifyTask_implies_canViewTask
    (task : option Task.t) (c : TaskController.t) :
  (TaskController.canModifyTask task c = true ->
   TaskController.canViewTask task c = true)
  /\ (TaskController.canViewTask task c = true <->
      TaskController.canModifyTask task c = true
      \/ exists t user,
           task = Some t /\ TaskController.currentUser c = Some user
           /\ TaskController.canManageUsers user = true)
  /\ TaskController.canViewTask None c = false
  /\ (TaskController.currentUser c = None ->
      TaskController.canViewTask task c = false).
Proof.
  unfold TaskController.canModifyTask, TaskController.canViewTask.
  destruct task as [t|], (TaskController.currentUser c) as [user|];
    try (repeat split; try discriminate; try reflexivity;
         intros [H|(? & ? & ? & ? & ?)]; discriminate).
  destruct (String.eqb (Task._userId t) (TaskController.id user)
            || String.eqb (Task._assignedTo t) (TaskController.id user));
    destruct (TaskController.isAdmin user);
    destruct (TaskController.canManageUsers user) eqn:Hmanage; cbn;
    repeat split; try discriminate; try reflexivity; auto;
    try (intros _; right; exists t, user; auto);
    intros [H|(? & ? & _ & [= <-] & H)]; congruence.
Qed.

End PermissionOps.
